(** * RPi configuration manager: netmask codec, network writers, WiFi manager
    and command dispatcher of [middleware/rpi_config_manager.py].

    The development is a shallow embedding.  A Python [str] is the Rocq
    string of its UTF-8 encoding.  [int] and [str.isdigit] follow CPython
    3.11 on every text (Unicode 14.0.0); the other text primitives agree
    with CPython on texts whose blanks, line boundaries and capital
    letters are ASCII, and take every other character for an ordinary
    one.  Integers are [Z].  Dictionaries that reach a response are
    association lists in insertion order. *)

From Stdlib Require Import ZArith NArith List String Ascii Bool Lia.
From Stdlib Require Import Strings.Byte.
From Stdlib Require Import Sorted Permutation.
Import ListNotations.

Local Open Scope string_scope.
Local Open Scope Z_scope.

(** ** Python text primitives *)

Module Py.

Definition chr (n : nat) : ascii := ascii_of_nat n.

(** [str.isspace] on one ASCII character: TAB, LF, VT, FF, CR, the four
    separators 0x1c-0x1f and the space. *)
Definition is_space (c : ascii) : bool :=
  let n := nat_of_ascii c in
  ((9 <=? n) && (n <=? 13) || (28 <=? n) && (n <=? 32))%nat.

Definition is_digit (c : ascii) : bool :=
  let n := nat_of_ascii c in ((48 <=? n) && (n <=? 57))%nat.

Definition digit_val (c : ascii) : Z := Z.of_nat (nat_of_ascii c) - 48.

Fixpoint rev_onto (s acc : string) : string :=
  match s with
  | EmptyString => acc
  | String c r => rev_onto r (String c acc)
  end.

Definition rev (s : string) : string := rev_onto s EmptyString.

Fixpoint lstrip (s : string) : string :=
  match s with
  | EmptyString => EmptyString
  | String c r => if is_space c then lstrip r else s
  end.

Definition rstrip (s : string) : string := rev (lstrip (rev s)).

(** [s.strip()] *)
Definition strip (s : string) : string := rstrip (lstrip s).

(** [s.startswith(p)] *)
Definition startswith (s p : string) : bool := String.prefix p s.

(** [p in s] for strings *)
Fixpoint contains (s p : string) : bool :=
  String.prefix p s ||
  match s with
  | EmptyString => false
  | String _ r => contains r p
  end.

Definition lower_char (c : ascii) : ascii :=
  let n := nat_of_ascii c in
  if ((65 <=? n) && (n <=? 90))%nat then ascii_of_nat (n + 32) else c.

(** [s.lower()] *)
Fixpoint lower (s : string) : string :=
  match s with
  | EmptyString => EmptyString
  | String c r => String (lower_char c) (lower r)
  end.

(** [s.split(sep)] for a one-character separator: never empty. *)
Fixpoint split (sep : ascii) (s : string) : list string :=
  match s with
  | EmptyString => [EmptyString]
  | String c r =>
      if Ascii.eqb c sep then EmptyString :: split sep r
      else match split sep r with
           | h :: t => String c h :: t
           | [] => [String c EmptyString]
           end
  end.

(** [s.split(sep, maxsplit)] *)
Fixpoint split_max (sep : ascii) (maxsplit : nat) (s : string) : list string :=
  match maxsplit with
  | O => [s]
  | S m =>
      match s with
      | EmptyString => [EmptyString]
      | String c r =>
          if Ascii.eqb c sep then EmptyString :: split_max sep m r
          else match split_max sep maxsplit r with
               | h :: t => String c h :: t
               | [] => [String c EmptyString]
               end
      end
  end.

(** Decimal digits of ASCII only. *)
Fixpoint all_digits (s : string) : bool :=
  match s with
  | EmptyString => true
  | String c r => is_digit c && all_digits r
  end.


(** Digits of [int(s)] after the sign: single underscores are allowed
    between digits only. *)
Fixpoint digits_value (acc : Z) (after_digit : bool) (s : string) : option Z :=
  match s with
  | EmptyString => if after_digit then Some acc else None
  | String c r =>
      if is_digit c then digits_value (10 * acc + digit_val c) true r
      else if Ascii.eqb c "_"%char
           then (if after_digit then digits_value acc false r else None)
           else None
  end.

Definition digit_char (d : Z) : ascii := ascii_of_nat (Z.to_nat d + 48).

(** *** Code points

    [int] and [str.isdigit] look at characters, not bytes: the code points
    of a text are read off its UTF-8 encoding ([None] for bytes that are
    no encoding). *)

Definition continuation (c : ascii) : option N :=
  let b := N_of_ascii c in
  if ((128 <=? b) && (b <? 192))%N then Some (b - 128)%N else None.

Fixpoint code_points (s : string) : option (list N) :=
  match s with
  | EmptyString => Some []
  | String c0 r0 =>
      let b0 := N_of_ascii c0 in
      if (b0 <? 128)%N then option_map (cons b0) (code_points r0)
      else if (b0 <? 194)%N then None
      else
        match r0 with
        | EmptyString => None
        | String c1 r1 =>
            match continuation c1 with
            | None => None
            | Some x1 =>
                if (b0 <? 224)%N
                then option_map (cons ((b0 - 192) * 64 + x1)%N) (code_points r1)
                else
                  match r1 with
                  | EmptyString => None
                  | String c2 r2 =>
                      match continuation c2 with
                      | None => None
                      | Some x2 =>
                          if (b0 <? 240)%N
                          then option_map
                                 (cons (((b0 - 224) * 64 + x1) * 64 + x2)%N)
                                 (code_points r2)
                          else
                            match r2 with
                            | EmptyString => None
                            | String c3 r3 =>
                                match continuation c3 with
                                | None => None
                                | Some x3 =>
                                    if (b0 <? 245)%N
                                    then option_map
                                           (cons ((((b0 - 240) * 64 + x1) * 64 + x2)
                                                  * 64 + x3)%N)
                                           (code_points r3)
                                    else None
                                end
                            end
                      end
                  end
            end
        end
  end.

(** The characters of general category Nd beyond ASCII come in runs of
    ten, zero to nine; these are the zeros (Unicode 14.0.0). *)
Definition decimal_zeros : list N :=
  [
   1632; 1776; 1984; 2406; 2534; 2662; 2790; 2918; 3046; 3174; 3302; 3430;
   3558; 3664; 3792; 3872; 4160; 4240; 6112; 6160; 6470; 6608; 6784; 6800;
   6992; 7088; 7232; 7248; 42528; 43216; 43264; 43472; 43504; 43600; 44016;
   65296; 66720; 68912; 69734; 69872; 69942; 70096; 70384; 70736; 70864;
   71248; 71360; 71472; 71904; 72016; 72784; 73040; 73120; 92768; 92864;
   93008; 120782; 120792; 120802; 120812; 120822; 123200; 123632; 125264;
   130032
  ]%N.

(** [Py_UNICODE_TODECIMAL]: the value of a decimal digit. *)
Definition unicode_decimal (cp : N) : option Z :=
  if (cp <? 128)%N then
    if ((48 <=? cp) && (cp <=? 57))%N then Some (Z.of_N (cp - 48)) else None
  else
    option_map (fun zero => Z.of_N (cp - zero))
      (find (fun zero => ((zero <=? cp) && (cp <? zero + 10))%N) decimal_zeros).

(** The characters [str.isdigit] accepts besides the decimal digits:
    superscripts, subscripts, circled and other digits, as ranges. *)
Definition other_digits : list (N * N) :=
  [
   (178, 179); (185, 185); (4969, 4977); (6618, 6618); (8304, 8304);
   (8308, 8313); (8320, 8329); (9312, 9320); (9332, 9340); (9352, 9360);
   (9450, 9450); (9461, 9469); (9471, 9471); (10102, 10110);
   (10112, 10120); (10122, 10130); (68160, 68163); (69216, 69224);
   (69714, 69722); (127232, 127242)
  ]%N.

(** [Py_UNICODE_ISDIGIT] *)
Definition unicode_isdigit (cp : N) : bool :=
  match unicode_decimal cp with
  | Some _ => true
  | None => existsb (fun r => ((fst r <=? cp) && (cp <=? snd r))%N) other_digits
  end.

(** The blanks beyond ASCII. *)
Definition unicode_spaces : list N :=
  [
   133; 160; 5760; 8192; 8193; 8194; 8195; 8196; 8197; 8198; 8199; 8200;
   8201; 8202; 8232; 8233; 8239; 8287; 12288
  ]%N.

(** [s.isdigit()]: non-empty and every character a digit. *)
Definition isdigit (s : string) : bool :=
  match code_points s with
  | Some (c :: l) => forallb unicode_isdigit (c :: l)
  | _ => false
  end.

(** What [int] makes of a character before it parses the text: an ASCII
    character stays, a blank beyond ASCII becomes a space, a decimal
    digit beyond ASCII becomes its ASCII digit, anything else ends the
    conversion. *)
Definition int_char (cp : N) : option ascii :=
  if (cp <? 128)%N then Some (ascii_of_N cp)
  else if existsb (N.eqb cp) unicode_spaces then Some " "%char
  else option_map digit_char (unicode_decimal cp).

Fixpoint int_text (cps : list N) : option string :=
  match cps with
  | [] => Some EmptyString
  | cp :: r =>
      match int_char cp, int_text r with
      | Some c, Some t => Some (String c t)
      | _, _ => None
      end
  end.

(** The blanks of C's [isspace], which [int] drops around a number: TAB,
    LF, VT, FF, CR and the space (not the separators 0x1c-0x1f). *)
Definition is_c_space (c : ascii) : bool :=
  let n := nat_of_ascii c in
  ((9 <=? n) && (n <=? 13) || (n =? 32))%nat.

Fixpoint lstrip_c (s : string) : string :=
  match s with
  | EmptyString => EmptyString
  | String c r => if is_c_space c then lstrip_c r else s
  end.

Definition strip_c (s : string) : string := rev (lstrip_c (rev (lstrip_c s))).

Fixpoint count_digits (s : string) : Z :=
  match s with
  | EmptyString => 0
  | String c r => (if is_digit c then 1 else 0) + count_digits r
  end.

(** [sys.get_int_max_str_digits()]: the default, which the program does
    not change. *)
Definition int_max_str_digits : Z := 4300.

(** The number after the sign: [None] for a text that is no number or
    has more digits than the limit. *)
Definition int_digits (digits : string) : option Z :=
  if int_max_str_digits <? count_digits digits then None
  else digits_value 0 false digits.

(** [int(s)]: surrounding blanks are dropped, one sign is allowed; [None]
    stands for [ValueError]. *)
Definition int (s : string) : option Z :=
  match code_points s with
  | None => None
  | Some cps =>
      match int_text cps with
      | None => None
      | Some t =>
          match strip_c t with
          | String "+"%char r => int_digits r
          | String "-"%char r => option_map Z.opp (int_digits r)
          | u => int_digits u
          end
      end
  end.

Fixpoint pos_digits (fuel : nat) (n : Z) (acc : string) : string :=
  match fuel with
  | O => acc
  | S f =>
      let acc' := String (digit_char (n mod 10)) acc in
      if n <? 10 then acc' else pos_digits f (n / 10) acc'
  end.

(** [str(n)] for an integer. *)
Definition str_of_int (n : Z) : string :=
  match n with
  | Z0 => "0"
  | Zpos _ => pos_digits (Z.to_nat (Z.log2 n) + 1) n EmptyString
  | Zneg _ => String "-"%char
                (pos_digits (Z.to_nat (Z.log2 (- n)) + 1) (- n) EmptyString)
  end.

Fixpoint pop_pos (p : positive) : Z :=
  match p with
  | xH => 1
  | xO q => pop_pos q
  | xI q => 1 + pop_pos q
  end.

(** [bin(n).count('1')] *)
Definition bin_count_1 (n : Z) : Z :=
  match n with
  | Z0 => 0
  | Zpos p => pop_pos p
  | Zneg p => pop_pos p
  end.

(** [s.replace(a, b)] for single characters. *)
Fixpoint replace_char (a b : ascii) (s : string) : string :=
  match s with
  | EmptyString => EmptyString
  | String c r => String (if Ascii.eqb c a then b else c) (replace_char a b r)
  end.

(** Truth value of a string. *)
Definition truthy (s : string) : bool := negb (String.eqb s EmptyString).

(** Line boundaries of [str.splitlines] on ASCII text. *)
Definition is_linebreak (c : ascii) : bool :=
  let n := nat_of_ascii c in
  ((10 <=? n) && (n <=? 13) || (28 <=? n) && (n <=? 30))%nat.

Definition CR : ascii := ascii_of_nat 13.
Definition LF : ascii := ascii_of_nat 10.

(** [s.splitlines()]: a CR LF pair is one boundary and no empty last
    line is produced. *)
Fixpoint splitlines (s : string) : list string :=
  match s with
  | EmptyString => []
  | String c r =>
      if is_linebreak c then
        EmptyString ::
          (if Ascii.eqb c CR
           then match r with
                | String d r' => if Ascii.eqb d LF then splitlines r' else splitlines r
                | EmptyString => []
                end
           else splitlines r)
      else match splitlines r with
           | h :: t => String c h :: t
           | [] => [String c EmptyString]
           end
  end.

(** [f.readlines()] on text already read with universal newlines: every
    line keeps its LF. *)
Fixpoint readlines (s : string) : list string :=
  match s with
  | EmptyString => []
  | String c r =>
      if Ascii.eqb c LF then String c EmptyString :: readlines r
      else match readlines r with
           | h :: t => String c h :: t
           | [] => [String c EmptyString]
           end
  end.

(** [s.split()]: fields separated by runs of blanks. *)
Fixpoint split_ws (s : string) : list string :=
  match s with
  | EmptyString => []
  | String c r =>
      if is_space c then split_ws r
      else match r with
           | EmptyString => [String c EmptyString]
           | String d _ =>
               if is_space d then String c EmptyString :: split_ws r
               else match split_ws r with
                    | h :: t => String c h :: t
                    | [] => [String c EmptyString]
                    end
           end
  end.

Fixpoint take_word (s : string) : string * string :=
  match s with
  | EmptyString => (EmptyString, EmptyString)
  | String c r =>
      if is_space c then (EmptyString, s)
      else let (w, rest) := take_word r in (String c w, rest)
  end.

(** [s.split(maxsplit=1)] *)
Definition split_ws_1 (s : string) : list string :=
  match lstrip s with
  | EmptyString => []
  | t => let (w, rest) := take_word t in
         match lstrip rest with
         | EmptyString => [w]
         | tail => [w; tail]
         end
  end.

(** [sep.join(parts)] *)
Fixpoint join (sep : string) (parts : list string) : string :=
  match parts with
  | [] => EmptyString
  | [x] => x
  | x :: rest => x ++ sep ++ join sep rest
  end.

End Py.

(** ** Exceptions, results and JSON values *)

(** The exceptions the agent can meet.  [ValueError] and [Failure] carry the
    message the source gives them; the others are raised by libraries. *)
Inductive exn : Type :=
| ValueError (msg : string)
| Failure (msg : string)
| IntError (arg : string)
| AddressValueError (arg : string)
| AttributeError (attr : string)
| IndexError
| UnicodeDecodeError
| JSONDecodeError (text : string)
| CalledProcessError (cmd : list string) (returncode : Z) (stderr : string)
| FileNotFoundError (what : string)
| TimeoutExpired (cmd : list string)
| PermissionError (what : string)
| TypeError (what : string)
| KeyError (key : string)
| OSError (what : string)
| RecursionError.

Definition is_CalledProcessError (e : exn) : bool :=
  match e with CalledProcessError _ _ _ => true | _ => false end.

(** Result of pure code: [inl e] is a raised exception. *)
Definition Exc (A : Type) : Type := (exn + A)%type.

(** Result of a computation: a value, a raised exception, or [Beyond] when
    a value that is not text reaches code written for text (the embedding
    follows the source on text fields only; [Beyond] is never caught). *)
Inductive Res (A : Type) : Type :=
| Ok (a : A)
| Raise (e : exn)
| Beyond.

Arguments Ok {A} a.
Arguments Raise {A} e.
Arguments Beyond {A}.

#[local] Set Warnings "-register-all".

Inductive Json : Type :=
| JNull
| JBool (b : bool)
| JInt (n : Z)
| JStr (s : string)
| JArr (items : list Json)
| JObj (fields : list (string * Json)).

Definition dict := list (string * Json).

(** How deep the containers of a value are nested. *)
Fixpoint depth (v : Json) : nat :=
  match v with
  | JArr items => S (fold_right (fun x acc => Nat.max (depth x) acc) O items)
  | JObj fields =>
      S (fold_right (fun kv acc => Nat.max (depth (snd kv)) acc) O fields)
  | _ => O
  end.

(** [d.get(k)] *)
Fixpoint dict_get (k : string) (d : dict) : option Json :=
  match d with
  | [] => None
  | (k', v) :: r => if String.eqb k k' then Some v else dict_get k r
  end.

(** [d[k] = v]: an existing key keeps its place. *)
Fixpoint dict_set (k : string) (v : Json) (d : dict) : dict :=
  match d with
  | [] => [(k, v)]
  | (k', v') :: r =>
      if String.eqb k k' then (k, v) :: r else (k', v') :: dict_set k v r
  end.

(** [{**a, **b}] and [a.update(b)] *)
Definition dict_update (a b : dict) : dict :=
  fold_left (fun acc kv => dict_set (fst kv) (snd kv) acc) b a.

(** Truth value of a JSON value. *)
Definition json_truthy (v : Json) : bool :=
  match v with
  | JNull => false
  | JBool b => b
  | JInt n => negb (n =? 0)
  | JStr s => Py.truthy s
  | JArr l => match l with [] => false | _ => true end
  | JObj f => match f with [] => false | _ => true end
  end.

(** ** The host: operating system, libraries and clock *)

Record Completed := { returncode : Z; stdout : string; stderr : string }.

(** What [subprocess.run] does with a command before [check] is looked
    at: the process exits, or it could not be run or waited for. *)
Inductive Outcome : Type :=
| Exited (c : Completed)
| NotRun (e : exn).

Class Host : Type := {
  OS : Type;
  (** [str(e)] for an exception raised by a library *)
  lib_text : exn -> string;
  (** [json.loads]; [None] is [JSONDecodeError] *)
  json_loads : string -> option Json;
  (** [json.dumps(v, indent=2)], the text [json.dump] writes *)
  json_dumps : Json -> string;
  (** [str(v)] for a value that is not text *)
  lib_str : Json -> string;
  (** [subprocess.run(argv, timeout=...)] *)
  os_run : option Z -> list string -> OS -> Outcome * OS;
  (** [datetime.now().isoformat()] *)
  os_now : OS -> string;
  (** [int(time.time())] *)
  os_time : OS -> Z;
  (** [time.sleep] *)
  os_sleep : Z -> OS -> OS;
  (** [os.path.exists] *)
  os_exists : string -> OS -> bool;
  (** [os.access(path, os.W_OK)] *)
  os_access_w : string -> OS -> bool;
  (** [open(path, 'r').read()] with universal newlines *)
  os_read : string -> OS -> Exc string;
  (** [open(path, 'w').write(text)] *)
  os_write : string -> string -> OS -> Exc unit * OS;
  (** [shutil.copy2] *)
  os_copy2 : string -> string -> OS -> Exc unit * OS;
  (** [os.system] *)
  os_system : string -> OS -> Z * OS;
  (** [json.dumps(response)] in a publishing method raises
      [RecursionError] on a response nested deeper than the recursion
      limit leaves room for: that room is [8 + dumps_room] containers *)
  dumps_room : nat
}.

(** [json.dumps(response)] returns. *)
Definition serialisable `{Host} (response : Json) : bool :=
  Nat.leb (depth response) (8 + dumps_room).

(** [str(e)] *)
Definition str_exn `{Host} (e : exn) : string :=
  match e with
  | ValueError msg => msg
  | Failure msg => msg
  | _ => lib_text e
  end.

(** ** The standard library's IPv4 types (CPython 3.9.5 and later) *)

Module ipaddress.

Definition ALL_ONES : Z := 4294967295.

(** [_parse_octet]: ASCII digits, at most three, no leading zero, at most 255. *)
Definition parse_octet (o : string) : option Z :=
  match o with
  | EmptyString => None
  | String c0 _ =>
      if negb (Py.all_digits o) then None
      else if (3 <? String.length o)%nat then None
      else if negb (String.eqb o "0") && Ascii.eqb c0 "0"%char then None
      else match Py.digits_value 0 false o with
           | Some v => if 255 <? v then None else Some v
           | None => None
           end
  end.

(** [_ip_int_from_string] *)
Definition ip_int_from_string (s : string) : option Z :=
  match s with
  | EmptyString => None
  | _ =>
      match map parse_octet (Py.split "."%char s) with
      | [Some a; Some b; Some c; Some d] =>
          Some (Z.lor (Z.shiftl a 24)
                  (Z.lor (Z.shiftl b 16) (Z.lor (Z.shiftl c 8) d)))
      | _ => None
      end
  end.

(** [IPv4Address(text)]: [None] is [AddressValueError]. *)
Definition IPv4Address (s : string) : option Z :=
  if Py.contains s "/" then None else ip_int_from_string s.

(** [str(address)] *)
Definition str_address (ip : Z) : string :=
  Py.join "." (map Py.str_of_int
    [Z.land (Z.shiftr ip 24) 255; Z.land (Z.shiftr ip 16) 255;
     Z.land (Z.shiftr ip 8) 255; Z.land ip 255]).

Record Network := { network_address : Z; netmask : Z; prefixlen : Z }.

(** [IPv4Network(f"{address}/{prefix}", strict=False)] for an address the
    constructor accepts and a prefix in 0..32: host bits are masked off. *)
Definition IPv4Network (ip : Z) (prefix : Z) : Network :=
  let m := Z.lxor ALL_ONES (Z.shiftr ALL_ONES prefix) in
  {| network_address := Z.land ip m; netmask := m; prefixlen := prefix |}.

(** [address in network] *)
Definition contains (net : Network) (ip : Z) : bool :=
  Z.land ip (netmask net) =? network_address net.

(** [str(network)] *)
Definition str_network (net : Network) : string :=
  str_address (network_address net) ++ "/" ++ Py.str_of_int (prefixlen net).

End ipaddress.

(** ** Netmask and prefix-length codec *)

Section Codec.
Context `{Host}.

(** The loop of [_netmask_to_cidr] over the octets. *)
Fixpoint count_octets (octets : list string) (cidr : Z) : Exc Z :=
  match octets with
  | [] => inr cidr
  | octet :: rest =>
      match Py.int octet with
      | None => inl (IntError octet)
      | Some octet_int =>
          if negb ((0 <=? octet_int) && (octet_int <=? 255))
          then inl (ValueError ("Invalid octet value: " ++ Py.str_of_int octet_int))
          else count_octets rest (cidr + Py.bin_count_1 octet_int)
      end
  end.

Definition netmask_to_cidr_body (netmask : string) : Exc Z :=
  let octets := Py.split "."%char netmask in
  if negb (Nat.eqb (List.length octets) 4)
  then inl (ValueError ("Invalid netmask format: " ++ netmask))
  else match count_octets octets 0 with
       | inr cidr =>
           if negb ((8 <=? cidr) && (cidr <=? 30))
           then inl (ValueError ("Invalid CIDR: /" ++ Py.str_of_int cidr))
           else inr cidr
       | inl e => inl e
       end.

(** [_netmask_to_cidr]: any failure is re-raised as one [ValueError]. *)
Definition _netmask_to_cidr (netmask : string) : Exc Z :=
  match netmask_to_cidr_body netmask with
  | inr cidr => inr cidr
  | inl _ => inl (ValueError ("Invalid netmask: " ++ netmask))
  end.

Definition fallback_netmask : string := "255.255.255.0".

(** [_cidr_to_netmask]: a negative shift count raises inside the [try]
    and the bare [except] answers with the fallback. *)
Definition _cidr_to_netmask (cidr : Z) : string :=
  if 32 - cidr <? 0 then fallback_netmask
  else
    let mask := Z.shiftl (Z.shiftr 4294967295 (32 - cidr)) (32 - cidr) in
    Py.str_of_int (Z.land (Z.shiftr mask 24) 255) ++ "." ++
    Py.str_of_int (Z.land (Z.shiftr mask 16) 255) ++ "." ++
    Py.str_of_int (Z.land (Z.shiftr mask 8) 255) ++ "." ++
    Py.str_of_int (Z.land mask 255).

(** The [try] block of [_validate_network_config]. *)
Definition validate_body (static_ip netmask : string) (gateway : option string)
  : Exc string :=
  match ipaddress.IPv4Address static_ip with
  | None => inl (AddressValueError static_ip)
  | Some ip =>
      match _netmask_to_cidr netmask with
      | inr cidr =>
          let network := ipaddress.IPv4Network ip cidr in
          let accepted := inr ("Valid network configuration: "
                               ++ ipaddress.str_network network) in
          match gateway with
          | None => accepted
          | Some gw =>
              if negb (Py.truthy gw) then accepted
              else match ipaddress.IPv4Address gw with
                   | None => inl (AddressValueError gw)
                   | Some gateway_obj =>
                       if negb (ipaddress.contains network gateway_obj)
                       then inl (ValueError ("Gateway " ++ gw ++ " not in network "
                                             ++ ipaddress.str_network network))
                       else accepted
                   end
          end
      | inl e => inl e
      end
  end.

(** [_validate_network_config] *)
Definition _validate_network_config (static_ip netmask : string)
    (gateway : option string) : bool * string :=
  match validate_body static_ip netmask gateway with
  | inr msg => (true, msg)
  | inl e => (false, "Invalid network config: " ++ str_exn e)
  end.

End Codec.

(** ** The agent's state and its computations *)

(** A message handed to the bus client: the topic and the response object
    that [json.dumps] serialises. *)
Record Pub := { pub_topic : string; pub_body : dict }.

Section Agent.
Context `{Host}.

(** The agent: the host it runs on, what it has published so far (oldest
    first), and the fields [self.config] and [self.network_method]. *)
Record St := {
  os : OS;
  outbox : list Pub;
  config : Json;
  network_method : string
}.

Definition with_os (s : St) (o : OS) : St :=
  {| os := o; outbox := outbox s; config := config s;
     network_method := network_method s |}.

Definition with_outbox (s : St) (l : list Pub) : St :=
  {| os := os s; outbox := l; config := config s;
     network_method := network_method s |}.

Definition with_config (s : St) (c : Json) : St :=
  {| os := os s; outbox := outbox s; config := c;
     network_method := network_method s |}.

Definition M (A : Type) : Type := St -> Res A * St.

Definition ret {A} (a : A) : M A := fun s => (Ok a, s).

Definition raise {A} (e : exn) : M A := fun s => (Raise e, s).

Definition beyond {A} : M A := fun s => (Beyond, s).

Definition bind {A B} (m : M A) (k : A -> M B) : M B :=
  fun s =>
    match m s with
    | (Ok a, s') => k a s'
    | (Raise e, s') => (Raise e, s')
    | (Beyond, s') => (Beyond, s')
    end.

(** [try: m  except Exception as e: handler(e)] *)
Definition try_except {A} (m : M A) (handler : exn -> M A) : M A :=
  fun s =>
    match m s with
    | (Raise e, s') => handler e s'
    | other => other
    end.

(** [try: m  except <kind> as e: handler(e)]: other exceptions go on. *)
Definition try_except_if {A} (kind : exn -> bool) (m : M A)
    (handler : exn -> M A) : M A :=
  fun s =>
    match m s with
    | (Raise e, s') => if kind e then handler e s' else (Raise e, s')
    | other => other
    end.

Definition lift_exc {A} (r : Exc A) : M A :=
  match r with
  | inr a => ret a
  | inl e => raise e
  end.

Definition get_state : M St := fun s => (Ok s, s).

Definition on_os {A} (f : OS -> A * OS) : M A :=
  fun s => let (a, o) := f (os s) in (Ok a, with_os s o).

End Agent.

Declare Scope agent_scope.
Delimit Scope agent_scope with agent.
Notation "x <- m ;; k" := (bind m (fun x => k))
  (at level 61, m at next level, right associativity) : agent_scope.
Notation "m ;;; k" := (bind m (fun _ => k))
  (at level 61, right associativity) : agent_scope.
Local Open Scope agent_scope.

Section Processes.
Context `{Host}.

(** [subprocess.run(argv, ...)] without [check]. *)
Definition run (timeout : option Z) (argv : list string) : M Completed :=
  fun s =>
    let (o, os') := os_run timeout argv (os s) in
    (match o with
     | Exited c => Ok c
     | NotRun e => Raise e
     end, with_os s os').

(** [subprocess.run(argv, ..., check=True)] *)
Definition run_checked (timeout : option Z) (argv : list string) : M Completed :=
  c <- run timeout argv ;;
  if returncode c =? 0 then ret c
  else raise (CalledProcessError argv (returncode c) (stderr c)).

(** [time.sleep(seconds)] *)
Definition sleep (seconds : Z) : M unit :=
  fun s => (Ok tt, with_os s (os_sleep seconds (os s))).

(** [datetime.now().isoformat()] *)
Definition now : M string := fun s => (Ok (os_now (os s)), s).

End Processes.

(** ** NetworkManager writer *)

(** The first element a loop returns from. *)
Fixpoint find_map {A B} (f : A -> option B) (l : list A) : option B :=
  match l with
  | [] => None
  | x :: r => match f x with
              | Some b => Some b
              | None => find_map f r
              end
  end.

Section NetworkManager.
Context `{Host}.

Definition ethernet_on (interface line : string) : option string :=
  if Py.truthy line then
    match Py.split ":"%char line with
    | name :: conn_type :: device :: _ =>
        if String.eqb conn_type "ethernet" && String.eqb device interface
        then Some name else None
    | _ => None
    end
  else None.

Definition any_ethernet (line : string) : option string :=
  if Py.truthy line then
    match Py.split ":"%char line with
    | name :: conn_type :: _ =>
        if String.eqb conn_type "ethernet" then Some name else None
    | _ => None
    end
  else None.

Definition default_connection : string := "Wired connection 1".

(** [_get_ethernet_connection_name] *)
Definition _get_ethernet_connection_name (interface : string) : M string :=
  try_except
    (result <- run_checked None
                 ["nmcli"; "-t"; "-f"; "NAME,TYPE,DEVICE"; "connection"; "show"] ;;
     let lines := Py.split Py.LF (Py.strip (stdout result)) in
     match find_map (ethernet_on interface) lines with
     | Some name => ret name
     | None =>
         match find_map any_ethernet lines with
         | Some name => ret name
         | None => ret default_connection
         end
     end)
    (fun _ => ret default_connection).

(** The down/up cycle both NetworkManager writers try after a change. *)
Definition reactivate (conn_name : string) : M unit :=
  run_checked None ["nmcli"; "con"; "down"; conn_name] ;;;
  sleep 2 ;;;
  run_checked None ["nmcli"; "con"; "up"; conn_name] ;;;
  ret tt.

Definition static_activated (ip interface : string) : string :=
  "Static IP " ++ ip ++ " set and activated for " ++ interface.

Definition static_configured (ip interface : string) : string :=
  "Static IP " ++ ip ++ " configured for " ++ interface
  ++ ". Connect ethernet cable to activate.".

Definition nmcli_failed (e : exn) : string :=
  match e with
  | CalledProcessError _ _ err =>
      "nmcli command failed: " ++ (if Py.truthy err then err else str_exn e)
  | _ => EmptyString
  end.

Definition modify_static_cmd (conn_name ip : string) (cidr : Z)
    (gateway dns : string) : list string :=
  List.app
    ["nmcli"; "con"; "modify"; conn_name;
     "ipv4.method"; "manual";
     "ipv4.addresses"; ip ++ "/" ++ Py.str_of_int cidr;
     "ipv4.gateway"; gateway]
    (if Py.truthy dns
     then ["ipv4.dns"; Py.replace_char " "%char ","%char dns] else []).

(** [_set_networkmanager_static] *)
Definition _set_networkmanager_static (interface ip netmask gateway dns : string)
  : M (bool * string) :=
  try_except
    (let (valid, msg) := _validate_network_config ip netmask (Some gateway) in
     if negb valid then ret (false, msg)
     else
       conn_name <- _get_ethernet_connection_name interface ;;
       cidr <- lift_exc (_netmask_to_cidr netmask) ;;
       run_checked None (modify_static_cmd conn_name ip cidr gateway dns) ;;;
       try_except_if is_CalledProcessError
         (reactivate conn_name ;;;
          ret (true, static_activated ip interface))
         (fun _ => ret (true, static_configured ip interface)))
    (fun e =>
       if is_CalledProcessError e then ret (false, nmcli_failed e)
       else ret (false, "Error setting NetworkManager static IP: " ++ str_exn e)).

(** [_set_networkmanager_dhcp] *)
Definition _set_networkmanager_dhcp (interface : string) : M (bool * string) :=
  try_except
    (conn_name <- _get_ethernet_connection_name interface ;;
     run None ["nmcli"; "con"; "modify"; conn_name; "ipv4.addresses"; ""] ;;;
     run None ["nmcli"; "con"; "modify"; conn_name; "ipv4.gateway"; ""] ;;;
     run None ["nmcli"; "con"; "modify"; conn_name; "ipv4.dns"; ""] ;;;
     run_checked None ["nmcli"; "con"; "modify"; conn_name; "ipv4.method"; "auto"] ;;;
     try_except_if is_CalledProcessError
       (reactivate conn_name ;;;
        ret (true, "DHCP configured and activated for " ++ interface))
       (fun _ => ret (true, "DHCP configured for " ++ interface
                            ++ ". Connect ethernet cable to activate.")))
    (fun e =>
       if is_CalledProcessError e then ret (false, nmcli_failed e)
       else ret (false, "Error setting NetworkManager DHCP: " ++ str_exn e)).

End NetworkManager.

(** ** Configuration readers *)

(** [l[i]]: [IndexError] when out of range. *)
Definition item {A} (l : list A) (i : nat) : Exc A :=
  match nth_error l i with
  | Some x => inr x
  | None => inl IndexError
  end.

(** A loop over lines that updates an accumulator and may raise. *)
Fixpoint fold_exc {A B} (f : A -> B -> Exc B) (l : list A) (acc : B) : Exc B :=
  match l with
  | [] => inr acc
  | x :: r => match f x acc with
              | inr acc' => fold_exc f r acc'
              | inl e => inl e
              end
  end.

Section Readers.
Context `{Host}.

(** One line of [nmcli -t -f ipv4.method,... con show], applied to the
    entry of the device. *)
Definition apply_con_line (con_line : string) (entry : dict) : Exc dict :=
  if Py.contains con_line ":" then
    match Py.split_max ":"%char 1 con_line with
    | [key; value] =>
        if String.eqb key "ipv4.method" then
          inr (dict_set "method"
                 (JStr (if String.eqb value "manual" then "static" else "dhcp")) entry)
        else if String.eqb key "ipv4.addresses" && Py.truthy value then
          let addr := hd EmptyString (Py.split ","%char value) in
          if Py.contains addr "/" then
            let ip_addr := hd EmptyString (Py.split "/"%char addr) in
            let cidr := nth 1 (Py.split "/"%char addr) EmptyString in
            match Py.int cidr with
            | None => inl (IntError cidr)
            | Some n =>
                inr (dict_set "netmask" (JStr (_cidr_to_netmask n))
                       (dict_set "cidr" (JStr cidr)
                          (dict_set "address" (JStr ip_addr) entry)))
            end
          else inr entry
        else if String.eqb key "ipv4.gateway" && Py.truthy value then
          inr (dict_set "gateway" (JStr value) entry)
        else if String.eqb key "ipv4.dns" && Py.truthy value then
          inr (dict_set "dns-nameservers"
                 (JStr (Py.replace_char ";"%char " "%char value)) entry)
        else inr entry
    | _ => inr entry
    end
  else inr entry.

(** The address bound to a connected device, from [nmcli device show]. *)
Definition apply_current_address (out : string) (entry : dict) : Exc dict :=
  if Py.truthy (Py.strip out) then
    match find (fun l => Py.startswith l "IP4.ADDRESS[1]")
               (Py.split Py.LF (Py.strip out)) with
    | Some ip_line =>
        match item (Py.split ":"%char ip_line) 1 with
        | inr field =>
            let ip_addr_full := Py.strip field in
            if Py.contains ip_addr_full "/" then
              inr (dict_set "current_address"
                     (JStr (hd EmptyString (Py.split "/"%char ip_addr_full))) entry)
            else inr entry
        | inl e => inl e
        end
    | None => inr entry
    end
  else inr entry.

Definition read_device (device type_name state connection : string)
    (interfaces : dict) : M dict :=
  let entry0 : dict :=
    [("state", JStr state);
     ("connection", JStr (if Py.truthy connection then connection else "none"));
     ("type", JStr type_name);
     ("method", JStr "dhcp")] in
  found <-
    (if String.eqb device "eth0"
        && (negb (Py.truthy connection) || String.eqb connection "--")
     then
       try_except_if is_CalledProcessError
         (conn_result <- run_checked None
                           ["nmcli"; "-t"; "-f"; "NAME,TYPE"; "con"; "show"] ;;
          match find_map any_ethernet
                  (Py.split Py.LF (Py.strip (stdout conn_result))) with
          | Some c => ret (c, dict_set "connection" (JStr c) entry0)
          | None => ret (connection, entry0)
          end)
         (fun _ => ret (connection, entry0))
     else ret (connection, entry0)) ;;
  let connection := fst found in
  let entry1 := snd found in
  entry2 <-
    (if Py.truthy connection && negb (String.eqb connection "--")
        && negb (String.eqb connection "")
     then
       try_except_if is_CalledProcessError
         (con_result <- run_checked None
                          ["nmcli"; "-t"; "-f";
                           "ipv4.method,ipv4.addresses,ipv4.gateway,ipv4.dns";
                           "con"; "show"; connection] ;;
          lift_exc (fold_exc apply_con_line
                      (Py.split Py.LF (Py.strip (stdout con_result))) entry1))
         (fun _ => ret entry1)
     else ret entry1) ;;
  entry3 <-
    (if String.eqb state "connected"
     then
       try_except_if is_CalledProcessError
         (ip_result <- run_checked None
                         ["nmcli"; "-t"; "-f"; "IP4.ADDRESS"; "device"; "show"; device] ;;
          lift_exc (apply_current_address (stdout ip_result) entry2))
         (fun _ => ret entry2)
     else ret entry2) ;;
  ret (dict_set device (JObj entry3) interfaces).

Fixpoint read_devices (lines : list string) (interfaces : dict) : M dict :=
  match lines with
  | [] => ret interfaces
  | line :: rest =>
      interfaces' <-
        (if Py.truthy line then
           match Py.split ":"%char line with
           | device :: type_name :: state :: connection :: _ =>
               if String.eqb type_name "ethernet" || String.eqb type_name "wifi"
               then read_device device type_name state connection interfaces
               else ret interfaces
           | _ => ret interfaces
           end
         else ret interfaces) ;;
      read_devices rest interfaces'
  end.

(** [_read_networkmanager_config] *)
Definition _read_networkmanager_config : M (bool * Json) :=
  try_except
    (result <- run_checked None
                 ["nmcli"; "-t"; "-f"; "DEVICE,TYPE,STATE,CONNECTION"; "device"; "status"] ;;
     interfaces <- read_devices (Py.split Py.LF (Py.strip (stdout result))) [] ;;
     ret (true, JObj interfaces))
    (fun e =>
       if is_CalledProcessError e
       then ret (false, JStr ("NetworkManager command failed: " ++ str_exn e))
       else ret (false, JStr ("Error reading NetworkManager config: " ++ str_exn e))).

Definition dhcpcd_file : string := "/etc/dhcpcd.conf".
Definition interfaces_file : string := "/etc/network/interfaces".

(** [interfaces[name][key] = value] *)
Definition set_field (name key value : string) (interfaces : dict) : dict :=
  match dict_get name interfaces with
  | Some (JObj entry) => dict_set name (JObj (dict_set key (JStr value) entry)) interfaces
  | _ => interfaces
  end.

(** One line of dhcpcd.conf: the state is the current interface and the
    entries read so far. *)
Definition dhcpcd_line (raw : string) (st : option string * dict)
  : Exc (option string * dict) :=
  let line := Py.strip raw in
  let (current_interface, interfaces) := st in
  if Py.startswith line "interface " then
    match item (Py.split_ws line) 1 with
    | inr name => inr (Some name, dict_set name (JObj [("method", JStr "static")]) interfaces)
    | inl e => inl e
    end
  else
    match current_interface with
    | Some cur =>
        if negb (Py.truthy cur) then inr st
        else if Py.startswith line "static ip_address=" then
          match item (Py.split "="%char line) 1 with
          | inr v => inr (current_interface,
                          set_field cur "address" (hd EmptyString (Py.split "/"%char v)) interfaces)
          | inl e => inl e
          end
        else if Py.startswith line "static routers=" then
          match item (Py.split "="%char line) 1 with
          | inr v => inr (current_interface, set_field cur "gateway" v interfaces)
          | inl e => inl e
          end
        else if Py.startswith line "static domain_name_servers=" then
          match item (Py.split "="%char line) 1 with
          | inr v => inr (current_interface, set_field cur "dns-nameservers" v interfaces)
          | inl e => inl e
          end
        else inr st
    | None => inr st
    end.

Definition dict_has (k : string) (d : dict) : bool :=
  match dict_get k d with Some _ => true | None => false end.

(** [if iface not in interfaces: interfaces[iface] = {'method': 'dhcp'}] *)
Definition default_dhcp (iface : string) (interfaces : dict) : dict :=
  if dict_has iface interfaces then interfaces
  else dict_set iface (JObj [("method", JStr "dhcp")]) interfaces.

(** [open(path).read()] *)
Definition read_file (path : string) : M string :=
  fun s => (match os_read path (os s) with
            | inr text => Ok text
            | inl e => Raise e
            end, s).

Definition path_exists (path : string) : M bool :=
  fun s => (Ok (os_exists path (os s)), s).

(** [_read_dhcpcd_config] *)
Definition _read_dhcpcd_config : M (bool * Json) :=
  try_except
    (present <- path_exists dhcpcd_file ;;
     interfaces <-
       (if present then
          content <- read_file dhcpcd_file ;;
          st <- lift_exc (fold_exc dhcpcd_line (Py.splitlines content) (None, [])) ;;
          ret (snd st)
        else ret []) ;;
     ret (true, JObj (default_dhcp "wlan0" (default_dhcp "eth0" interfaces))))
    (fun e => ret (false, JStr ("Error reading dhcpcd config: " ++ str_exn e))).

Definition ensure_entry (name : string) (interfaces : dict) : dict :=
  if dict_has name interfaces then interfaces else dict_set name (JObj []) interfaces.

(** One line of the interfaces file. *)
Definition interfaces_line (raw : string) (st : option string * dict)
  : Exc (option string * dict) :=
  let line := Py.strip raw in
  let (current_iface, interfaces) := st in
  if Py.startswith line "auto " then
    match item (Py.split_ws line) 1 with
    | inr name => inr (Some name, ensure_entry name interfaces)
    | inl e => inl e
    end
  else if Py.startswith line "iface " then
    match Py.split_ws line with
    | _ :: iface_name :: _ :: method :: _ =>
        inr (Some iface_name,
             set_field iface_name "method" method (ensure_entry iface_name interfaces))
    | _ => inr st
    end
  else
    match current_iface with
    | Some cur =>
        if Py.truthy cur && Py.truthy line then
          match Py.split_ws_1 line with
          | [key; value] =>
              if existsb (String.eqb key) ["address"; "netmask"; "gateway"; "dns-nameservers"]
              then inr (current_iface, set_field cur key value interfaces)
              else inr st
          | _ => inr st
          end
        else inr st
    | None => inr st
    end.

(** [parse_interfaces_file] *)
Definition parse_interfaces_file (content : string) : dict :=
  match fold_exc interfaces_line (Py.splitlines content) (None, []) with
  | inr st => snd st
  | inl _ => []
  end.

Definition both_dhcp : Json :=
  JObj [("eth0", JObj [("method", JStr "dhcp")]);
        ("wlan0", JObj [("method", JStr "dhcp")])].

Definition is_FileNotFoundError (e : exn) : bool :=
  match e with FileNotFoundError _ => true | _ => false end.

Definition is_PermissionError (e : exn) : bool :=
  match e with PermissionError _ => true | _ => false end.

Definition is_TimeoutExpired (e : exn) : bool :=
  match e with TimeoutExpired _ => true | _ => false end.

(** [_read_interfaces_config] *)
Definition _read_interfaces_config : M (bool * Json) :=
  try_except
    (present <- path_exists interfaces_file ;;
     if negb present then ret (true, both_dhcp)
     else
       file_content <- read_file interfaces_file ;;
       ret (true, JObj (parse_interfaces_file file_content)))
    (fun e =>
       if is_FileNotFoundError e then ret (true, both_dhcp)
       else if is_PermissionError e
       then ret (false, JStr "Permission denied to read /etc/network/interfaces")
       else ret (false, JStr ("Error reading interfaces file: " ++ str_exn e))).

(** [read_current_ip_config] *)
Definition read_current_ip_config : M (bool * Json) :=
  try_except
    (s <- get_state ;;
     let method := network_method s in
     if String.eqb method "networkmanager" then _read_networkmanager_config
     else if String.eqb method "dhcpcd" then _read_dhcpcd_config
     else if String.eqb method "interfaces" then _read_interfaces_config
     else ret (false, JStr ("Unsupported network method: " ++ method)))
    (fun e => ret (false, JStr ("Error reading network config: " ++ str_exn e))).

End Readers.

(** ** Configuration writers *)

(** The filter both dhcpcd writers apply: the stanza of the interface is
    dropped up to the next [interface] line. *)
Fixpoint drop_stanza (interface : string) (skip_interface : bool)
    (config_lines : list string) : list string :=
  match config_lines with
  | [] => []
  | line :: rest =>
      if Py.startswith (Py.strip line) ("interface " ++ interface)
      then drop_stanza interface true rest
      else if Py.startswith (Py.strip line) "interface " && skip_interface
      then line :: drop_stanza interface false rest
      else if negb skip_interface
      then line :: drop_stanza interface skip_interface rest
      else drop_stanza interface skip_interface rest
  end.

Definition opt_truthy (v : option string) : bool :=
  match v with
  | Some s => Py.truthy s
  | None => false
  end.

Definition TAB : string := String (ascii_of_nat 9) EmptyString.
Definition NL : string := String Py.LF EmptyString.

(** What [change_ip_configuration] writes in place of the target's
    [iface] line; [None] when the static parameters are incomplete and the
    function returns at once. *)
Definition iface_stanza (interface method : string)
    (static_ip netmask gateway dns : option string) : option (list string) :=
  let head := "iface " ++ interface ++ " inet " ++ method ++ NL in
  if String.eqb method "static" then
    match static_ip, netmask, gateway with
    | Some ip, Some nm, Some gw =>
        if Py.truthy ip && Py.truthy nm && Py.truthy gw then
          Some (List.app
                  [head;
                   TAB ++ "address " ++ ip ++ NL;
                   TAB ++ "netmask " ++ nm ++ NL;
                   TAB ++ "gateway " ++ gw ++ NL]
                  match dns with
                  | Some d => if Py.truthy d
                              then [TAB ++ "dns-nameservers " ++ d ++ NL] else []
                  | None => []
                  end)
        else None
    | _, _, _ => None
    end
  else Some [head].

Definition stanza_option (stripped_line : string) : bool :=
  Py.startswith stripped_line "address " ||
  Py.startswith stripped_line "netmask " ||
  Py.startswith stripped_line "gateway " ||
  Py.startswith stripped_line "dns-nameservers " ||
  Py.startswith stripped_line "pre-up " ||
  Py.startswith stripped_line "post-down " ||
  Py.startswith stripped_line "iface ".

(** The loop of [change_ip_configuration] over the lines of the file,
    from the value [in_target_iface_section] has; the result is what is
    appended to [new_lines], or [None] for the early return. *)
Fixpoint rewrite_lines (interface method : string)
    (static_ip netmask gateway dns : option string)
    (in_target_iface_section : bool) (lines : list string)
  : option (list string) :=
  match lines with
  | [] => Some []
  | line :: rest =>
      let stripped_line := Py.strip line in
      let continue_with flag :=
        rewrite_lines interface method static_ip netmask gateway dns flag rest in
      if Py.startswith stripped_line ("auto " ++ interface) then
        option_map (cons line) (continue_with in_target_iface_section)
      else if Py.startswith stripped_line ("iface " ++ interface) then
        match iface_stanza interface method static_ip netmask gateway dns with
        | Some emitted => option_map (app emitted) (continue_with true)
        | None => None
        end
      else if in_target_iface_section && stanza_option stripped_line then
        if Py.startswith stripped_line "iface "
           && negb (String.eqb stripped_line
                      ("iface " ++ interface ++ " inet " ++ method))
        then option_map (cons line) (continue_with false)
        else continue_with in_target_iface_section
      else if negb in_target_iface_section then
        option_map (cons line) (continue_with in_target_iface_section)
      else continue_with in_target_iface_section
  end.

Section Writers.
Context `{Host}.

Definition write_file (path text : string) : M unit :=
  fun s => let (r, o) := os_write path text (os s) in
           (match r with inr _ => Ok tt | inl e => Raise e end, with_os s o).

Definition copy2 (src dst : string) : M unit :=
  fun s => let (r, o) := os_copy2 src dst (os s) in
           (match r with inr _ => Ok tt | inl e => Raise e end, with_os s o).

Definition access_w (path : string) : M bool :=
  fun s => (Ok (os_access_w path (os s)), s).

Definition time_now : M Z := fun s => (Ok (os_time (os s)), s).

(** [_set_dhcpcd_static] *)
Definition _set_dhcpcd_static (interface ip netmask gateway dns : string)
  : M (bool * string) :=
  try_except
    (present <- path_exists dhcpcd_file ;;
     if negb present then ret (false, "dhcpcd.conf not found at " ++ dhcpcd_file)
     else
       let (valid, msg) := _validate_network_config ip netmask (Some gateway) in
       if negb valid then ret (false, msg)
       else
         content <- read_file dhcpcd_file ;;
         let kept := drop_stanza interface false (Py.readlines content) in
         cidr <- lift_exc (_netmask_to_cidr netmask) ;;
         let new_lines : list string :=
           List.app kept
             (List.app
                [NL ++ "# Static IP for " ++ interface ++ NL;
                 "interface " ++ interface ++ NL;
                 "static ip_address=" ++ ip ++ "/" ++ Py.str_of_int cidr ++ NL;
                 "static routers=" ++ gateway ++ NL]
                (if Py.truthy dns
                 then ["static domain_name_servers=" ++ dns ++ NL] else [])) in
         write_file dhcpcd_file (String.concat EmptyString new_lines) ;;;
         run_checked None ["sudo"; "systemctl"; "restart"; "dhcpcd"] ;;;
         ret (true, "Static IP " ++ ip ++ " set successfully using dhcpcd"))
    (fun e => ret (false, "Error setting dhcpcd static IP: " ++ str_exn e)).

(** [_set_dhcpcd_dhcp] *)
Definition _set_dhcpcd_dhcp (interface : string) : M (bool * string) :=
  try_except
    (present <- path_exists dhcpcd_file ;;
     if negb present then ret (false, "dhcpcd.conf not found at " ++ dhcpcd_file)
     else
       content <- read_file dhcpcd_file ;;
       let new_lines := drop_stanza interface false (Py.readlines content) in
       write_file dhcpcd_file (String.concat EmptyString new_lines) ;;;
       run_checked None ["sudo"; "systemctl"; "restart"; "dhcpcd"] ;;;
       ret (true, "DHCP set successfully for " ++ interface ++ " using dhcpcd"))
    (fun e => ret (false, "Error setting dhcpcd DHCP: " ++ str_exn e)).

(** [change_ip_configuration] *)
Definition change_ip_configuration (interface method : string)
    (static_ip netmask gateway dns : option string) : M (bool * string) :=
  try_except
    (writable <- access_w interfaces_file ;;
     if negb writable
     then ret (false, "No write permission to " ++ interfaces_file ++ ". Run with sudo.")
     else
       t <- time_now ;;
       copy2 interfaces_file (interfaces_file ++ ".backup." ++ Py.str_of_int t) ;;;
       content <- read_file interfaces_file ;;
       match rewrite_lines interface method static_ip netmask gateway dns false
               (Py.readlines content) with
       | None => ret (false, "Missing static IP parameters (address, netmask, gateway).")
       | Some new_lines =>
           write_file interfaces_file (String.concat EmptyString new_lines) ;;;
           ret (true, "IP configuration updated successfully.")
       end)
    (fun e => ret (false, str_exn e)).

Definition restart_failed (e : exn) : string :=
  match e with
  | CalledProcessError _ _ err =>
      "Failed to restart network service: "
      ++ (if Py.truthy err then Py.strip err else str_exn e)
  | _ => EmptyString
  end.

(** [restart_networking_service] *)
Definition restart_networking_service : M (bool * string) :=
  try_except
    (s <- get_state ;;
     let method := network_method s in
     if String.eqb method "networkmanager" then
       run_checked None ["sudo"; "systemctl"; "restart"; "NetworkManager"] ;;;
       ret (true, "NetworkManager service restarted successfully.")
     else if String.eqb method "dhcpcd" then
       run_checked None ["sudo"; "systemctl"; "restart"; "dhcpcd"] ;;;
       ret (true, "dhcpcd service restarted successfully.")
     else if String.eqb method "interfaces" then
       try_except_if is_CalledProcessError
         (run_checked None ["sudo"; "systemctl"; "restart"; "networking"] ;;;
          ret (true, "networking service restarted successfully."))
         (fun _ =>
            run None ["sudo"; "ifdown"; "eth0"] ;;;
            sleep 2 ;;;
            run None ["sudo"; "ifup"; "eth0"] ;;;
            ret (true, "Network interface restarted with ifdown/ifup."))
     else ret (false, "Unknown network method: " ++ method))
    (fun e =>
       if is_CalledProcessError e then ret (false, restart_failed e)
       else ret (false, "Unexpected error restarting network service: " ++ str_exn e)).

(** [_set_interfaces_static] *)
Definition _set_interfaces_static (interface ip netmask gateway dns : string)
  : M (bool * string) :=
  try_except
    (present <- path_exists interfaces_file ;;
     if negb present then ret (false, "/etc/network/interfaces not found")
     else
       let (valid, msg) := _validate_network_config ip netmask (Some gateway) in
       if negb valid then ret (false, msg)
       else
         changed <- change_ip_configuration interface "static"
                      (Some ip) (Some netmask) (Some gateway) (Some dns) ;;
         if fst changed then
           restarted <- restart_networking_service ;;
           ret (fst restarted, snd changed ++ " " ++ snd restarted)
         else ret changed)
    (fun e => ret (false, "Error setting interfaces static IP: " ++ str_exn e)).

(** [_set_interfaces_dhcp] *)
Definition _set_interfaces_dhcp (interface : string) : M (bool * string) :=
  try_except
    (present <- path_exists interfaces_file ;;
     if negb present then ret (false, "/etc/network/interfaces not found")
     else
       changed <- change_ip_configuration interface "dhcp" None None None None ;;
       if fst changed then
         restarted <- restart_networking_service ;;
         ret (fst restarted, snd changed ++ " " ++ snd restarted)
       else ret changed)
    (fun e => ret (false, "Error setting interfaces DHCP: " ++ str_exn e)).

(** [set_static_ip] *)
Definition set_static_ip (interface ip netmask gateway dns : string)
  : M (bool * string) :=
  try_except
    (s <- get_state ;;
     let method := network_method s in
     if String.eqb method "networkmanager"
     then _set_networkmanager_static interface ip netmask gateway dns
     else if String.eqb method "dhcpcd"
     then _set_dhcpcd_static interface ip netmask gateway dns
     else if String.eqb method "interfaces"
     then _set_interfaces_static interface ip netmask gateway dns
     else ret (false, "Unsupported network method: " ++ method))
    (fun e => ret (false, "Error setting static IP: " ++ str_exn e)).

(** [set_dynamic_ip] *)
Definition set_dynamic_ip (interface : string) : M (bool * string) :=
  try_except
    (s <- get_state ;;
     let method := network_method s in
     if String.eqb method "networkmanager" then _set_networkmanager_dhcp interface
     else if String.eqb method "dhcpcd" then _set_dhcpcd_dhcp interface
     else if String.eqb method "interfaces" then _set_interfaces_dhcp interface
     else ret (false, "Unsupported network method: " ++ method))
    (fun e => ret (false, "Error setting dynamic IP: " ++ str_exn e)).

End Writers.

(** ** Network system detection *)

(** [result.returncode == 0 and result.stdout.strip() == 'active'] *)
Definition is_active (result : Completed) : bool :=
  (returncode result =? 0) && String.eqb (Py.strip (stdout result)) "active".

(** [all(line.startswith('#') for line in content.splitlines() if line.strip())] *)
Definition all_comments (content : string) : bool :=
  forallb (fun line => Py.startswith line "#")
    (filter (fun line => Py.truthy (Py.strip line)) (Py.splitlines content)).

Definition supported_methods : list string :=
  ["networkmanager"; "dhcpcd"; "interfaces"].

Section Detection.
Context `{Host}.

(** The body of the [try] of [_detect_network_method]. *)
Definition detect_probes : M string :=
  result <- run None ["systemctl"; "is-active"; "NetworkManager"] ;;
  if is_active result then ret "networkmanager"
  else
    present <- path_exists "/etc/dhcpcd.conf" ;;
    dhcpcd <- (if present then
                 result <- run None ["systemctl"; "is-active"; "dhcpcd"] ;;
                 ret (is_active result)
               else ret false) ;;
    if dhcpcd then ret "dhcpcd"
    else
      result <- run None ["systemctl"; "is-active"; "systemd-networkd"] ;;
      if is_active result then ret "systemd-networkd"
      else
        present <- path_exists "/etc/network/interfaces" ;;
        legacy <- (if present then
                     text <- read_file "/etc/network/interfaces" ;;
                     let content := Py.strip text in
                     ret (Py.truthy content && negb (all_comments content))
                   else ret false) ;;
        if legacy then ret "interfaces" else ret "networkmanager".

(** [_detect_network_method]: the handler logs through [self.logger];
    [has_logger] tells whether the object has that attribute yet
    ([__init__] calls the method before it assigns it). *)
Definition _detect_network_method (has_logger : bool) : M string :=
  try_except detect_probes
    (fun _ =>
       if has_logger then ret "networkmanager"
       else raise (AttributeError "logger")).

End Detection.

(** ** WiFi manager *)

Fixpoint span_digits (s : string) : string * string :=
  match s with
  | EmptyString => (EmptyString, EmptyString)
  | String c r =>
      if Py.is_digit c
      then let (d, rest) := span_digits r in (String c d, rest)
      else (EmptyString, s)
  end.

(** One to three digits followed by [sep]: what [\d{1,3}] and the next
    literal of the pattern can match at the head of [s]. *)
Definition octet_then (sep : ascii) (s : string) : option (string * string) :=
  let (d, rest) := span_digits s in
  if ((1 <=? String.length d) && (String.length d <=? 3))%nat then
    match rest with
    | String c r => if Ascii.eqb c sep then Some (d, r) else None
    | EmptyString => None
    end
  else None.

Fixpoint strip_prefix (p s : string) : option string :=
  match p, s with
  | EmptyString, _ => Some s
  | String a p', String b s' => if Ascii.eqb a b then strip_prefix p' s' else None
  | String _ _, EmptyString => None
  end.

(** The pattern [IP4\.ADDRESS\[1\]:\s*(\d{1,3}\.\d{1,3}\.\d{1,3}\.\d{1,3})/\d+]
    matched at the head of [s]: the group. *)
Definition match_ip4_at (s : string) : option string :=
  match strip_prefix "IP4.ADDRESS[1]:" s with
  | None => None
  | Some after =>
      match octet_then "."%char (Py.lstrip after) with
      | None => None
      | Some (o1, r1) =>
          match octet_then "."%char r1 with
          | None => None
          | Some (o2, r2) =>
              match octet_then "."%char r2 with
              | None => None
              | Some (o3, r3) =>
                  match octet_then "/"%char r3 with
                  | None => None
                  | Some (o4, r4) =>
                      match r4 with
                      | String c _ =>
                          if Py.is_digit c
                          then Some (o1 ++ "." ++ o2 ++ "." ++ o3 ++ "." ++ o4)
                          else None
                      | EmptyString => None
                      end
                  end
              end
          end
      end
  end.

(** [re.search(pattern, text)]: the group of the leftmost match. *)
Fixpoint search_ip4 (text : string) : option string :=
  match match_ip4_at text with
  | Some g => Some g
  | None =>
      match text with
      | EmptyString => None
      | String _ r => search_ip4 r
      end
  end.

Record CurrentNetwork := {
  cn_ssid : string;
  cn_ip_address : option string;
  cn_signal_strength : option string
}.

Record SavedNetwork := { sv_ssid : string; sv_is_current : Json }.

(** The dictionary [get_wifi_status] returns: [device_state] is absent
    from the dictionary of a failed query, [status_error] from the other. *)
Record WifiStatus := {
  connected : bool;
  current_network : option CurrentNetwork;
  saved_networks : list SavedNetwork;
  device_state : option string;
  status_error : option string
}.

Definition json_opt_str (v : option string) : Json :=
  match v with
  | Some s => JStr s
  | None => JNull
  end.

Definition json_of_current (c : CurrentNetwork) : Json :=
  JObj [("ssid", JStr (cn_ssid c));
        ("ip_address", json_opt_str (cn_ip_address c));
        ("signal_strength", json_opt_str (cn_signal_strength c))].

Definition json_of_saved (n : SavedNetwork) : Json :=
  JObj [("ssid", JStr (sv_ssid n)); ("is_current", sv_is_current n)].

Definition json_of_status (w : WifiStatus) : Json :=
  JObj (List.app
          [("connected", JBool (connected w));
           ("current_network",
            match current_network w with
            | Some c => json_of_current c
            | None => JNull
            end);
           ("saved_networks", JArr (map json_of_saved (saved_networks w)))]
          (List.app
             match device_state w with
             | Some d => [("device_state", JStr d)]
             | None => []
             end
             match status_error w with
             | Some e => [("error", JStr e)]
             | None => []
             end)).

Definition failed_status (message : string) : WifiStatus :=
  {| connected := false; current_network := None; saved_networks := [];
     device_state := None; status_error := Some message |}.

(** An entry of the list [scan_wifi] returns. *)
Record WifiNetwork := {
  ssid : string;
  security : string;
  signal : string;
  frequency : string;
  is_current : bool;
  is_saved : bool
}.

Definition json_of_network (n : WifiNetwork) : Json :=
  JObj [("ssid", JStr (ssid n)); ("security", JStr (security n));
        ("signal", JStr (signal n)); ("frequency", JStr (frequency n));
        ("is_current", JBool (is_current n)); ("is_saved", JBool (is_saved n))].

(** The sort key: [int(x["signal"]) if x["signal"].isdigit() else 0].
    [int] raises on a text that [isdigit] accepts when a character is a
    digit without being a decimal digit, or when the digits are more than
    the limit. *)
Definition signal_key (n : WifiNetwork) : Exc Z :=
  if Py.isdigit (signal n)
  then match Py.int (signal n) with
       | Some v => inr v
       | None => inl (IntError (signal n))
       end
  else inr 0.

(** [list.sort(key=..., reverse=True)] computes the keys first, in the
    order of the list; the first call that raises ends the sort. *)
Fixpoint sort_keys (l : list WifiNetwork) : Exc (list (Z * WifiNetwork)) :=
  match l with
  | [] => inr []
  | x :: r =>
      match signal_key x with
      | inl e => inl e
      | inr k =>
          match sort_keys r with
          | inl e => inl e
          | inr keyed => inr ((k, x) :: keyed)
          end
      end
  end.

(** The sort itself: descending and stable. *)
Fixpoint insert_desc (x : Z * WifiNetwork) (l : list (Z * WifiNetwork))
  : list (Z * WifiNetwork) :=
  match l with
  | [] => [x]
  | y :: r =>
      if fst x <? fst y then y :: insert_desc x r
      else x :: y :: r
  end.

Fixpoint sort_keyed (l : list (Z * WifiNetwork)) : list (Z * WifiNetwork) :=
  match l with
  | [] => []
  | x :: r => insert_desc x (sort_keyed r)
  end.

Definition sort_desc (l : list WifiNetwork) : Exc (list WifiNetwork) :=
  match sort_keys l with
  | inl e => inl e
  | inr keyed => inr (map snd (sort_keyed keyed))
  end.

(** The four fields of a line of the scan, stripped. *)
Definition scan_fields (filtered_line : string)
  : option (string * string * string * string) :=
  match Py.split_max ":"%char 3 filtered_line with
  | p0 :: p1 :: p2 :: p3 :: _ =>
      Some (Py.strip p0, Py.strip p1, Py.strip p2, Py.strip p3)
  | _ => None
  end.

(** The loop of [scan_wifi] over the lines of the scan: [seen_ssids] is
    the set of names met so far, the result is what is appended to
    [wifi_networks]. *)
Fixpoint collect_networks (current_ssid : option string) (saved : list string)
    (seen_ssids : list string) (lines : list string) : list WifiNetwork :=
  match lines with
  | [] => []
  | filtered_line :: rest =>
      match scan_fields filtered_line with
      | Some (name, sec, sig, freq) =>
          if Py.truthy name && negb (existsb (String.eqb name) seen_ssids) then
            {| ssid := name;
               security := sec;
               signal := sig;
               frequency := freq;
               is_current := match current_ssid with
                             | Some c => String.eqb name c
                             | None => false
                             end;
               is_saved := existsb (fun s => String.eqb s name) saved |}
            :: collect_networks current_ssid saved (name :: seen_ssids) rest
          else collect_networks current_ssid saved seen_ssids rest
      | None => collect_networks current_ssid saved seen_ssids rest
      end
  end.

Section Wifi.
Context `{Host}.

(** [run_nmcli_command] *)
Definition run_nmcli_command (command_args : list string) (description : string)
  : M (bool * string) :=
  try_except
    (result <- run_checked (Some 15) ("nmcli" :: command_args) ;;
     ret (true, Py.strip (stdout result)))
    (fun e =>
       match e with
       | CalledProcessError _ _ err =>
           ret (false, "Failed to " ++ description ++ ": " ++ Py.strip err)
       | FileNotFoundError _ =>
           ret (false, "nmcli command not found. NetworkManager might not be installed.")
       | TimeoutExpired _ =>
           ret (false, "Command timed out while trying to " ++ description ++ ".")
       | _ =>
           ret (false, "Unexpected error while trying to " ++ description ++ ": "
                       ++ str_exn e)
       end).

Definition wlan0_line (line : string) : option (string * string) :=
  match Py.split ":"%char line with
  | p0 :: _ :: p2 :: p3 :: _ =>
      if String.eqb p0 "wlan0" then Some (p2, p3) else None
  | _ => None
  end.

Definition ssid_line (line : string) : option string :=
  if Py.startswith line "802-11-wireless.ssid:"
  then Some (Py.strip (nth 1 (Py.split_max ":"%char 1 line) EmptyString))
  else None.

Definition signal_of (current_ssid line : string) : option string :=
  match Py.split ":"%char line with
  | p0 :: p1 :: _ => if String.eqb p0 current_ssid then Some p1 else None
  | _ => None
  end.

(** The queries [get_wifi_status] makes for a connected device. *)
Definition query_current (connection_name : string) : M CurrentNetwork :=
  ssid_r <- run_nmcli_command
              ["-t"; "-f"; "802-11-wireless.ssid"; "connection"; "show"; connection_name]
              "get real SSID" ;;
  let current_ssid :=
    if fst ssid_r && Py.truthy (Py.strip (snd ssid_r)) then
      match find_map ssid_line (Py.splitlines (snd ssid_r)) with
      | Some v => v
      | None => connection_name
      end
    else connection_name in
  ip_r <- run_nmcli_command ["device"; "show"; "wlan0"] "get wlan0 details" ;;
  let current_ip := if fst ip_r then search_ip4 (snd ip_r) else None in
  signal_r <- run_nmcli_command ["-t"; "-f"; "SSID,SIGNAL"; "dev"; "wifi"]
                "get current signal strength" ;;
  let signal_strength :=
    if fst signal_r
    then find_map (signal_of current_ssid) (Py.splitlines (snd signal_r))
    else None in
  ret {| cn_ssid := current_ssid;
         cn_ip_address := current_ip;
         cn_signal_strength := signal_strength |}.

Definition saved_line (is_connected : bool) (current : option CurrentNetwork)
    (line : string) : option SavedNetwork :=
  match Py.split ":"%char line with
  | p0 :: p1 :: _ =>
      if String.eqb p1 "802-11-wireless" then
        Some {| sv_ssid := p0;
                sv_is_current :=
                  if negb is_connected then JBool false
                  else match current with
                       | None => JNull
                       | Some c => JBool (String.eqb (cn_ssid c) p0)
                       end |}
      else None
  | _ => None
  end.

Fixpoint filter_map {A B} (f : A -> option B) (l : list A) : list B :=
  match l with
  | [] => []
  | x :: r => match f x with
              | Some b => b :: filter_map f r
              | None => filter_map f r
              end
  end.

(** [get_wifi_status] *)
Definition get_wifi_status : M WifiStatus :=
  try_except
    (status_r <- run_nmcli_command
                   ["-t"; "-f"; "DEVICE,TYPE,STATE,CONNECTION"; "device"; "status"]
                   "get device status" ;;
     if negb (fst status_r) then ret (failed_status (snd status_r))
     else
       found <-
         match find_map wlan0_line (Py.splitlines (snd status_r)) with
         | Some (state, connection_name) =>
             if String.eqb state "connected" && Py.truthy connection_name then
               current <- query_current connection_name ;;
               ret (Some state, true, Some current)
             else ret (Some state, false, None)
         | None => ret (None, false, None)
         end ;;
       let state := match fst (fst found) with
                    | Some st => st
                    | None => "unknown"
                    end in
       let is_connected := snd (fst found) in
       let current := snd found in
       saved_r <- run_nmcli_command ["-t"; "-f"; "NAME,TYPE"; "connection"; "show"]
                    "get saved connections" ;;
       ret {| connected := is_connected;
              current_network := current;
              saved_networks :=
                if fst saved_r
                then filter_map (saved_line is_connected current)
                       (Py.splitlines (snd saved_r))
                else [];
              device_state := Some state;
              status_error := None |})
    (fun e => ret (failed_status (str_exn e))).

Definition scan_args : list string :=
  ["-t"; "-f"; "SSID,SECURITY,SIGNAL,FREQ"; "dev"; "wifi"; "list"; "--rescan"; "yes"].

(** [scan_wifi] *)
Definition scan_wifi : M (list WifiNetwork) :=
  current_status <- get_wifi_status ;;
  let current_ssid :=
    if connected current_status
    then option_map cn_ssid (current_network current_status)
    else None in
  scan_r <- run_nmcli_command scan_args "scan Wi-Fi networks" ;;
  if negb (fst scan_r) then ret []
  else
    lift_exc (sort_desc
                (collect_networks current_ssid
                   (map sv_ssid (saved_networks current_status)) []
                   (Py.splitlines (snd scan_r)))).

(** [disconnect_current_wifi] *)
Definition disconnect_current_wifi : M (bool * string) :=
  r <- run_nmcli_command ["device"; "disconnect"; "wlan0"] "disconnect current Wi-Fi" ;;
  if negb (fst r) && negb (Py.contains (Py.lower (snd r)) "not connected")
  then ret (false, snd r)
  else ret (true, "Successfully disconnected.").

(** [connect_wifi] *)
Definition connect_wifi (name : string) (password : option string)
  : M (bool * string) :=
  d <- disconnect_current_wifi ;;
  if negb (fst d) && negb (Py.contains (Py.lower (snd d)) "not connected")
  then ret (false, snd d)
  else
    sleep 2 ;;;
    c <- (if opt_truthy password then
            run_nmcli_command
              ["dev"; "wifi"; "connect"; name; "password";
               match password with Some p => p | None => EmptyString end]
              ("connect to " ++ name)
          else
            run_nmcli_command ["dev"; "wifi"; "connect"; name]
              ("connect to " ++ name ++ " (no password)")) ;;
    if negb (fst c) then ret (false, snd c)
    else
      sleep 3 ;;;
      ip_r <- run_nmcli_command ["device"; "show"; "wlan0"] "get IP address from wlan0" ;;
      ret (true,
           if fst ip_r
           then match search_ip4 (snd ip_r) with
                | Some a => a
                | None => "IP not found"
                end
           else "IP not found").

Definition uuid_of (name line : string) : option string :=
  match Py.split ":"%char line with
  | p0 :: p1 :: _ => if String.eqb p1 name then Some p0 else None
  | _ => None
  end.

(** [delete_wifi] *)
Definition delete_wifi (name : string) : M (bool * string) :=
  listed <- run_nmcli_command ["-t"; "-f"; "UUID,NAME"; "connection"; "show"]
              "fetch Wi-Fi connections" ;;
  if negb (fst listed) then ret (false, snd listed)
  else
    match find_map (uuid_of name) (Py.splitlines (snd listed)) with
    | Some uuid_to_delete =>
        if negb (Py.truthy uuid_to_delete)
        then ret (false, "Wi-Fi connection '" ++ name ++ "' not found in saved connections.")
        else
          deleted <- run_nmcli_command ["connection"; "delete"; "uuid"; uuid_to_delete]
                       ("delete Wi-Fi connection '" ++ name ++ "'") ;;
          if negb (fst deleted) then ret (false, snd deleted)
          else ret (true, "Wi-Fi " ++ name ++ " deleted successfully.")
    | None => ret (false, "Wi-Fi connection '" ++ name ++ "' not found in saved connections.")
    end.

End Wifi.

(** ** Command dispatcher *)

(** Python's [==] on JSON values: [True == 1], lists compare in order,
    dictionaries by key. *)
Fixpoint json_eq (a b : Json) {struct a} : bool :=
  match a, b with
  | JNull, JNull => true
  | JBool x, JBool y => Bool.eqb x y
  | JBool x, JInt n => n =? (if x then 1 else 0)
  | JInt n, JBool x => n =? (if x then 1 else 0)
  | JInt n, JInt m => n =? m
  | JStr s, JStr t => String.eqb s t
  | JArr l, JArr m =>
      (fix items (l m : list Json) {struct l} : bool :=
         match l, m with
         | [], [] => true
         | x :: l', y :: m' => json_eq x y && items l' m'
         | _, _ => false
         end) l m
  | JObj f, JObj g =>
      (fix fields (f : list (string * Json)) {struct f} : bool :=
         match f with
         | [] => true
         | (k, v) :: f' =>
             match dict_get k g with
             | Some v' => json_eq v v'
             | None => false
             end && fields f'
         end) f
      && forallb (fun kv => match dict_get (fst kv) f with
                            | Some _ => true
                            | None => false
                            end) g
  | _, _ => false
  end.

(** [v.get(key, default)]: only dictionaries have [get]. *)
Definition py_get (v : Json) (key : string) (default : Json) : Exc Json :=
  match v with
  | JObj f => inr match dict_get key f with
                  | Some x => x
                  | None => default
                  end
  | _ => inl (AttributeError "get")
  end.

(** A continuation byte of UTF-8. *)
Definition in_range (lo hi : N) (b : byte) : bool :=
  (N.leb lo (Byte.to_N b) && N.leb (Byte.to_N b) hi)%bool.

(** Well-formed UTF-8, as the strict decoder accepts it. *)
Fixpoint utf8_valid (bs : list byte) : bool :=
  match bs with
  | [] => true
  | b0 :: r0 =>
      if in_range 0 127 b0 then utf8_valid r0
      else if in_range 194 223 b0 then
        match r0 with
        | b1 :: r1 => in_range 128 191 b1 && utf8_valid r1
        | _ => false
        end
      else if in_range 224 239 b0 then
        match r0 with
        | b1 :: b2 :: r2 =>
            (if in_range 224 224 b0 then in_range 160 191 b1
             else if in_range 237 237 b0 then in_range 128 159 b1
             else in_range 128 191 b1)
            && in_range 128 191 b2 && utf8_valid r2
        | _ => false
        end
      else if in_range 240 244 b0 then
        match r0 with
        | b1 :: b2 :: b3 :: r3 =>
            (if in_range 240 240 b0 then in_range 144 191 b1
             else if in_range 244 244 b0 then in_range 128 143 b1
             else in_range 128 191 b1)
            && in_range 128 191 b2 && in_range 128 191 b3 && utf8_valid r3
        | _ => false
        end
      else false
  end.

(** [payload.decode('utf-8')]: the text keeps the bytes of its encoding. *)
Definition decode_utf8 (bs : list byte) : Exc string :=
  if utf8_valid bs
  then inr (string_of_list_ascii (map ascii_of_byte bs))
  else inl UnicodeDecodeError.

(** An inbound message of the bus. *)
Record Message := { msg_topic : string; msg_payload : list byte }.

Definition device_id : string := "rpi_config_manager".

Definition config_path : string :=
  "/home/containment/thermal_mqtt_project/config/mqtt_config.json".

(** [self.topics] *)
Definition topics : list (string * string) :=
  [("get", "rpi/config/get");
   ("set", "rpi/config/set");
   ("response", "rpi/config/response");
   ("network_get", "rpi/network/get");
   ("network_set", "rpi/network/set");
   ("network_response", "rpi/network/response");
   ("wifi_scan", "rpi/wifi/scan");
   ("wifi_scan_response", "rpi/wifi/scan_response");
   ("wifi_connect", "rpi/wifi/connect");
   ("wifi_connect_response", "rpi/wifi/connect_response");
   ("wifi_disconnect", "rpi/wifi/disconnect");
   ("wifi_disconnect_response", "rpi/wifi/disconnect_response");
   ("wifi_delete", "rpi/wifi/delete");
   ("wifi_delete_response", "rpi/wifi/delete_response");
   ("wifi_status", "rpi/wifi/status");
   ("wifi_status_get", "rpi/wifi/status/get");
   ("wifi_status_response", "rpi/wifi/status/response")].

(** [self.topics[key]]: [None] is [KeyError]. *)
Fixpoint topic_of_in (table : list (string * string)) (key : string) : option string :=
  match table with
  | [] => None
  | (k, t) :: r => if String.eqb key k then Some t else topic_of_in r key
  end.

Definition topic_of (key : string) : option string := topic_of_in topics key.

Section Dispatcher.
Context `{Host}.

(** [self.mqtt_client.publish(topic, json.dumps(response), qos=1)]: the
    message joins what the agent has published, unless [json.dumps]
    raises.  The client queues a message of qos 1 whether it is connected
    or not; the payloads are taken to be within the 268435455 bytes of an
    MQTT packet, above which the client raises. *)
Definition publish (topic : string) (response : dict) : M unit :=
  fun s =>
    if serialisable (JObj response)
    then (Ok tt,
          with_outbox s
            (List.app (outbox s) [{| pub_topic := topic; pub_body := response |}]))
    else (Raise RecursionError, s).

(** The four publishing methods: a failure inside them is logged, never
    raised, and nothing is published then. *)
Definition publish_on (topic_key : string) (head data : dict) : M unit :=
  try_except
    (match topic_of topic_key with
     | Some topic => publish topic (dict_update head data)
     | None => raise (KeyError topic_key)
     end)
    (fun _ => ret tt).

(** [_publish_response] *)
Definition _publish_response (status : string) (data : dict) : M unit :=
  ts <- now ;;
  publish_on "response"
    [("status", JStr status); ("timestamp", JStr ts); ("device_id", JStr device_id)]
    data.

(** [_publish_network_response] *)
Definition _publish_network_response (status : string) (data : dict) : M unit :=
  ts <- now ;;
  publish_on "network_response"
    [("status", JStr status); ("timestamp", JStr ts); ("device_id", JStr device_id)]
    data.

(** [_publish_wifi_response] *)
Definition _publish_wifi_response (topic_key : string) (data : dict) : M unit :=
  ts <- now ;;
  publish_on topic_key
    [("timestamp", JStr ts); ("device_id", JStr device_id)] data.

(** [_publish_wifi_status_response] *)
Definition _publish_wifi_status_response (data : dict) : M unit :=
  ts <- now ;;
  publish_on "wifi_status_response"
    [("timestamp", JStr ts); ("device_id", JStr device_id)] data.

(** [json.loads(text)] *)
Definition loads (text : string) : M Json :=
  match json_loads text with
  | Some v => ret v
  | None => raise (JSONDecodeError text)
  end.

(** A field that the code below reads as text. *)
Definition want_str (v : Json) : M string :=
  match v with
  | JStr s => ret s
  | _ => beyond
  end.

Definition set_config (v : Json) : M unit :=
  fun s => (Ok tt, with_config s v).

(** [load_config] *)
Definition load_config : M unit :=
  try_except
    (present <- path_exists config_path ;;
     if present then
       text <- read_file config_path ;;
       v <- loads text ;;
       set_config v
     else set_config (JObj []))
    (fun _ => set_config (JObj [])).

(** [save_config] *)
Definition save_config : M bool :=
  try_except
    (present <- path_exists config_path ;;
     (if present then
        t <- time_now ;;
        copy2 config_path (config_path ++ ".backup." ++ Py.str_of_int t)
      else ret tt) ;;;
     s <- get_state ;;
     write_file config_path (json_dumps (config s)) ;;;
     ret true)
    (fun _ => ret false).

(** [_restart_thermal_service] *)
Definition _restart_thermal_service : M bool :=
  result <- on_os (os_system "sudo systemctl restart thermal-mqtt") ;;
  ret (result =? 0).

(** [_handle_get_config] *)
Definition _handle_get_config : M unit :=
  try_except
    (load_config ;;;
     ts <- now ;;
     s <- get_state ;;
     _publish_response "success"
       [("action", JStr "get_config"); ("status", JStr "success");
        ("timestamp", JStr ts); ("config", config s)])
    (fun e => _publish_response "error" [("error", JStr (str_exn e))]).

(** ["config" in payload] followed by [payload["config"]] *)
Definition config_field (payload : Json) : Exc Json :=
  match payload with
  | JObj f =>
      match dict_get "config" f with
      | Some v => inr v
      | None => inl (ValueError "Missing 'config' field")
      end
  | JArr items =>
      if existsb (json_eq (JStr "config")) items
      then inl (TypeError "list indices")
      else inl (ValueError "Missing 'config' field")
  | JStr s =>
      if Py.contains s "config"
      then inl (TypeError "string indices")
      else inl (ValueError "Missing 'config' field")
  | _ => inl (TypeError "not iterable")
  end.

(** [self.config.copy()] *)
Definition py_copy (v : Json) : Exc Json :=
  match v with
  | JObj _ => inr v
  | JArr _ => inr v
  | _ => inl (AttributeError "copy")
  end.

(** [_handle_set_config] *)
Definition _handle_set_config (payload_str : string) : M unit :=
  try_except
    (payload <- loads payload_str ;;
     new_config <- lift_exc (config_field payload) ;;
     s <- get_state ;;
     old_config <- lift_exc (py_copy (config s)) ;;
     set_config new_config ;;;
     saved <- save_config ;;
     if saved then
       ts <- now ;;
       let response_data : dict :=
         [("action", JStr "set_config"); ("status", JStr "success");
          ("timestamp", JStr ts); ("message", JStr "Config updated successfully")] in
       old_mqtt <- lift_exc (py_get old_config "mqtt" (JObj [])) ;;
       new_mqtt <- lift_exc (py_get new_config "mqtt" (JObj [])) ;;
       thermal_changed <-
         (if negb (json_eq old_mqtt new_mqtt) then ret true
          else
            old_thermal <- lift_exc (py_get old_config "thermal" (JObj [])) ;;
            new_thermal <- lift_exc (py_get new_config "thermal" (JObj [])) ;;
            ret (negb (json_eq old_thermal new_thermal))) ;;
       if thermal_changed then
         _restart_thermal_service ;;;
         _publish_response "success"
           (dict_set "message"
              (JStr ("Config updated successfully" ++ " - Restarting thermal service..."))
              (dict_set "restart_required" (JBool true) response_data))
       else _publish_response "success" response_data
     else raise (Failure "Failed to save config"))
    (fun e => _publish_response "error" [("error", JStr (str_exn e))]).

(** [_handle_get_network_config] *)
Definition _handle_get_network_config : M unit :=
  try_except
    (r <- read_current_ip_config ;;
     if fst r then
       ts <- now ;;
       s <- get_state ;;
       _publish_network_response "success"
         [("action", JStr "get_network_config"); ("status", JStr "success");
          ("timestamp", JStr ts); ("network_method", JStr (network_method s));
          ("network_config", snd r)]
     else _publish_network_response "error" [("error", snd r)])
    (fun e => _publish_network_response "error" [("error", JStr (str_exn e))]).

(** [f"{v}"] *)
Definition fmt (v : Json) : string :=
  match v with
  | JStr s => s
  | _ => lib_str v
  end.

Definition json_is (v : Json) (text : string) : bool :=
  match v with
  | JStr s => String.eqb s text
  | _ => false
  end.

(** The gateway a static request goes on with: the one it names, or,
    when that is missing or blank, one derived from the address. *)
Definition choose_gateway (static_ip gateway : Json) : Exc string :=
  let derive :=
    match static_ip with
    | JStr ip =>
        match Py.split "."%char ip with
        | [p0; p1; p2; _] => inr (p0 ++ "." ++ p1 ++ "." ++ p2 ++ ".1")
        | _ => inr "192.168.0.1"
        end
    | _ => inl (AttributeError "split")
    end in
  if negb (json_truthy gateway) then derive
  else match gateway with
       | JStr g => if String.eqb (Py.strip g) "" then derive else inr g
       | _ => inl (AttributeError "strip")
       end.

Definition status_word (success : bool) : string :=
  if success then "success" else "error".

(** [_handle_set_network_config] *)
Definition _handle_set_network_config (payload_str : string) : M unit :=
  try_except
    (payload <- loads payload_str ;;
     interface <- lift_exc (py_get payload "interface" (JStr "eth0")) ;;
     method <- lift_exc (py_get payload "method" JNull) ;;
     if negb (json_truthy method) then raise (ValueError "Missing 'method' field")
     else
       ts <- now ;;
       s <- get_state ;;
       let response_data : dict :=
         [("action", JStr "set_network_config"); ("timestamp", JStr ts);
          ("interface", interface); ("method", method);
          ("network_method", JStr (network_method s))] in
       outcome <-
         (if json_is method "static" then
            static_ip <- lift_exc (py_get payload "static_ip" JNull) ;;
            netmask <- lift_exc (py_get payload "netmask" (JStr "255.255.255.0")) ;;
            gateway <- lift_exc (py_get payload "gateway" JNull) ;;
            dns <- lift_exc (py_get payload "dns" (JStr "8.8.8.8 8.8.4.4")) ;;
            if negb (json_truthy static_ip)
            then raise (ValueError "Missing required static IP parameter: static_ip")
            else
              gw <- lift_exc (choose_gateway static_ip gateway) ;;
              interface_s <- want_str interface ;;
              static_ip_s <- want_str static_ip ;;
              netmask_s <- want_str netmask ;;
              dns_s <- want_str dns ;;
              r <- set_static_ip interface_s static_ip_s netmask_s gw dns_s ;;
              ret (r, dict_update response_data
                        [("static_ip", static_ip); ("netmask", netmask);
                         ("gateway", JStr gw); ("dns", dns)])
          else if json_is method "dhcp" then
            interface_s <- want_str interface ;;
            r <- set_dynamic_ip interface_s ;;
            ret (r, response_data)
          else raise (ValueError ("Invalid method: " ++ fmt method
                                  ++ ". Must be 'static' or 'dhcp'"))) ;;
       let success := fst (fst outcome) in
       let message := snd (fst outcome) in
       _publish_network_response (status_word success)
         (dict_set "message" (JStr message)
            (dict_set "status" (JStr (status_word success)) (snd outcome))) ;;;
       if success then
         reboot <- lift_exc (py_get payload "reboot" (JBool false)) ;;
         if json_truthy reboot then
           sleep 2 ;;;
           on_os (os_system "sudo reboot") ;;;
           ret tt
         else ret tt
       else ret tt)
    (fun e => _publish_network_response "error" [("error", JStr (str_exn e))]).

(** [_handle_wifi_scan] *)
Definition _handle_wifi_scan : M unit :=
  try_except
    (wifi_networks <- scan_wifi ;;
     ts <- now ;;
     _publish_wifi_response "wifi_scan_response"
       [("action", JStr "wifi_scan"); ("status", JStr "success");
        ("timestamp", JStr ts);
        ("networks", JArr (map json_of_network wifi_networks));
        ("count", JInt (Z.of_nat (List.length wifi_networks)))])
    (fun e =>
       _publish_wifi_response "wifi_scan_response"
         [("action", JStr "wifi_scan"); ("status", JStr "error");
          ("error", JStr (str_exn e))]).

(** [_handle_wifi_connect] *)
Definition _handle_wifi_connect (payload_str : string) : M unit :=
  try_except
    (payload <- loads payload_str ;;
     name <- lift_exc (py_get payload "ssid" JNull) ;;
     password <- lift_exc (py_get payload "password" JNull) ;;
     if negb (json_truthy name) then raise (ValueError "Missing 'ssid' field")
     else
       name_s <- want_str name ;;
       password_s <- (if json_truthy password
                      then p <- want_str password ;; ret (Some p)
                      else ret None) ;;
       r <- connect_wifi name_s password_s ;;
       ts <- now ;;
       let response_data : dict :=
         [("action", JStr "wifi_connect");
          ("status", JStr (status_word (fst r)));
          ("timestamp", JStr ts);
          ("ssid", name);
          ("message", JStr (if fst r then "Connected to " ++ name_s else snd r));
          ("ip_address", if fst r then JStr (snd r) else JNull)] in
       _publish_wifi_response "wifi_connect_response"
         (if fst r then response_data
          else dict_set "error" (JStr (snd r)) response_data))
    (fun e =>
       _publish_wifi_response "wifi_connect_response"
         [("action", JStr "wifi_connect"); ("status", JStr "error");
          ("error", JStr (str_exn e))]).

(** [_handle_wifi_disconnect] *)
Definition _handle_wifi_disconnect : M unit :=
  try_except
    (r <- disconnect_current_wifi ;;
     ts <- now ;;
     let response_data : dict :=
       [("action", JStr "wifi_disconnect");
        ("status", JStr (status_word (fst r)));
        ("timestamp", JStr ts);
        ("message", JStr (snd r))] in
     _publish_wifi_response "wifi_disconnect_response"
       (if fst r then response_data
        else dict_set "error" (JStr (snd r)) response_data))
    (fun e =>
       _publish_wifi_response "wifi_disconnect_response"
         [("action", JStr "wifi_disconnect"); ("status", JStr "error");
          ("error", JStr (str_exn e))]).

(** [_handle_wifi_delete] *)
Definition _handle_wifi_delete (payload_str : string) : M unit :=
  try_except
    (payload <- loads payload_str ;;
     name <- lift_exc (py_get payload "ssid" JNull) ;;
     if negb (json_truthy name) then raise (ValueError "Missing 'ssid' field")
     else
       name_s <- want_str name ;;
       r <- delete_wifi name_s ;;
       ts <- now ;;
       let response_data : dict :=
         [("action", JStr "wifi_delete");
          ("status", JStr (status_word (fst r)));
          ("timestamp", JStr ts);
          ("ssid", name);
          ("message", JStr (snd r))] in
       _publish_wifi_response "wifi_delete_response"
         (if fst r then response_data
          else dict_set "error" (JStr (snd r)) response_data))
    (fun e =>
       _publish_wifi_response "wifi_delete_response"
         [("action", JStr "wifi_delete"); ("status", JStr "error");
          ("error", JStr (str_exn e))]).

(** [_handle_wifi_status_get] *)
Definition _handle_wifi_status_get : M unit :=
  try_except
    (wifi_status <- get_wifi_status ;;
     ts <- now ;;
     let response_data : dict :=
       [("action", JStr "wifi_status_get"); ("status", JStr "success");
        ("timestamp", JStr ts); ("wifi_status", json_of_status wifi_status)] in
     _publish_wifi_status_response
       match status_error wifi_status with
       | Some err =>
           dict_set "error_details" (JStr err)
             (dict_set "status" (JStr "partial_error") response_data)
       | None => response_data
       end)
    (fun e =>
       ts <- now ;;
       _publish_wifi_status_response
         [("action", JStr "wifi_status_get"); ("status", JStr "error");
          ("timestamp", JStr ts); ("error", JStr (str_exn e))]).

Definition is_topic (topic key : string) : bool :=
  match topic_of key with
  | Some t => String.eqb topic t
  | None => false
  end.

(** [_on_message] *)
Definition _on_message (msg : Message) : M unit :=
  try_except
    (let topic := msg_topic msg in
     payload_str <- lift_exc (decode_utf8 (msg_payload msg)) ;;
     if is_topic topic "get" then _handle_get_config
     else if is_topic topic "set" then _handle_set_config payload_str
     else if is_topic topic "network_get" then _handle_get_network_config
     else if is_topic topic "network_set" then _handle_set_network_config payload_str
     else if is_topic topic "wifi_scan" then _handle_wifi_scan
     else if is_topic topic "wifi_connect" then _handle_wifi_connect payload_str
     else if is_topic topic "wifi_disconnect" then _handle_wifi_disconnect
     else if is_topic topic "wifi_delete" then _handle_wifi_delete payload_str
     else if is_topic topic "wifi_status_get" then _handle_wifi_status_get
     else ret tt)
    (fun e => _publish_response "error" [("error", JStr (str_exn e))]).

End Dispatcher.

(** ** Vocabulary of the codec's properties *)

(** Four octets written in canonical decimal and joined by dots. *)
Definition dotted_quad (a b c d : Z) : string :=
  Py.str_of_int a ++ "." ++ Py.str_of_int b ++ "." ++
  Py.str_of_int c ++ "." ++ Py.str_of_int d.

(** The 32-bit value of four octets. *)
Definition quad_value (a b c d : Z) : Z :=
  a * 16777216 + b * 65536 + c * 256 + d.

(** The 32-bit word made of [n] ones followed by [32 - n] zeros. *)
Definition prefix_mask (n : Z) : Z := 2 ^ 32 - 2 ^ (32 - n).

(** An octet in 0..255. *)
Definition octet (x : Z) : Prop := 0 <= x <= 255.

(** A 32-bit value written as a dotted quad. *)
Definition octets_text (v : Z) : string :=
  dotted_quad ((v / 2 ^ 24) mod 256) ((v / 2 ^ 16) mod 256)
              ((v / 2 ^ 8) mod 256) (v mod 256).

(** The network of address [a] under a prefix of [c] bits, as text. *)
Definition network_text (a c : Z) : string :=
  octets_text (a / 2 ^ (32 - c) * 2 ^ (32 - c)) ++ "/" ++ Py.str_of_int c.

(** [gw] is the text of an IPv4 address that has its first [c] bits in
    common with [a]. *)
Definition gateway_in_network (a c : Z) (gw : string) : Prop :=
  exists g, ipaddress.IPv4Address gw = Some g /\
            g / 2 ^ (32 - c) = a / 2 ^ (32 - c).

(** The command [disconnect_current_wifi] runs. *)
Definition disconnect_cmd : list string := ["nmcli"; "device"; "disconnect"; "wlan0"].

(** The command ended well for a disconnect: it exited with 0, or its
    error text says the device was not connected. *)
Definition disconnected_or_idle (o : Outcome) : Prop :=
  match o with
  | Exited c =>
      returncode c = 0 \/
      Py.contains (Py.lower (Py.strip (stderr c))) "not connected" = true
  | NotRun _ => False
  end.

(** ** Vocabulary of the readers' properties *)

(** A text of blanks only. *)
Fixpoint all_space (s : string) : bool :=
  match s with
  | EmptyString => true
  | String c r => Py.is_space c && all_space r
  end.

(** The state of a reader's loop in which every assignment
    [interfaces[current][key] = value] finds its entry: the entries are
    objects and the current interface has one. *)
Definition entries_present (st : option string * dict) : Prop :=
  (forall name v, dict_get name (snd st) = Some v -> exists fields, v = JObj fields) /\
  match fst st with
  | Some current => dict_get current (snd st) <> None
  | None => True
  end.

(** Entries that are objects without the field [key]. *)
Definition entries_lack (key : string) (interfaces : dict) : Prop :=
  forall name v,
    dict_get name interfaces = Some v ->
    exists fields, v = JObj fields /\ dict_get key fields = None.

(** ** Vocabulary of the dispatcher's properties *)

Section DispatcherVocabulary.
Context `{Host}.

(** A computation publishes nothing. *)
Definition mute {A} (m : M A) : Prop :=
  forall s, outbox (snd (m s)) = outbox s.

(** A computation stays inside the embedding: no value of another JSON
    type reaches code that reads it as text. *)
Definition typed {A} (m : M A) : Prop :=
  forall s, fst (m s) <> Beyond.

(** At most one message has been added, on [topic]. *)
Definition at_most_one (topic : string) (s s' : St) : Prop :=
  outbox s' = outbox s \/
  exists body,
    outbox s' = List.app (outbox s) [{| pub_topic := topic; pub_body := body |}].

(** The body of a handler: it returns after at most one message, on
    [topic] (none when the response could not be serialised), or it
    raises (or leaves the embedding) with nothing published. *)
Definition answers_or_raises (topic : string) (m : M unit) : Prop :=
  forall s,
    match m s with
    | (Ok _, s') => at_most_one topic s s'
    | (Raise _, s') => outbox s' = outbox s
    | (Beyond, s') => outbox s' = outbox s
    end.

(** A handler: it never raises, and it publishes at most one message,
    on [topic]. *)
Definition answers_at_most_once (topic : string) (m : M unit) : Prop :=
  forall s,
    match m s with
    | (Ok _, s') => at_most_one topic s s'
    | (Raise _, _) => False
    | (Beyond, s') => outbox s' = outbox s
    end.

(** What a computation does from one state: it returns after exactly
    one message, on [topic]. *)
Definition answers_from (topic : string) (m : M unit) (s : St) : Prop :=
  exists s' body,
    m s = (Ok tt, s') /\
    outbox s' = List.app (outbox s) [{| pub_topic := topic; pub_body := body |}].

(** Exactly one message has been added, on [topic]. *)
Definition exactly_one (topic : string) (s s' : St) : Prop :=
  exists body,
    outbox s' = List.app (outbox s) [{| pub_topic := topic; pub_body := body |}].

(** The body of a handler whose responses can all be serialised: it
    returns after exactly one message, on [topic], or it raises (or
    leaves the embedding) with nothing published. *)
Definition answers_or_fails (topic : string) (m : M unit) : Prop :=
  forall s,
    match m s with
    | (Ok _, s') => exactly_one topic s s'
    | (Raise _, s') => outbox s' = outbox s
    | (Beyond, s') => outbox s' = outbox s
    end.

(** The state after one more message. *)
Definition published (s : St) (topic : string) (body : dict) : St :=
  with_outbox s (List.app (outbox s) [{| pub_topic := topic; pub_body := body |}]).

(** A publishing method whose response is serialised: it returns with
    the response published on [topic] and nothing else changed. *)
Definition sends (topic : string) (p : M unit) : Prop :=
  forall s, exists body, p s = (Ok tt, published s topic body).

(** Every value a computation returns satisfies [P]. *)
Definition yields {A} (P : A -> Prop) (m : M A) : Prop :=
  forall s a s', m s = (Ok a, s') -> P a.

(** A publishing method: it returns, with at most one message added, on
    [topic], and the host as it was. *)
Definition publishes (topic : string) (p : M unit) : Prop :=
  forall s, exists s', p s = (Ok tt, s') /\ at_most_one topic s s' /\ os s' = os s.

(** A handler that always answers: it returns after exactly one
    message, on [topic]. *)
Definition answers (topic : string) (m : M unit) : Prop :=
  forall s, answers_from topic m s.

(** The configuration file, when it holds JSON, is nested no deeper than
    a response can carry it. *)
Definition config_fits (o : OS) : Prop :=
  forall text v,
    os_read config_path o = inr text -> json_loads text = Some v ->
    (depth v < 8 + dumps_room)%nat.

(** The fields of a request the handlers read as text. *)
Definition text_keys : list string :=
  ["interface"; "static_ip"; "netmask"; "dns"; "ssid"; "password"].

(** Every text field a request carries is a JSON string. *)
Definition text_fields (payload : Json) : bool :=
  match payload with
  | JObj f =>
      forallb (fun key => match dict_get key f with
                          | Some (JStr _) => true
                          | Some _ => false
                          | None => true
                          end) text_keys
  | _ => true
  end.

Definition well_typed_request (text : string) : Prop :=
  forall payload, json_loads text = Some payload -> text_fields payload = true.

(** What [_on_message] does with a payload that decodes. *)
Definition route (topic payload_str : string) : M unit :=
  if String.eqb topic "rpi/config/get" then _handle_get_config
  else if String.eqb topic "rpi/config/set" then _handle_set_config payload_str
  else if String.eqb topic "rpi/network/get" then _handle_get_network_config
  else if String.eqb topic "rpi/network/set" then _handle_set_network_config payload_str
  else if String.eqb topic "rpi/wifi/scan" then _handle_wifi_scan
  else if String.eqb topic "rpi/wifi/connect" then _handle_wifi_connect payload_str
  else if String.eqb topic "rpi/wifi/disconnect" then _handle_wifi_disconnect
  else if String.eqb topic "rpi/wifi/delete" then _handle_wifi_delete payload_str
  else if String.eqb topic "rpi/wifi/status/get" then _handle_wifi_status_get
  else ret tt.

(** The error response of a handler: what the publishing methods make of
    [{"error": text}]. *)
Definition error_response (ts text : string) : dict :=
  [("status", JStr "error"); ("timestamp", JStr ts); ("device_id", JStr device_id);
   ("error", JStr text)].

(** The error response of a WiFi handler. *)
Definition wifi_error_response (ts action text : string) : dict :=
  [("timestamp", JStr ts); ("device_id", JStr device_id);
   ("action", JStr action); ("status", JStr "error"); ("error", JStr text)].

(** A field of a request that is absent, null, empty, zero or false. *)
Definition lacks (key : string) (fields : dict) : Prop :=
  match dict_get key fields with
  | Some v => json_truthy v = false
  | None => True
  end.

(** The arguments [connect_wifi] gives nmcli to join a network. *)
Definition connect_args (name : string) (password : option string) : list string :=
  match password with
  | Some p => if Py.truthy p then ["dev"; "wifi"; "connect"; name; "password"; p]
              else ["dev"; "wifi"; "connect"; name]
  | None => ["dev"; "wifi"; "connect"; name]
  end.

(** The response of [_handle_wifi_status_get] when the status could not
    be read. *)
Definition status_unavailable (ts message : string) : dict :=
  [("timestamp", JStr ts); ("device_id", JStr device_id);
   ("action", JStr "wifi_status_get"); ("status", JStr "partial_error");
   ("wifi_status",
    JObj [("connected", JBool false); ("current_network", JNull);
          ("saved_networks", JArr []); ("error", JStr message)]);
   ("error_details", JStr message)].

(** The response of [_handle_get_config] for a configuration. *)
Definition config_response (ts : string) (configuration : Json) : dict :=
  [("status", JStr "success"); ("timestamp", JStr ts); ("device_id", JStr device_id);
   ("action", JStr "get_config"); ("config", configuration)].

(** The configuration file is missing, cannot be read or does not hold
    JSON. *)
Definition config_unavailable (o : OS) : Prop :=
  os_exists config_path o = false \/
  (exists e, os_read config_path o = inl e) \/
  (exists text, os_read config_path o = inr text /\ json_loads text = None).

(** The response of [_handle_set_network_config] to a DHCP request. *)
Definition dhcp_response (success : bool) (ts interface method message : string)
  : dict :=
  [("status", JStr (status_word success));
   ("timestamp", JStr ts);
   ("device_id", JStr device_id);
   ("action", JStr "set_network_config");
   ("interface", JStr interface);
   ("method", JStr "dhcp");
   ("network_method", JStr method);
   ("message", JStr message)].

(** [payload.get(key, default)] on the fields of an object. *)
Definition field_or (key : string) (default : Json) (fields : dict) : Json :=
  match dict_get key fields with
  | Some v => v
  | None => default
  end.

(** A JSON value that is neither an object nor an array. *)
Definition scalar (v : Json) : bool :=
  match v with
  | JObj _ => false
  | JArr _ => false
  | _ => true
  end.

End DispatcherVocabulary.

(** The request topics whose handlers read text fields of the payload. *)
Definition requests_with_text : list string :=
  ["rpi/network/set"; "rpi/wifi/connect"; "rpi/wifi/delete"].

(** The request topics [_on_connect] subscribes to, each with the topic
    its handler publishes on. *)
Definition routes : list (string * string) :=
  [("rpi/config/get", "rpi/config/response");
   ("rpi/config/set", "rpi/config/response");
   ("rpi/network/get", "rpi/network/response");
   ("rpi/network/set", "rpi/network/response");
   ("rpi/wifi/scan", "rpi/wifi/scan_response");
   ("rpi/wifi/connect", "rpi/wifi/connect_response");
   ("rpi/wifi/disconnect", "rpi/wifi/disconnect_response");
   ("rpi/wifi/delete", "rpi/wifi/delete_response");
   ("rpi/wifi/status/get", "rpi/wifi/status/response")].

(** The keys [_on_connect] subscribes with. *)
Definition topics_to_subscribe : list string :=
  ["get"; "set"; "network_get"; "network_set";
   "wifi_scan"; "wifi_connect"; "wifi_disconnect"; "wifi_delete";
   "wifi_status_get"].

(** ** A scripted host for examples

    The operating system is a script: the outcomes the next commands will
    have, in order (a command past the end of the script exits with 0 and
    prints nothing), the commands run so far, one file system and a clock
    that stands still. *)

Module Sample.

Record ScriptOS := {
  script : list Outcome;
  history : list (list string);
  files : list (string * string);
  stamp : string;
  seconds : Z
}.

Definition exits (rc : Z) (out err : string) : Outcome :=
  Exited {| returncode := rc; stdout := out; stderr := err |}.

Definition run_script (timeout : option Z) (argv : list string) (o : ScriptOS)
  : Outcome * ScriptOS :=
  let logged rest :=
    {| script := rest; history := List.app (history o) [argv]; files := files o;
       stamp := stamp o; seconds := seconds o |} in
  match script o with
  | [] => (exits 0 EmptyString EmptyString, logged [])
  | x :: rest => (x, logged rest)
  end.

Fixpoint lookup_file (path : string) (fs : list (string * string)) : option string :=
  match fs with
  | [] => None
  | (p, text) :: r => if String.eqb path p then Some text else lookup_file path r
  end.

Definition store_file (path text : string) (o : ScriptOS) : ScriptOS :=
  {| script := script o; history := history o;
     files := (path, text) :: files o; stamp := stamp o; seconds := seconds o |}.

Definition DQ : string := String (ascii_of_nat 34) EmptyString.

(** [json.dumps] on documents whose strings need no escape. *)
Fixpoint dumps (v : Json) : string :=
  match v with
  | JNull => "null"
  | JBool b => if b then "true" else "false"
  | JInt n => Py.str_of_int n
  | JStr s => DQ ++ s ++ DQ
  | JArr l =>
      "[" ++ (fix items (l : list Json) : string :=
                match l with
                | [] => EmptyString
                | x :: r => dumps x ++ match r with
                                       | [] => EmptyString
                                       | _ => ", " ++ items r
                                       end
                end) l ++ "]"
  | JObj f =>
      "{" ++ (fix fields (f : list (string * Json)) : string :=
                match f with
                | [] => EmptyString
                | (k, x) :: r =>
                    DQ ++ k ++ DQ ++ ": " ++ dumps x
                    ++ match r with
                       | [] => EmptyString
                       | _ => ", " ++ fields r
                       end
                end) f ++ "}"
  end.

(** The request of the examples: a static address without a gateway. *)
Definition static_request : Json :=
  JObj [("interface", JStr "eth0"); ("method", JStr "static");
        ("static_ip", JStr "192.168.1.50"); ("netmask", JStr "255.255.255.0");
        ("gateway", JStr "")].

Definition documents : list Json := [static_request].

(** [json.loads] on the texts of the example documents. *)
Definition loads_document (text : string) : option Json :=
  find (fun v => String.eqb text (dumps v)) documents.

Definition text_of (e : exn) : string :=
  match e with
  | UnicodeDecodeError =>
      "'utf-8' codec can't decode byte 0xff in position 0: invalid start byte"
  | IntError text => "invalid literal for int() with base 10: '" ++ text ++ "'"
  | _ => "library error"
  end.

Definition host : Host := {|
  OS := ScriptOS;
  lib_text := text_of;
  json_loads := loads_document;
  json_dumps := dumps;
  lib_str := dumps;
  os_run := run_script;
  os_now := stamp;
  os_time := seconds;
  os_sleep := fun _ o => o;
  os_exists := fun path o => match lookup_file path (files o) with
                             | Some _ => true
                             | None => false
                             end;
  os_access_w := fun path o => match lookup_file path (files o) with
                               | Some _ => true
                               | None => false
                               end;
  os_read := fun path o => match lookup_file path (files o) with
                           | Some text => inr text
                           | None => inl (FileNotFoundError path)
                           end;
  os_write := fun path text o => (inr tt, store_file path text o);
  os_copy2 := fun src dst o =>
                match lookup_file src (files o) with
                | Some text => (inr tt, store_file dst text o)
                | None => (inl (FileNotFoundError src), o)
                end;
  os_system := fun _ o => (0, o);
  dumps_room := 972
|}.

(** The agent on a NetworkManager system whose next commands have the
    outcomes [outcomes]. *)
Definition boot (outcomes : list Outcome) (fs : list (string * string)) : ScriptOS :=
  {| script := outcomes; history := []; files := fs;
     stamp := "2025-01-01T00:00:00"; seconds := 1735689600 |}.

Definition agent (outcomes : list Outcome) : @St host :=
  @Build_St host (boot outcomes []) [] (JObj []) "networkmanager".

End Sample.

(** ** Vocabulary of the agent's properties *)

Section AgentVocabulary.
Context `{Host}.

(** A computation is quiet when it stays inside the embedding and
    changes nothing of the agent but the state of its host. *)
Definition quiet {A} (m : M A) : Prop :=
  forall s, exists r o, m s = (r, with_os s o) /\ r <> Beyond.

(** A quiet computation that always returns a value. *)
Definition total {A} (m : M A) : Prop :=
  forall s, exists a o, m s = (Ok a, with_os s o).

(** The state a computation leaves. *)
Definition after {A} (m : M A) (s : St) : St := snd (m s).

(** The response [_publish_network_response] sends for a static request. *)
Definition static_response (success : bool) (ts method interface ip netmask gw dns message
                            : string) : dict :=
  [("status", JStr (status_word success));
   ("timestamp", JStr ts);
   ("device_id", JStr device_id);
   ("action", JStr "set_network_config");
   ("interface", JStr interface);
   ("method", JStr "static");
   ("network_method", JStr method);
   ("static_ip", JStr ip);
   ("netmask", JStr netmask);
   ("gateway", JStr gw);
   ("dns", JStr dns);
   ("message", JStr message)].

(** A gateway field that is absent (or null) or blank. *)
Definition blank_gateway (g : Json) : Prop :=
  g = JNull \/ exists t, g = JStr t /\ Py.strip t = EmptyString.

(** The down/up cycle of a connection fails: the [down] command exits
    with an error, or it succeeds and the [up] command exits with one. *)
Definition reactivation_fails (conn_name : string) (o : OS) : Prop :=
  match os_run None ["nmcli"; "con"; "down"; conn_name] o with
  | (Exited down, o') =>
      returncode down <> 0 \/
      match os_run None ["nmcli"; "con"; "up"; conn_name] (os_sleep 2 o') with
      | (Exited up, _) => returncode up <> 0
      | (NotRun _, _) => False
      end
  | (NotRun _, _) => False
  end.

(** The response [_handle_wifi_scan] sends for a list of networks. *)
Definition scan_response (ts : string) (networks : list WifiNetwork) : dict :=
  [("timestamp", JStr ts);
   ("device_id", JStr device_id);
   ("action", JStr "wifi_scan");
   ("status", JStr "success");
   ("networks", JArr (map json_of_network networks));
   ("count", JInt (Z.of_nat (List.length networks)))].

(** [n] was built from the first line of [lines] that carries its name. *)
Definition first_occurrence (lines : list string) (n : WifiNetwork) : Prop :=
  exists before line rest,
    lines = List.app before (line :: rest) /\
    scan_fields line = Some (ssid n, security n, signal n, frequency n) /\
    forall l fields, In l before -> scan_fields l = Some fields ->
                     fst (fst (fst fields)) <> ssid n.

(** Descending order of the sort key. *)
Definition by_signal (a b : WifiNetwork) : Prop :=
  exists ka kb, signal_key a = inr ka /\ signal_key b = inr kb /\ kb <= ka.


(** The scan command could not be run, timed out or exited with an error. *)
Definition scan_failed (o : Outcome) : Prop :=
  match o with
  | Exited c => returncode c <> 0
  | NotRun _ => True
  end.

End AgentVocabulary.

(** ** Inputs of the examples *)

(** The device does not exist: nmcli exits with 10. *)
Definition no_wlan0 : Outcome :=
  Sample.exits 10 "" "Error: Device 'wlan0' not found.".

(** The device is idle: nmcli says it is not connected. *)
Definition idle_wlan0 : Outcome :=
  Sample.exits 6 "" "Error: Device 'wlan0' is not connected.".

(** The scan command is refused by the radio. *)
Definition scan_refused : Outcome :=
  Sample.exits 1 "" "Error: Scanning not allowed".

(** The agent when the device status lists no wlan0, no profile is saved
    and the scan is refused. *)
Definition agent_scan_refused : @St Sample.host :=
  Sample.agent [Sample.exits 0 "eth0:ethernet:connected:Wired connection 1" "";
                Sample.exits 0 "" "";
                scan_refused].

(** A feed that names one network twice. *)
Definition feed_with_duplicate : string :=
  Py.join NL ["Home:WPA2:70:2437 MHz"; "Cafe:--:85:5180 MHz"; "Home:WPA2:40:5200 MHz";
              ":WPA2:90:2412 MHz"; "Shed:WPA2:weak:2462 MHz"].

(** A feed whose second network is named a:b:² (the last character is
    U+00B2, superscript two): nmcli escapes the colons of a name with a
    backslash, and the split of the line does not know the escape, so
    the third field of the line is that character. *)
Definition feed_with_colons : string :=
  Py.join NL ["Home:WPA2:70:2437 MHz"; "a\:b\:²:WPA2:55:2462 MHz"].



(** The device is not connected, one profile is saved, and the scan
    brings that feed. *)
Definition script_scan_colons : list Outcome :=
  [Sample.exits 0 "wlan0:wifi:disconnected:" "";
   Sample.exits 0 "Home:802-11-wireless" "";
   Sample.exits 0 feed_with_colons ""].

(** The NetworkManager profile of eth0 is found and modified, and the
    connection cannot be taken down: no cable. *)
Definition script_no_cable : list Outcome :=
  [Sample.exits 0 "Wired connection 1:ethernet:eth0" "";
   Sample.exits 0 "" "";
   Sample.exits 10 "" "Error: 'Wired connection 1' is not an active connection."].

Definition request_text : string := Sample.dumps Sample.static_request.

(** The profile is found and modified and the connection comes back up. *)
Definition script_activated : list Outcome :=
  [Sample.exits 0 "Wired connection 1:ethernet:eth0" "";
   Sample.exits 0 "" ""; Sample.exits 0 "" ""; Sample.exits 0 "" ""].

(** A scan request whose payload is the single byte 0xff. *)
Definition undecodable_scan_request : Message :=
  {| msg_topic := "rpi/wifi/scan"; msg_payload := [xff] |}.

(** systemctl reports NetworkManager inactive and systemd-networkd
    active. *)
Definition networkd_script : list Outcome :=
  [Sample.exits 3 "inactive" ""; Sample.exits 0 "active" ""].

(** The static request, as it arrives on the bus. *)
Definition static_request_message : Message :=
  {| msg_topic := "rpi/network/set";
     msg_payload := map byte_of_ascii (list_ascii_of_string request_text) |}.

(** A file with a stanza for eth0 followed by one for wlan0. *)
Definition two_stanzas : list string :=
  ["auto eth0" ++ NL;
   "iface eth0 inet dhcp" ++ NL;
   NL;
   "# wireless" ++ NL;
   "auto wlan0" ++ NL;
   "iface wlan0 inet dhcp" ++ NL].

(** The agent on a legacy system whose interfaces file holds the two
    stanzas. *)
Definition agent_two_stanzas : @St Sample.host :=
  @Build_St Sample.host
    (Sample.boot [] [(interfaces_file, String.concat "" two_stanzas)])
    [] (JObj []) "interfaces".

(** NetworkManager reports the address 10.0.0.5/33 for the profile of
    eth0. *)
Definition script_prefix_33 : list Outcome :=
  [Sample.exits 0 "eth0:ethernet:connected:Wired connection 1" "";
   Sample.exits 0
     (Py.join NL ["ipv4.method:manual"; "ipv4.addresses:10.0.0.5/33";
                  "ipv4.gateway:10.0.0.1"; "ipv4.dns:"]) "";
   Sample.exits 0 "IP4.ADDRESS[1]:10.0.0.5/24" ""].


(** The scripted host with other documents to read and, when [writable]
    is off, a file system that refuses every write. *)
Definition host_with (documents : list Json) (writable : bool) : Host := {|
  OS := Sample.ScriptOS;
  lib_text := Sample.text_of;
  json_loads := fun text => find (fun v => String.eqb text (Sample.dumps v)) documents;
  json_dumps := Sample.dumps;
  lib_str := Sample.dumps;
  os_run := Sample.run_script;
  os_now := Sample.stamp;
  os_time := Sample.seconds;
  os_sleep := fun _ o => o;
  os_exists := @os_exists Sample.host;
  os_access_w := @os_access_w Sample.host;
  os_read := @os_read Sample.host;
  os_write := fun path text o =>
                if writable then (inr tt, Sample.store_file path text o)
                else (inl (PermissionError path), o);
  os_copy2 := @os_copy2 Sample.host;
  os_system := fun _ o => (0, o);
  dumps_room := 972
|}.

(** The agent on that host, with no file, no scripted outcome and an
    empty configuration. *)
Definition agent_with (documents : list Json) (writable : bool)
  : @St (host_with documents writable) :=
  @Build_St (host_with documents writable) (Sample.boot [] []) [] (JObj [])
    "networkmanager".

(** A static request for an address in a network of four addresses, with
    no gateway. *)
Definition narrow_static_request : Json :=
  JObj [("interface", JStr "eth0"); ("method", JStr "static");
        ("static_ip", JStr "192.168.1.50"); ("netmask", JStr "255.255.255.252")].

(** The agent on that host when the configuration file holds a
    document. *)
Definition agent_with_file (documents : list Json) (document : Json)
  : @St (host_with documents true) :=
  @Build_St (host_with documents true)
    (Sample.boot [] [(config_path, Sample.dumps document)]) [] (JObj [])
    "networkmanager".

(** Arrays inside one another, one more than [n]. *)
Fixpoint nested (n : nat) : Json :=
  match n with
  | O => JArr []
  | S m => JArr [nested m]
  end.

(** A configuration of 989 arrays inside one another. *)
Definition deep_config : Json := nested 988.

(** A request for the configuration. *)
Definition get_config_message : Message :=
  {| msg_topic := "rpi/config/get"; msg_payload := [] |}.

(** A network request that names no method. *)
Definition request_without_method : Json := JObj [("interface", JStr "eth0")].

(** A WiFi request that names no network. *)
Definition request_without_ssid : Json := JObj [("password", JStr "secret")].

(** A configuration request. *)
Definition config_request : Json :=
  JObj [("config", JObj [("mqtt", JObj [("broker", JStr "localhost")])])].

(** A configuration request whose configuration is a number. *)
Definition scalar_config_request : Json := JObj [("config", JInt 5)].



(** The agent on a dhcpcd system whose file has global options only. *)
Definition agent_dhcpcd_plain : @St Sample.host :=
  @Build_St Sample.host
    (Sample.boot [] [(dhcpcd_file, "hostname" ++ NL ++ "option rapid_commit" ++ NL)])
    [] (JObj []) "dhcpcd".

(** The radio is switched off: the status query fails. *)
Definition radio_off : Outcome :=
  Sample.exits 8 "" "Error: NetworkManager is not running.".

(** The disconnect succeeds and the network refuses the key. *)
Definition script_wrong_key : list Outcome :=
  [Sample.exits 0 "" "";
   Sample.exits 4 "" "Error: Connection activation failed: Secrets were required."].

(** The networking unit does not exist, and neither ifdown nor ifup
    succeeds. *)
Definition script_no_networking_unit : list Outcome :=
  [Sample.exits 5 "" "Failed to restart networking.service: Unit not found.";
   Sample.exits 1 "" "ifdown: interface eth0 not configured";
   Sample.exits 1 "" "ifup: unknown interface eth0"].

(** The agent on a legacy system with that script. *)
Definition agent_no_networking_unit : @St Sample.host :=
  @Build_St Sample.host (Sample.boot script_no_networking_unit []) [] (JObj [])
    "interfaces".

(** The agent on a dhcpcd system whose file has a static stanza for
    eth0. *)
Definition agent_dhcpcd_static : @St Sample.host :=
  @Build_St Sample.host
    (Sample.boot []
       [(dhcpcd_file,
         "hostname" ++ NL ++ "interface eth0" ++ NL
         ++ "static ip_address=192.168.1.50/24" ++ NL
         ++ "static routers=192.168.1.1" ++ NL)])
    [] (JObj []) "dhcpcd".

(** The lines of a dhcpcd file with a stanza for eth0 and one for wlan0. *)
Definition dhcpcd_two_stanzas : list string :=
  ["hostname" ++ NL;
   "interface eth0" ++ NL;
   "static ip_address=192.168.1.50/24" ++ NL;
   "interface wlan0" ++ NL;
   "static ip_address=192.168.2.50/24" ++ NL].

(** A DHCP request that asks for a reboot. *)
Definition dhcp_reboot_request : Json :=
  JObj [("interface", JStr "eth0"); ("method", JStr "dhcp"); ("reboot", JBool true)].

(** * Properties *)

(** ** Text primitives on samples *)

Example split_dots : Py.split "."%char "255.255.0.0" = ["255"; "255"; "0"; "0"].
Proof. reflexivity. Qed.

Example split_max_colon :
  Py.split_max ":"%char 3 "a:b:c:d:e" = ["a"; "b"; "c"; "d:e"].
Proof. reflexivity. Qed.

Example int_blank_sign : Py.int " +2_5 " = Some 25.
Proof. reflexivity. Qed.

(** [int] does not take the separators 0x1c-0x1f for blanks, although
    [str.strip] does. *)
Example int_unit_separator : Py.int ("24" ++ String (Py.chr 31) "") = None.
Proof. reflexivity. Qed.

(** Decimal digits of other scripts are digits for [int], here ARABIC-INDIC
    two, five, five. *)
Example int_arabic_indic : Py.int "٢٥٥" = Some 255.
Proof. vm_compute. reflexivity. Qed.

(** Superscript two is a digit for [str.isdigit] and none for [int]. *)
Example isdigit_superscript : Py.isdigit "²" = true /\ Py.int "²" = None.
Proof. vm_compute. split; reflexivity. Qed.

(** [int] refuses more than 4300 digits. *)
Example int_digit_limit :
  Py.int (String.concat "" (repeat "1" 4301)) = None /\
  Py.isdigit (String.concat "" (repeat "1" 4301)) = true /\
  Py.int (String.concat "" (repeat "0" 4300)) = Some 0.
Proof. vm_compute. repeat split; reflexivity. Qed.

Example str_of_int_1234 : Py.str_of_int 1234 = "1234".
Proof. reflexivity. Qed.

Example splitlines_mixed :
  Py.splitlines ("a" ++ String Py.LF "" ++ String Py.CR (String Py.LF "b")
                 ++ String Py.LF "")
  = ["a"; ""; "b"].
Proof. reflexivity. Qed.

Example readlines_keepends :
  Py.readlines ("a" ++ String Py.LF "" ++ String Py.LF "b")
  = ["a" ++ String Py.LF ""; String Py.LF ""; "b"].
Proof. reflexivity. Qed.

Example split_ws_sample : Py.split_ws "  iface  eth0 inet   dhcp " = ["iface"; "eth0"; "inet"; "dhcp"].
Proof. reflexivity. Qed.

Example split_ws_1_sample : Py.split_ws_1 "dns-nameservers 8.8.8.8  8.8.4.4" = ["dns-nameservers"; "8.8.8.8  8.8.4.4"].
Proof. reflexivity. Qed.

(** ** Codec *)

Example netmask_to_cidr_24 : _netmask_to_cidr "255.255.255.0" = inr 24.
Proof. reflexivity. Qed.

Example netmask_to_cidr_other_digits : _netmask_to_cidr "٢٥٥.255.255.0" = inr 24.
Proof. vm_compute. reflexivity. Qed.

Example netmask_to_cidr_unit_separator :
  _netmask_to_cidr ("255.255.255.0" ++ String (Py.chr 31) "")
  = inl (ValueError ("Invalid netmask: 255.255.255.0" ++ String (Py.chr 31) "")).
Proof. vm_compute. reflexivity. Qed.

Example netmask_to_cidr_rejects_7 :
  _netmask_to_cidr "254.0.0.0" = inl (ValueError "Invalid netmask: 254.0.0.0").
Proof. reflexivity. Qed.

Example netmask_to_cidr_rejects_256 :
  _netmask_to_cidr "255.256.0.0" = inl (ValueError "Invalid netmask: 255.256.0.0").
Proof. reflexivity. Qed.

Example cidr_to_netmask_20 : _cidr_to_netmask 20 = "255.255.240.0".
Proof. reflexivity. Qed.

Ltac cases_8_30 n :=
  let H := fresh in
  assert (H : n = 8 \/ n = 9 \/ n = 10 \/ n = 11 \/ n = 12 \/ n = 13 \/ n = 14 \/
              n = 15 \/ n = 16 \/ n = 17 \/ n = 18 \/ n = 19 \/ n = 20 \/ n = 21 \/
              n = 22 \/ n = 23 \/ n = 24 \/ n = 25 \/ n = 26 \/ n = 27 \/ n = 28 \/
              n = 29 \/ n = 30) by lia;
  repeat (destruct H as [H | H]; [subst n | ]); [.. | subst n].

(** The octets of a prefix mask are determined by its length. *)
Lemma quad_of_value (a b c d v : Z) :
  octet a -> octet b -> octet c -> octet d ->
  quad_value a b c d = v ->
  a = v / 16777216 /\ b = (v / 65536) mod 256 /\
  c = (v / 256) mod 256 /\ d = v mod 256.
Proof.
  unfold octet, quad_value. intros Ha Hb Hc Hd Hv. subst v.
  repeat split; Z.div_mod_to_equations; lia.
Qed.

(** C2, as stated, fails: a mask whose ones are not contiguous passes the
    codec's checks (octets in 0..255, sixteen set bits) and comes back as a
    different mask. *)
Lemma netmask_roundtrip_counterexample :
  octet 255 /\ octet 0 /\
  _netmask_to_cidr (dotted_quad 255 0 255 0) = inr 16 /\
  _cidr_to_netmask 16 = "255.255.0.0" /\
  _cidr_to_netmask 16 <> dotted_quad 255 0 255 0.
Proof.
  unfold octet. repeat split; try lia; try reflexivity.
  vm_compute. discriminate.
Qed.

(** C2, amended: for a netmask written as four canonical decimal octets
    whose 32 bits are [n] ones followed by zeros, with [n] in 8..30,
    [_netmask_to_cidr] returns [n] and [_cidr_to_netmask] returns the
    netmask itself. *)
Theorem netmask_roundtrip_contiguous (a b c d n : Z) :
  octet a -> octet b -> octet c -> octet d ->
  8 <= n <= 30 ->
  quad_value a b c d = prefix_mask n ->
  _netmask_to_cidr (dotted_quad a b c d) = inr n /\
  _cidr_to_netmask n = dotted_quad a b c d.
Proof.
  intros Ha Hb Hc Hd Hn Hv.
  destruct (quad_of_value a b c d _ Ha Hb Hc Hd Hv) as (-> & -> & -> & ->).
  clear Ha Hb Hc Hd Hv.
  cases_8_30 n; vm_compute; split; reflexivity.
Qed.

Lemma netmask_roundtrip_contiguous_witness :
  _netmask_to_cidr (dotted_quad 255 255 240 0) = inr 20 /\
  _cidr_to_netmask 20 = dotted_quad 255 255 240 0.
Proof.
  apply (netmask_roundtrip_contiguous 255 255 240 0 20);
    unfold octet; try lia; reflexivity.
Defined.

(** C8, first half: every prefix length in 0..32 is converted, without
    the fallback being taken, to the dotted quad of that many leading ones. *)
Lemma cidr_to_netmask_in_range (cidr : Z) :
  0 <= cidr <= 32 ->
  _cidr_to_netmask cidr = octets_text (prefix_mask cidr).
Proof.
  intros Hc.
  assert (Hn : exists n : nat, (n <= 32)%nat /\ cidr = Z.of_nat n).
  { exists (Z.to_nat cidr). split; lia. }
  destruct Hn as (n & Hn & ->).
  do 33 (destruct n as [| n]; [vm_compute; reflexivity | ]).
  lia.
Qed.

Lemma cidr_to_netmask_above_32 (cidr : Z) :
  32 < cidr -> _cidr_to_netmask cidr = fallback_netmask.
Proof.
  intros Hc. unfold _cidr_to_netmask.
  destruct (Z.ltb_spec (32 - cidr) 0); [reflexivity | lia].
Qed.

Lemma cidr_to_netmask_negative (cidr : Z) :
  cidr < 0 -> _cidr_to_netmask cidr = "0.0.0.0".
Proof.
  intros Hc. unfold _cidr_to_netmask.
  destruct (Z.ltb_spec (32 - cidr) 0); [lia | ].
  rewrite (Z.shiftr_eq_0 4294967295 (32 - cidr)).
  - rewrite Z.shiftl_0_l. reflexivity.
  - lia.
  - change (Z.log2 4294967295) with 31. lia.
Qed.

(** *** Addresses are 32-bit values *)

Lemma digits_value_nonneg (s : string) : forall acc b v,
  0 <= acc -> Py.digits_value acc b s = Some v -> 0 <= v.
Proof.
  induction s as [| ch s IH]; cbn [Py.digits_value]; intros acc b v Hacc Hv.
  - destruct b; congruence.
  - destruct (Py.is_digit ch) eqn:Hd.
    + eapply IH; [ | exact Hv].
      unfold Py.is_digit in Hd. unfold Py.digit_val.
      apply andb_true_iff in Hd. destruct Hd as [Hd _].
      apply Nat.leb_le in Hd. lia.
    + destruct (Ascii.eqb ch "_"); [ | discriminate].
      destruct b; [ | discriminate]. eapply IH; eauto.
Qed.

Lemma parse_octet_range (o : string) (v : Z) :
  ipaddress.parse_octet o = Some v -> octet v.
Proof.
  unfold ipaddress.parse_octet, octet. destruct o as [| c0 o]; [discriminate | ].
  destruct (negb _); [discriminate | ].
  destruct (_ <? _)%nat; [discriminate | ].
  destruct (_ && _); [discriminate | ].
  destruct (Py.digits_value 0 false (String c0 o)) as [w |] eqn:Hw; [ | discriminate].
  destruct (Z.ltb_spec 255 w); [discriminate | ].
  intros [= <-]. split; [ | lia].
  eapply digits_value_nonneg; [ | exact Hw]. lia.
Qed.

Lemma octet_bit_high (a i : Z) : octet a -> 8 <= i -> Z.testbit a i = false.
Proof.
  unfold octet. intros Ha Hi.
  destruct (Z.eq_dec a 0) as [-> | Hz]; [apply Z.testbit_0_l | ].
  apply Z.bits_above_log2; [lia | ].
  assert (Z.log2 a < 8) by (apply Z.log2_lt_pow2; lia). lia.
Qed.

Lemma quad_lor_range (a b c d : Z) :
  octet a -> octet b -> octet c -> octet d ->
  0 <= Z.lor (Z.shiftl a 24) (Z.lor (Z.shiftl b 16) (Z.lor (Z.shiftl c 8) d)) < 2 ^ 32.
Proof.
  intros Ha Hb Hc Hd.
  set (v := Z.lor _ _).
  assert (Hv : 0 <= v).
  { unfold v, octet in *.
    repeat (apply Z.lor_nonneg; split); try apply Z.shiftl_nonneg; lia. }
  split; [exact Hv | ].
  destruct (Z.eq_dec v 0) as [-> | Hz]; [reflexivity | ].
  apply Z.log2_lt_pow2; [lia | ].
  destruct (Z.lt_ge_cases (Z.log2 v) 32) as [Hlt | Hge]; [exact Hlt | exfalso].
  assert (Hbit : Z.testbit v (Z.log2 v) = true) by (apply Z.bit_log2; lia).
  unfold v in Hbit at 1.
  rewrite !Z.lor_spec, !Z.shiftl_spec in Hbit by lia.
  rewrite (octet_bit_high a), (octet_bit_high b), (octet_bit_high c),
    (octet_bit_high d) in Hbit by (assumption || lia).
  discriminate.
Qed.

Lemma IPv4Address_range (s : string) (a : Z) :
  ipaddress.IPv4Address s = Some a -> 0 <= a < 2 ^ 32.
Proof.
  unfold ipaddress.IPv4Address, ipaddress.ip_int_from_string.
  destruct (Py.contains s "/"); [discriminate | ].
  destruct s as [| ch s]; [discriminate | ].
  destruct (Py.split "." (String ch s)) as [| o1 [| o2 [| o3 [| o4 [| o5 l]]]]];
    simpl; try discriminate.
  - destruct (ipaddress.parse_octet o1); discriminate.
  - destruct (ipaddress.parse_octet o1); [ | discriminate].
    destruct (ipaddress.parse_octet o2); discriminate.
  - destruct (ipaddress.parse_octet o1); [ | discriminate].
    destruct (ipaddress.parse_octet o2); [ | discriminate].
    destruct (ipaddress.parse_octet o3); discriminate.
  - destruct (ipaddress.parse_octet o1) as [a1 |] eqn:H1; [ | discriminate].
    destruct (ipaddress.parse_octet o2) as [a2 |] eqn:H2; [ | discriminate].
    destruct (ipaddress.parse_octet o3) as [a3 |] eqn:H3; [ | discriminate].
    destruct (ipaddress.parse_octet o4) as [a4 |] eqn:H4; [ | discriminate].
    intros [= <-].
    apply quad_lor_range; eapply parse_octet_range; eassumption.
  - destruct (ipaddress.parse_octet o1); [ | discriminate].
    destruct (ipaddress.parse_octet o2); [ | discriminate].
    destruct (ipaddress.parse_octet o3); [ | discriminate].
    destruct (ipaddress.parse_octet o4); [ | discriminate].
    destruct (ipaddress.parse_octet o5); discriminate.
Qed.

Lemma bit_high32 (x i : Z) : 0 <= x < 2 ^ 32 -> 32 <= i -> Z.testbit x i = false.
Proof.
  intros Hx Hi.
  destruct (Z.eq_dec x 0) as [-> | Hz]; [apply Z.testbit_0_l | ].
  apply Z.bits_above_log2; [lia | ].
  assert (Z.log2 x < 32) by (apply Z.log2_lt_pow2; lia). lia.
Qed.

(** Masking with the netmask of a [c]-bit prefix clears the low
    [32 - c] bits. *)
Lemma land_prefix_mask (x c : Z) :
  0 <= x < 2 ^ 32 -> 0 <= c <= 32 ->
  Z.land x (Z.lxor ipaddress.ALL_ONES (Z.shiftr ipaddress.ALL_ONES c))
  = x / 2 ^ (32 - c) * 2 ^ (32 - c).
Proof.
  intros Hx Hc.
  rewrite <- Z.shiftr_div_pow2, <- Z.shiftl_mul_pow2 by lia.
  change ipaddress.ALL_ONES with (Z.ones 32).
  apply Z.bits_inj'. intros i Hi.
  rewrite Z.land_spec, Z.lxor_spec, Z.shiftr_spec, Z.shiftl_spec by lia.
  rewrite !Z.testbit_ones_nonneg by lia.
  destruct (Z.ltb_spec i 32) as [Hi32 | Hi32],
           (Z.ltb_spec (i + c) 32) as [Hic | Hic]; cbn [xorb].
  - rewrite andb_false_r. symmetry. apply Z.testbit_neg_r. lia.
  - rewrite andb_true_r, Z.shiftr_spec by lia. f_equal. lia.
  - lia.
  - rewrite andb_false_r, Z.shiftr_spec by lia.
    symmetry. apply bit_high32; [exact Hx | lia].
Qed.

Lemma contains_same_prefix (a g c : Z) :
  0 <= a < 2 ^ 32 -> 0 <= g < 2 ^ 32 -> 0 <= c <= 32 ->
  ipaddress.contains (ipaddress.IPv4Network a c) g = true
  <-> g / 2 ^ (32 - c) = a / 2 ^ (32 - c).
Proof.
  intros Ha Hg Hc. unfold ipaddress.contains, ipaddress.IPv4Network.
  cbn [ipaddress.netmask ipaddress.network_address].
  rewrite !land_prefix_mask by assumption.
  rewrite Z.eqb_eq. apply Z.mul_cancel_r.
  assert (0 < 2 ^ (32 - c)) by (apply Z.pow_pos_nonneg; lia). lia.
Qed.

Lemma str_address_octets (v : Z) : ipaddress.str_address v = octets_text v.
Proof.
  unfold ipaddress.str_address, octets_text, dotted_quad.
  cbn [map Py.join].
  change 255 with (Z.ones 8).
  rewrite !Z.land_ones, !Z.shiftr_div_pow2 by lia.
  reflexivity.
Qed.

Lemma str_network_text (a c : Z) :
  0 <= a < 2 ^ 32 -> 0 <= c <= 32 ->
  ipaddress.str_network (ipaddress.IPv4Network a c) = network_text a c.
Proof.
  intros Ha Hc. unfold ipaddress.str_network, ipaddress.IPv4Network, network_text.
  cbn [ipaddress.netmask ipaddress.network_address ipaddress.prefixlen].
  rewrite land_prefix_mask, str_address_octets by assumption. reflexivity.
Qed.

Lemma netmask_to_cidr_range (netmask : string) (c : Z) :
  _netmask_to_cidr netmask = inr c -> 8 <= c <= 30.
Proof.
  unfold _netmask_to_cidr, netmask_to_cidr_body.
  destruct (negb _); [discriminate | ].
  destruct (count_octets _ 0) as [e | n]; [discriminate | ].
  destruct (Z.leb_spec 8 n), (Z.leb_spec n 30); cbn; try discriminate.
  intros [= <-]. lia.
Qed.

Section CodecFacts.
Context `{Host}.

(** C3: for an address and a netmask the codec accepts, validation with a
    supplied gateway succeeds exactly when the gateway is an address of the
    network [ip/cidr(netmask)], and then returns the description of that
    network; without a gateway it succeeds. *)
Theorem validate_network_config_gateway (static_ip netmask : string) (a c : Z) :
  ipaddress.IPv4Address static_ip = Some a ->
  _netmask_to_cidr netmask = inr c ->
  let accepted := (true, "Valid network configuration: " ++ network_text a c) in
  _validate_network_config static_ip netmask None = accepted /\
  _validate_network_config static_ip netmask (Some "") = accepted /\
  forall gw, gw <> "" ->
    (gateway_in_network a c gw ->
       _validate_network_config static_ip netmask (Some gw) = accepted) /\
    (~ gateway_in_network a c gw ->
       fst (_validate_network_config static_ip netmask (Some gw)) = false).
Proof.
  intros Hip Hnm accepted.
  pose proof (IPv4Address_range _ _ Hip) as Ha.
  pose proof (netmask_to_cidr_range _ _ Hnm) as Hc.
  assert (Hc' : 0 <= c <= 32) by lia.
  unfold _validate_network_config, validate_body. rewrite Hip, Hnm.
  rewrite str_network_text by assumption.
  repeat split.
  - intros (g & Hg & Hsame).
    assert (Ht : Py.truthy gw = true).
    { unfold Py.truthy. destruct (String.eqb_spec gw ""); [contradiction | reflexivity]. }
    rewrite Ht, Hg. cbn [negb].
    pose proof (IPv4Address_range _ _ Hg) as Hgr.
    apply (contains_same_prefix a g c Ha Hgr Hc') in Hsame.
    rewrite Hsame. reflexivity.
  - intros Hout.
    assert (Ht : Py.truthy gw = true).
    { unfold Py.truthy. destruct (String.eqb_spec gw ""); [contradiction | reflexivity]. }
    rewrite Ht. cbn [negb].
    destruct (ipaddress.IPv4Address gw) as [g |] eqn:Hg; [ | reflexivity].
    destruct (ipaddress.contains (ipaddress.IPv4Network a c) g) eqn:Hin;
      [ | reflexivity].
    exfalso. apply Hout. exists g. split; [exact Hg | ].
    pose proof (IPv4Address_range _ _ Hg) as Hgr.
    apply (contains_same_prefix a g c Ha Hgr Hc'). exact Hin.
Qed.

End CodecFacts.

(** ** Computations of the agent *)

Create HintDb quiet discriminated.

Section MonadFacts.
Context `{Host}.

Lemma with_os_id (s : St) : with_os s (os s) = s.
Proof. destruct s; reflexivity. Qed.

Lemma with_os_twice (s : St) (o o' : OS) : with_os (with_os s o) o' = with_os s o'.
Proof. reflexivity. Qed.

Lemma quiet_ret {A} (a : A) : quiet (ret a).
Proof. intros s. exists (Ok a), (os s). rewrite with_os_id. split; [reflexivity | discriminate]. Qed.

Lemma quiet_raise {A} (e : exn) : quiet (@raise _ A e).
Proof. intros s. exists (Raise e), (os s). rewrite with_os_id. split; [reflexivity | discriminate]. Qed.

Lemma quiet_bind {A B} (m : M A) (k : A -> M B) :
  quiet m -> (forall a, quiet (k a)) -> quiet (bind m k).
Proof.
  intros Hm Hk s. unfold bind.
  destruct (Hm s) as (r & o & -> & Hr).
  destruct r as [a | e |]; [ | | contradiction].
  - destruct (Hk a (with_os s o)) as (r' & o' & -> & Hr').
    exists r', o'. split; [reflexivity | exact Hr'].
  - exists (Raise e), o. split; [reflexivity | discriminate].
Qed.

Lemma quiet_try_except {A} (m : M A) (h : exn -> M A) :
  quiet m -> (forall e, quiet (h e)) -> quiet (try_except m h).
Proof.
  intros Hm Hh s. unfold try_except.
  destruct (Hm s) as (r & o & -> & Hr).
  destruct r as [a | e |]; [ | | contradiction].
  - exists (Ok a), o. split; [reflexivity | discriminate].
  - destruct (Hh e (with_os s o)) as (r' & o' & -> & Hr').
    exists r', o'. split; [reflexivity | exact Hr'].
Qed.

Lemma quiet_try_except_if {A} (kind : exn -> bool) (m : M A) (h : exn -> M A) :
  quiet m -> (forall e, quiet (h e)) -> quiet (try_except_if kind m h).
Proof.
  intros Hm Hh s. unfold try_except_if.
  destruct (Hm s) as (r & o & -> & Hr).
  destruct r as [a | e |]; [ | | contradiction].
  - exists (Ok a), o. split; [reflexivity | discriminate].
  - destruct (kind e).
    + destruct (Hh e (with_os s o)) as (r' & o' & -> & Hr').
      exists r', o'. split; [reflexivity | exact Hr'].
    + exists (Raise e), o. split; [reflexivity | discriminate].
Qed.

Lemma quiet_lift_exc {A} (r : Exc A) : quiet (lift_exc r).
Proof. destruct r; [apply quiet_raise | apply quiet_ret]. Qed.

Lemma quiet_get_state : quiet get_state.
Proof. intros s. exists (Ok s), (os s). rewrite with_os_id. split; [reflexivity | discriminate]. Qed.

Lemma quiet_on_os {A} (f : OS -> A * OS) : quiet (on_os f).
Proof.
  intros s. unfold on_os. destruct (f (os s)) as [a o].
  exists (Ok a), o. split; [reflexivity | discriminate].
Qed.

Lemma quiet_run (timeout : option Z) (argv : list string) : quiet (run timeout argv).
Proof.
  intros s. unfold run. destruct (os_run timeout argv (os s)) as [[c | e] o].
  - exists (Ok c), o. split; [reflexivity | discriminate].
  - exists (Raise e), o. split; [reflexivity | discriminate].
Qed.

Lemma quiet_run_checked (timeout : option Z) (argv : list string) :
  quiet (run_checked timeout argv).
Proof.
  unfold run_checked. apply quiet_bind; [apply quiet_run | intros c].
  destruct (returncode c =? 0); [apply quiet_ret | apply quiet_raise].
Qed.

Lemma quiet_sleep (seconds : Z) : quiet (sleep seconds).
Proof. intros s. exists (Ok tt), (os_sleep seconds (os s)). split; [reflexivity | discriminate]. Qed.

Lemma quiet_now : quiet now.
Proof. intros s. exists (Ok (os_now (os s))), (os s). rewrite with_os_id. split; [reflexivity | discriminate]. Qed.

Lemma quiet_read_file (path : string) : quiet (read_file path).
Proof.
  intros s. unfold read_file. destruct (os_read path (os s)) as [e | text].
  - exists (Raise e), (os s). rewrite with_os_id. split; [reflexivity | discriminate].
  - exists (Ok text), (os s). rewrite with_os_id. split; [reflexivity | discriminate].
Qed.

Lemma quiet_path_exists (path : string) : quiet (path_exists path).
Proof.
  intros s. exists (Ok (os_exists path (os s))), (os s).
  rewrite with_os_id. split; [reflexivity | discriminate].
Qed.

Lemma quiet_access_w (path : string) : quiet (access_w path).
Proof.
  intros s. exists (Ok (os_access_w path (os s))), (os s).
  rewrite with_os_id. split; [reflexivity | discriminate].
Qed.

Lemma quiet_time_now : quiet time_now.
Proof.
  intros s. exists (Ok (os_time (os s))), (os s).
  rewrite with_os_id. split; [reflexivity | discriminate].
Qed.

Lemma quiet_write_file (path text : string) : quiet (write_file path text).
Proof.
  intros s. unfold write_file. destruct (os_write path text (os s)) as [[e | u] o].
  - exists (Raise e), o. split; [reflexivity | discriminate].
  - exists (Ok tt), o. split; [reflexivity | discriminate].
Qed.

Lemma quiet_copy2 (src dst : string) : quiet (copy2 src dst).
Proof.
  intros s. unfold copy2. destruct (os_copy2 src dst (os s)) as [[e | u] o].
  - exists (Raise e), o. split; [reflexivity | discriminate].
  - exists (Ok tt), o. split; [reflexivity | discriminate].
Qed.

(** A quiet computation whose handler always answers is total. *)
Lemma total_try_except {A} (m : M A) (h : exn -> M A) :
  quiet m -> (forall e, total (h e)) -> total (try_except m h).
Proof.
  intros Hm Hh s. unfold try_except.
  destruct (Hm s) as (r & o & -> & Hr).
  destruct r as [a | e |]; [ | | contradiction].
  - exists a, o. reflexivity.
  - destruct (Hh e (with_os s o)) as (a & o' & ->). exists a, o'. reflexivity.
Qed.

Lemma total_ret {A} (a : A) : total (ret a).
Proof. intros s. exists a, (os s). rewrite with_os_id. reflexivity. Qed.

Lemma total_bind {A B} (m : M A) (k : A -> M B) :
  total m -> (forall a, total (k a)) -> total (bind m k).
Proof.
  intros Hm Hk s. unfold bind.
  destruct (Hm s) as (a & o & ->).
  destruct (Hk a (with_os s o)) as (b & o' & ->).
  exists b, o'. reflexivity.
Qed.

Lemma total_quiet {A} (m : M A) : total m -> quiet m.
Proof.
  intros Hm s. destruct (Hm s) as (a & o & ->).
  exists (Ok a), o. split; [reflexivity | discriminate].
Qed.

End MonadFacts.

#[export] Hint Resolve quiet_ret quiet_raise quiet_lift_exc quiet_get_state quiet_on_os
  quiet_run quiet_run_checked quiet_sleep quiet_now quiet_read_file
  quiet_path_exists quiet_access_w quiet_time_now quiet_write_file quiet_copy2
  : quiet.

(** Walks through a computation built from binds, handlers and case
    analyses, closing the leaves with the facts already known. *)
Ltac quiet_tac :=
  repeat first
    [ solve [auto with quiet]
    | match goal with
      | |- quiet (bind _ _) => apply quiet_bind; [ | intros ]
      | |- quiet (try_except_if _ _ _) => apply quiet_try_except_if; [ | intros ]
      | |- quiet (try_except _ _) => apply quiet_try_except; [ | intros ]
      | |- quiet (if ?b then _ else _) => destruct b
      | |- quiet (match ?x with _ => _ end) => destruct x
      | |- quiet (let (_, _) := ?x in _) => destruct x
      end ].

Ltac total_handler :=
  apply total_try_except;
  [ | intros; repeat match goal with
                     | |- total (if ?b then _ else _) => destruct b
                     | |- total (match ?x with _ => _ end) => destruct x
                     end; apply total_ret ].

Section QuietAgent.
Context `{Host}.

Lemma quiet_get_ethernet_connection_name (interface : string) :
  quiet (_get_ethernet_connection_name interface).
Proof. unfold _get_ethernet_connection_name. quiet_tac. Qed.

Lemma total_get_ethernet_connection_name (interface : string) :
  total (_get_ethernet_connection_name interface).
Proof.
  unfold _get_ethernet_connection_name. total_handler. quiet_tac.
Qed.

Lemma quiet_reactivate (conn_name : string) : quiet (reactivate conn_name).
Proof. unfold reactivate. quiet_tac. Qed.

Hint Resolve quiet_get_ethernet_connection_name quiet_reactivate : quiet.

Lemma total_set_networkmanager_static (interface ip netmask gateway dns : string) :
  total (_set_networkmanager_static interface ip netmask gateway dns).
Proof.
  unfold _set_networkmanager_static. total_handler. quiet_tac.
Qed.

Lemma total_set_networkmanager_dhcp (interface : string) :
  total (_set_networkmanager_dhcp interface).
Proof.
  unfold _set_networkmanager_dhcp. total_handler. quiet_tac.
Qed.

Lemma total_change_ip_configuration (interface method : string)
    (static_ip netmask gateway dns : option string) :
  total (change_ip_configuration interface method static_ip netmask gateway dns).
Proof.
  unfold change_ip_configuration. total_handler. quiet_tac.
Qed.

Lemma total_restart_networking_service : total restart_networking_service.
Proof.
  unfold restart_networking_service. total_handler. quiet_tac.
Qed.

Hint Resolve total_quiet total_change_ip_configuration
  total_restart_networking_service : quiet.

Lemma total_set_dhcpcd_static (interface ip netmask gateway dns : string) :
  total (_set_dhcpcd_static interface ip netmask gateway dns).
Proof. unfold _set_dhcpcd_static. total_handler. quiet_tac. Qed.

Lemma total_set_dhcpcd_dhcp (interface : string) : total (_set_dhcpcd_dhcp interface).
Proof. unfold _set_dhcpcd_dhcp. total_handler. quiet_tac. Qed.

Lemma total_set_interfaces_static (interface ip netmask gateway dns : string) :
  total (_set_interfaces_static interface ip netmask gateway dns).
Proof. unfold _set_interfaces_static. total_handler. quiet_tac. Qed.

Lemma total_set_interfaces_dhcp (interface : string) :
  total (_set_interfaces_dhcp interface).
Proof. unfold _set_interfaces_dhcp. total_handler. quiet_tac. Qed.

Hint Resolve total_set_networkmanager_static total_set_networkmanager_dhcp
  total_set_dhcpcd_static total_set_dhcpcd_dhcp
  total_set_interfaces_static total_set_interfaces_dhcp : quiet.

(** [set_static_ip] always answers with a pair, whatever the host does. *)
Lemma total_set_static_ip (interface ip netmask gateway dns : string) :
  total (set_static_ip interface ip netmask gateway dns).
Proof. unfold set_static_ip. total_handler. quiet_tac. Qed.

Lemma total_set_dynamic_ip (interface : string) : total (set_dynamic_ip interface).
Proof. unfold set_dynamic_ip. total_handler. quiet_tac. Qed.

Lemma total_run_nmcli_command (command_args : list string) (description : string) :
  total (run_nmcli_command command_args description).
Proof. unfold run_nmcli_command. total_handler. quiet_tac. Qed.

Hint Resolve total_run_nmcli_command : quiet.

Lemma quiet_query_current (connection_name : string) :
  quiet (query_current connection_name).
Proof. unfold query_current. quiet_tac. Qed.

Hint Resolve quiet_query_current : quiet.

Lemma total_get_wifi_status : total get_wifi_status.
Proof. unfold get_wifi_status. total_handler. quiet_tac. Qed.

End QuietAgent.

(** ** WiFi manager *)

Section WifiFacts.
Context `{Host}.

Lemma run_nmcli_exit_0 (args : list string) (description : string) (s : St)
    (c : Completed) (o : OS) :
  os_run (Some 15) ("nmcli" :: args) (os s) = (Exited c, o) ->
  returncode c = 0 ->
  run_nmcli_command args description s = (Ok (true, Py.strip (stdout c)), with_os s o).
Proof.
  intros Hrun Hrc.
  unfold run_nmcli_command, try_except, bind, run_checked, bind, run.
  rewrite Hrun, Hrc. reflexivity.
Qed.

Lemma run_nmcli_exit_error (args : list string) (description : string) (s : St)
    (c : Completed) (o : OS) :
  os_run (Some 15) ("nmcli" :: args) (os s) = (Exited c, o) ->
  returncode c <> 0 ->
  run_nmcli_command args description s
  = (Ok (false, "Failed to " ++ description ++ ": " ++ Py.strip (stderr c)),
     with_os s o).
Proof.
  intros Hrun Hrc.
  unfold run_nmcli_command, try_except, bind, run_checked, bind, run.
  rewrite Hrun. apply Z.eqb_neq in Hrc. rewrite Hrc. reflexivity.
Qed.

Lemma run_nmcli_not_run (args : list string) (description : string) (s : St)
    (e : exn) (o : OS) :
  os_run (Some 15) ("nmcli" :: args) (os s) = (NotRun e, o) ->
  exists message,
    run_nmcli_command args description s = (Ok (false, message), with_os s o).
Proof.
  intros Hrun.
  unfold run_nmcli_command, try_except, bind, run_checked, bind, run.
  rewrite Hrun. destruct e; eexists; reflexivity.
Qed.

(** The text in front of the error does not hide or make up the phrase
    the disconnect looks for. *)
Lemma not_connected_in_failure (err : string) :
  Py.contains
    (Py.lower ("Failed to " ++ "disconnect current Wi-Fi" ++ ": " ++ err))
    "not connected"
  = Py.contains (Py.lower err) "not connected".
Proof. reflexivity. Qed.

Lemma disconnect_tolerates (s : St) :
  disconnected_or_idle (fst (os_run (Some 15) disconnect_cmd (os s))) ->
  disconnect_current_wifi s
  = (Ok (true, "Successfully disconnected."),
     with_os s (snd (os_run (Some 15) disconnect_cmd (os s)))).
Proof.
  unfold disconnect_cmd.
  destruct (os_run (Some 15) ["nmcli"; "device"; "disconnect"; "wlan0"] (os s))
    as [[c | e] o] eqn:Hrun; cbn [fst snd disconnected_or_idle]; [ | contradiction].
  intros Hok. unfold disconnect_current_wifi, bind.
  destruct (Z.eq_dec (returncode c) 0) as [Hrc | Hrc].
  - rewrite (run_nmcli_exit_0 _ _ _ _ _ Hrun Hrc). reflexivity.
  - rewrite (run_nmcli_exit_error _ _ _ _ _ Hrun Hrc).
    destruct Hok as [Hz | Hphrase]; [contradiction | ].
    cbn [fst snd negb andb]. rewrite not_connected_in_failure, Hphrase. reflexivity.
Qed.

Lemma disconnect_reports_failure (s : St) (c : Completed) (o : OS) :
  os_run (Some 15) disconnect_cmd (os s) = (Exited c, o) ->
  returncode c <> 0 ->
  Py.contains (Py.lower (Py.strip (stderr c))) "not connected" = false ->
  disconnect_current_wifi s
  = (Ok (false, "Failed to disconnect current Wi-Fi: " ++ Py.strip (stderr c)),
     with_os s o).
Proof.
  intros Hrun Hrc Hphrase. unfold disconnect_current_wifi, bind.
  rewrite (run_nmcli_exit_error _ _ _ _ _ Hrun Hrc).
  cbn [fst snd negb andb]. rewrite not_connected_in_failure, Hphrase. reflexivity.
Qed.

(** C9, amended: a disconnect reports success when its command exits
    with 0 or fails saying the device is not connected, so two calls in a
    row that both end in one of these ways both report success; a command
    that exits with another error is reported as a failure. *)
Theorem disconnect_twice (s : St) :
  let first := os_run (Some 15) disconnect_cmd (os s) in
  let second := os_run (Some 15) disconnect_cmd (snd first) in
  (disconnected_or_idle (fst first) ->
   disconnected_or_idle (fst second) ->
   disconnect_current_wifi s
     = (Ok (true, "Successfully disconnected."), with_os s (snd first)) /\
   disconnect_current_wifi (with_os s (snd first))
     = (Ok (true, "Successfully disconnected."), with_os s (snd second))) /\
  (forall c,
     fst first = Exited c ->
     returncode c <> 0 ->
     Py.contains (Py.lower (Py.strip (stderr c))) "not connected" = false ->
     fst (disconnect_current_wifi s)
     = Ok (false, "Failed to disconnect current Wi-Fi: " ++ Py.strip (stderr c))).
Proof.
  intros first second. split.
  - intros H1 H2. split.
    + apply disconnect_tolerates. exact H1.
    + rewrite (disconnect_tolerates (with_os s (snd first)) H2). reflexivity.
  - intros c Hc Hrc Hphrase. subst first second.
    destruct (os_run (Some 15) disconnect_cmd (os s)) as [o1 os1] eqn:Hrun.
    cbn [fst] in Hc. subst o1.
    rewrite (disconnect_reports_failure s c os1 Hrun Hrc Hphrase). reflexivity.
Qed.

End WifiFacts.

(** C9, as stated, fails: in a state where the device cannot be
    disconnected for another reason than being idle, two calls in a row
    both report a failure. *)
Lemma disconnect_twice_counterexample :
  fst (disconnect_current_wifi (Sample.agent [no_wlan0; no_wlan0]))
  = Ok (false, "Failed to disconnect current Wi-Fi: Error: Device 'wlan0' not found.")
  /\
  fst (disconnect_current_wifi
         (snd (disconnect_current_wifi (Sample.agent [no_wlan0; no_wlan0]))))
  = Ok (false, "Failed to disconnect current Wi-Fi: Error: Device 'wlan0' not found.").
Proof. split; vm_compute; reflexivity. Qed.

Lemma disconnect_twice_witness :
  disconnect_current_wifi (Sample.agent [Sample.exits 0 "" ""; idle_wlan0])
  = (Ok (true, "Successfully disconnected."),
     with_os (Sample.agent [Sample.exits 0 "" ""; idle_wlan0])
       (snd (os_run (Some 15) disconnect_cmd
               (os (Sample.agent [Sample.exits 0 "" ""; idle_wlan0]))))).
Proof.
  apply (disconnect_twice (Sample.agent [Sample.exits 0 "" ""; idle_wlan0])).
  - left. reflexivity.
  - right. vm_compute. reflexivity.
Defined.

Section ScanFacts.
Context `{Host}.

Lemma collect_networks_nil (current : option string) (saved seen : list string) :
  collect_networks current saved seen [] = [].
Proof. reflexivity. Qed.

(** What [scan_wifi] returns, from the outcome of its scan command. *)
Lemma scan_wifi_run (s : St) :
  exists w o1,
    get_wifi_status s = (Ok w, with_os s o1) /\
    forall r o2,
      run_nmcli_command scan_args "scan Wi-Fi networks" (with_os s o1)
        = (Ok r, with_os s o2) ->
      scan_wifi s
      = lift_exc
          (if negb (fst r) then inr []
           else sort_desc
                  (collect_networks
                     (if connected w then option_map cn_ssid (current_network w)
                      else None)
                     (map sv_ssid (saved_networks w)) []
                     (Py.splitlines (snd r))))
          (with_os s o2).
Proof.
  destruct (total_get_wifi_status s) as (w & o1 & Hw).
  exists w, o1. split; [exact Hw | ].
  intros r o2 Hr. unfold scan_wifi, bind. rewrite Hw, Hr.
  destruct (fst r); reflexivity.
Qed.

(** C10: when the scan command fails, [scan_wifi] returns the empty list
    and the handler publishes, on the scan response topic, status
    "success" with no networks and count 0: the very response of a scan
    whose command succeeded and listed nothing. *)
Theorem scan_failure_reported_as_empty (s : St) :
  let s1 := after get_wifi_status s in
  let o := os_run (Some 15) ("nmcli" :: scan_args) (os s1) in
  let s2 := with_os s (snd o) in
  let published :=
    with_outbox s2
      (List.app (outbox s)
         [{| pub_topic := "rpi/wifi/scan_response";
             pub_body := scan_response (os_now (snd o)) [] |}]) in
  (scan_failed (fst o) ->
   scan_wifi s = (Ok [], s2) /\ _handle_wifi_scan s = (Ok tt, published)) /\
  (forall c, fst o = Exited c -> returncode c = 0 -> Py.strip (stdout c) = "" ->
   scan_wifi s = (Ok [], s2) /\ _handle_wifi_scan s = (Ok tt, published)).
Proof.
  intros s1 o s2 published.
  destruct (scan_wifi_run s) as (w & o1 & Hw & Hscan).
  assert (Hs1 : s1 = with_os s o1) by (unfold s1, after; rewrite Hw; reflexivity).
  assert (Hboth : scan_wifi s = (Ok [], s2) ->
                  scan_wifi s = (Ok [], s2) /\ _handle_wifi_scan s = (Ok tt, published)).
  { intros Hs. split; [exact Hs | ].
    unfold _handle_wifi_scan, try_except, bind. rewrite Hs.
    unfold published, s2. reflexivity. }
  subst s2 published. subst o. rewrite Hs1 in *. cbn [os with_os] in *.
  destruct (os_run (Some 15) ("nmcli" :: scan_args) o1) as [out o2] eqn:Hrun.
  cbn [fst snd] in *.
  split.
  - intros Hfail. apply Hboth.
    destruct out as [c | e]; cbn [scan_failed] in Hfail.
    + rewrite (Hscan (false, _) o2
                 (run_nmcli_exit_error scan_args _ (with_os s o1) c o2 Hrun Hfail)).
      reflexivity.
    + destruct (run_nmcli_not_run scan_args "scan Wi-Fi networks"
                  (with_os s o1) e o2 Hrun) as (message & Hm).
      rewrite (Hscan (false, message) o2 Hm). reflexivity.
  - intros c -> Hrc Hout. apply Hboth.
    rewrite (Hscan (true, _) o2
               (run_nmcli_exit_0 scan_args _ (with_os s o1) c o2 Hrun Hrc)).
    cbn [fst snd negb]. rewrite Hout. reflexivity.
Qed.

End ScanFacts.

Lemma scan_failure_reported_as_empty_witness :
  scan_wifi agent_scan_refused
  = (Ok [],
     with_os agent_scan_refused
       (snd (os_run (Some 15) ("nmcli" :: scan_args)
               (os (after get_wifi_status agent_scan_refused))))) /\
  dict_get "status"
    (scan_response
       (os_now (snd (os_run (Some 15) ("nmcli" :: scan_args)
                       (os (after get_wifi_status agent_scan_refused))))) [])
  = Some (JStr "success").
Proof.
  split.
  - apply (scan_failure_reported_as_empty agent_scan_refused).
    vm_compute. discriminate.
  - reflexivity.
Defined.

(** ** The scan list *)

Lemma not_seen (name : string) (seen : list string) :
  existsb (String.eqb name) seen = false <-> ~ In name seen.
Proof.
  split.
  - intros Hf Hin. assert (existsb (String.eqb name) seen = true); [ | congruence].
    apply existsb_exists. exists name. split; [exact Hin | apply String.eqb_refl].
  - intros Hn. destruct (existsb (String.eqb name) seen) eqn:He; [ | reflexivity].
    apply existsb_exists in He. destruct He as (x & Hin & Heq).
    apply String.eqb_eq in Heq. subst x. contradiction.
Qed.

Lemma not_seen_in (name : string) (seen : list string) :
  existsb (String.eqb name) seen = true -> In name seen.
Proof.
  intros He. apply existsb_exists in He. destruct He as (x & Hin & Heq).
  apply String.eqb_eq in Heq. subst x. exact Hin.
Qed.

Lemma truthy_nonempty (s : string) : Py.truthy s = true <-> s <> "".
Proof.
  unfold Py.truthy. destruct (String.eqb_spec s ""); cbn [negb]; split; intros;
    first [congruence | reflexivity | contradiction].
Qed.

(** Every entry the loop appends is new, named, and the names are
    pairwise distinct. *)
Lemma collect_networks_fresh (current : option string) (saved : list string)
    (lines : list string) : forall seen,
  (forall n, In n (collect_networks current saved seen lines) ->
             ~ In (ssid n) seen /\ ssid n <> "") /\
  NoDup (map ssid (collect_networks current saved seen lines)).
Proof.
  induction lines as [| line rest IH]; intros seen; cbn [collect_networks].
  - split; [intros n [] | constructor].
  - destruct (scan_fields line) as [[[[name sec] sig] freq] |]; [ | apply IH].
    destruct (Py.truthy name) eqn:Ht; cbn [andb]; [ | apply IH].
    destruct (existsb (String.eqb name) seen) eqn:Hs; cbn [negb]; [apply IH | ].
    destruct (IH (name :: seen)) as [Hin Hnd]. split.
    + intros n [<- | Hn]; cbn [ssid].
      * split; [apply not_seen; exact Hs | apply truthy_nonempty; exact Ht].
      * destruct (Hin n Hn) as [Hnot Hne]. split; [ | exact Hne].
        intros Hseen. apply Hnot. right. exact Hseen.
    + cbn [map ssid]. constructor; [ | exact Hnd].
      intros Hdup. apply in_map_iff in Hdup. destruct Hdup as (n & Hname & Hn).
      destruct (Hin n Hn) as [Hnot _]. apply Hnot. left. symmetry. exact Hname.
Qed.

(** First occurrence wins: an entry comes from the first line that
    carries its name. *)
Lemma collect_networks_first (current : option string) (saved : list string)
    (lines : list string) : forall seen n,
  In n (collect_networks current saved seen lines) ->
  exists before line rest,
    lines = List.app before (line :: rest) /\
    scan_fields line = Some (ssid n, security n, signal n, frequency n) /\
    forall l fields, In l before -> scan_fields l = Some fields ->
                     fst (fst (fst fields)) <> ssid n.
Proof.
  induction lines as [| line rest IH]; intros seen n; cbn [collect_networks].
  - intros [].
  - assert (Hskip : forall seen',
              (forall fields, scan_fields line = Some fields ->
                              fst (fst (fst fields)) <> ssid n) ->
              In n (collect_networks current saved seen' rest) ->
              exists before line0 rest0,
                line :: rest = List.app before (line0 :: rest0) /\
                scan_fields line0 = Some (ssid n, security n, signal n, frequency n) /\
                forall l fields, In l before -> scan_fields l = Some fields ->
                                 fst (fst (fst fields)) <> ssid n).
    { intros seen' Hother Hn.
      destruct (IH seen' n Hn) as (before & line0 & rest0 & -> & Hf & Hb).
      exists (line :: before), line0, rest0. split; [reflexivity | ].
      split; [exact Hf | ].
      intros l fields [<- | Hl] Hfields; [apply Hother; exact Hfields | ].
      eapply Hb; eassumption. }
    destruct (scan_fields line) as [[[[name sec] sig] freq] |] eqn:Hline.
    + destruct (Py.truthy name) eqn:Ht; cbn [andb].
      * destruct (existsb (String.eqb name) seen) eqn:Hs; cbn [negb].
        -- intros Hn. apply (Hskip seen); [ | exact Hn].
           intros fields [= <-]. cbn [fst].
           destruct (collect_networks_fresh current saved rest seen) as [Hfresh _].
           destruct (Hfresh n Hn) as [Hnot _].
           intros ->. apply Hnot. apply not_seen_in. exact Hs.
        -- intros [<- | Hn].
           ++ exists [], line, rest. cbn [ssid security signal frequency].
              split; [reflexivity | ]. split; [exact Hline | ]. intros l fields [].
           ++ apply (Hskip (name :: seen)); [ | exact Hn].
              intros fields [= <-]. cbn [fst].
              destruct (collect_networks_fresh current saved rest (name :: seen))
                as [Hfresh _].
              destruct (Hfresh n Hn) as [Hnot _].
              intros ->. apply Hnot. left. reflexivity.
      * intros Hn. apply (Hskip seen); [ | exact Hn].
        intros fields [= <-]. cbn [fst].
        destruct (collect_networks_fresh current saved rest seen) as [Hfresh _].
        destruct (Hfresh n Hn) as [_ Hne].
        intros ->. apply truthy_nonempty in Hne. congruence.
    + intros Hn. apply (Hskip seen); [ | exact Hn]. intros fields [=].
Qed.

(** Every named line of the scan is represented in the list. *)
Lemma collect_networks_complete (current : option string) (saved : list string)
    (lines : list string) : forall seen line fields,
  In line lines ->
  scan_fields line = Some fields ->
  fst (fst (fst fields)) <> "" ->
  ~ In (fst (fst (fst fields))) seen ->
  exists n, In n (collect_networks current saved seen lines) /\
            ssid n = fst (fst (fst fields)).
Proof.
  induction lines as [| h rest IH]; intros seen line fields Hin Hf Hne Hseen.
  - destruct Hin.
  - cbn [collect_networks]. destruct Hin as [-> | Hin].
    + rewrite Hf. destruct fields as [[[name sec] sig] freq]. cbn [fst] in *.
      apply truthy_nonempty in Hne. apply not_seen in Hseen.
      rewrite Hne, Hseen. cbn [andb negb]. eexists. split; [left; reflexivity | ].
      reflexivity.
    + destruct (scan_fields h) as [[[[name' sec'] sig'] freq'] |];
        [ | eapply IH; eassumption].
      destruct (Py.truthy name' && negb (existsb (String.eqb name') seen)) eqn:Hadd;
        [ | eapply IH; eassumption].
      destruct (String.eqb_spec name' (fst (fst (fst fields)))) as [Hsame | Hdiff].
      * eexists. split; [left; reflexivity | ]. exact Hsame.
      * destruct (IH (name' :: seen) line fields Hin Hf Hne) as (n & Hn & Hname).
        { intros [Heq | Hs]; [apply Hdiff; exact Heq | apply Hseen; exact Hs]. }
        exists n. split; [right; exact Hn | exact Hname].
Qed.

Lemma insert_desc_perm (x : Z * WifiNetwork) (l : list (Z * WifiNetwork)) :
  Permutation (insert_desc x l) (x :: l).
Proof.
  induction l as [| y r IH]; cbn [insert_desc]; [reflexivity | ].
  destruct (fst x <? fst y); [ | reflexivity].
  rewrite IH. apply perm_swap.
Qed.

Lemma sort_keyed_perm (l : list (Z * WifiNetwork)) : Permutation (sort_keyed l) l.
Proof.
  induction l as [| x r IH]; cbn [sort_keyed]; [reflexivity | ].
  rewrite insert_desc_perm. constructor. exact IH.
Qed.

Lemma insert_desc_sorted (x : Z * WifiNetwork) (l : list (Z * WifiNetwork)) :
  StronglySorted (fun a b => fst b <= fst a) l ->
  StronglySorted (fun a b => fst b <= fst a) (insert_desc x l).
Proof.
  induction l as [| y r IH]; cbn [insert_desc]; intros Hs.
  - constructor; constructor.
  - apply StronglySorted_inv in Hs. destruct Hs as [Hr Hy].
    destruct (Z.ltb_spec (fst x) (fst y)) as [Hlt | Hge].
    + constructor; [apply IH; exact Hr | ].
      apply (Permutation_Forall (Permutation_sym (insert_desc_perm x r))).
      constructor; [lia | exact Hy].
    + constructor; [constructor; assumption | ].
      constructor; [lia | ].
      eapply Forall_impl; [ | exact Hy]. cbv beta. intros z Hz. lia.
Qed.

Lemma sort_keyed_sorted (l : list (Z * WifiNetwork)) :
  StronglySorted (fun a b => fst b <= fst a) (sort_keyed l).
Proof.
  induction l as [| x r IH]; cbn [sort_keyed]; [constructor | ].
  apply insert_desc_sorted. exact IH.
Qed.

(** The keys that were computed are the keys of the entries. *)
Lemma sort_keys_keyed (l : list WifiNetwork) : forall keyed,
  sort_keys l = inr keyed ->
  map snd keyed = l /\
  Forall (fun p => signal_key (snd p) = inr (fst p)) keyed.
Proof.
  induction l as [| x r IH]; cbn [sort_keys]; intros keyed.
  - intros [= <-]. split; [reflexivity | constructor].
  - destruct (signal_key x) as [e | k] eqn:Hk; [discriminate | ].
    destruct (sort_keys r) as [e | kr]; [discriminate | ].
    intros [= <-]. destruct (IH kr eq_refl) as [Hm Hf].
    split; [cbn [map snd]; rewrite Hm; reflexivity | ].
    constructor; [exact Hk | exact Hf].
Qed.

(** The sort raises as soon as one key does. *)
Lemma sort_keys_raises (l : list WifiNetwork) (n : WifiNetwork) (e : exn) :
  In n l -> signal_key n = inl e -> exists e', sort_keys l = inl e'.
Proof.
  induction l as [| x r IH]; intros Hin Hn; [contradiction | ].
  cbn [sort_keys]. destruct (signal_key x) as [ex | k] eqn:Hk; [eauto | ].
  destruct Hin as [-> | Hin]; [congruence | ].
  destruct (IH Hin Hn) as (e' & ->). eauto.
Qed.

Lemma sort_desc_raises (l : list WifiNetwork) (n : WifiNetwork) (e : exn) :
  In n l -> signal_key n = inl e -> exists e', sort_desc l = inl e'.
Proof.
  intros Hin Hn. unfold sort_desc.
  destruct (sort_keys_raises l n e Hin Hn) as (e' & ->). eauto.
Qed.

Lemma sort_desc_perm (l sorted : list WifiNetwork) :
  sort_desc l = inr sorted -> Permutation sorted l.
Proof.
  unfold sort_desc. destruct (sort_keys l) as [e | keyed] eqn:Hk; [discriminate | ].
  intros [= <-]. destruct (sort_keys_keyed l keyed Hk) as [<- _].
  apply Permutation_map, sort_keyed_perm.
Qed.

Lemma sorted_map_snd (keyed : list (Z * WifiNetwork)) :
  Forall (fun p => signal_key (snd p) = inr (fst p)) keyed ->
  StronglySorted (fun a b => fst b <= fst a) keyed ->
  StronglySorted by_signal (map snd keyed).
Proof.
  induction keyed as [| p r IH]; intros Hf Hs; cbn [map]; [constructor | ].
  apply Forall_cons_iff in Hf. destruct Hf as [Hp Hr].
  apply StronglySorted_inv in Hs. destruct Hs as [Hsr Hall].
  constructor; [apply IH; assumption | ].
  apply Forall_map. rewrite Forall_forall in *.
  intros q Hq. exists (fst p), (fst q).
  split; [exact Hp | ]. split; [apply Hr; exact Hq | apply Hall; exact Hq].
Qed.

Lemma sort_desc_sorted (l sorted : list WifiNetwork) :
  sort_desc l = inr sorted -> StronglySorted by_signal sorted.
Proof.
  unfold sort_desc. destruct (sort_keys l) as [e | keyed] eqn:Hk; [discriminate | ].
  intros [= <-]. destruct (sort_keys_keyed l keyed Hk) as [_ Hf].
  apply sorted_map_snd; [ | apply sort_keyed_sorted].
  apply (Permutation_Forall (Permutation_sym (sort_keyed_perm keyed))). exact Hf.
Qed.

(** *** Reversal *)

Lemma rev_onto_twice (s : string) : forall acc b,
  Py.rev_onto (Py.rev_onto s acc) b = Py.rev_onto acc (s ++ b).
Proof.
  induction s as [| c r IH]; intros acc b; cbn [Py.rev_onto append].
  - reflexivity.
  - rewrite IH. reflexivity.
Qed.

Lemma append_empty (s : string) : s ++ "" = s.
Proof. induction s as [| c r IH]; cbn [append]; [reflexivity | rewrite IH; reflexivity]. Qed.

Lemma rev_involutive (s : string) : Py.rev (Py.rev s) = s.
Proof. unfold Py.rev. rewrite rev_onto_twice. cbn [Py.rev_onto]. apply append_empty. Qed.

Section ScanList.
Context `{Host}.

(** What the scan returns when it returns: a list whose names are
    non-empty and pairwise distinct, in descending order of the sort key,
    every entry built from the first line of the feed that carries its
    name and every named line of the feed represented. *)
Lemma scan_wifi_deduplicated_sorted (s s' : St) (l : list WifiNetwork) :
  scan_wifi s = (Ok l, s') ->
  NoDup (map ssid l) /\
  (forall n, In n l -> ssid n <> "") /\
  StronglySorted by_signal l /\
  (forall c o2,
     os_run (Some 15) ("nmcli" :: scan_args) (os (after get_wifi_status s))
       = (Exited c, o2) ->
     returncode c = 0 ->
     let feed := Py.splitlines (Py.strip (stdout c)) in
     (forall n, In n l -> first_occurrence feed n) /\
     (forall line fields,
        In line feed -> scan_fields line = Some fields ->
        fst (fst (fst fields)) <> "" ->
        exists n, In n l /\ ssid n = fst (fst (fst fields)))).
Proof.
  intros Hret.
  destruct (scan_wifi_run s) as (w & o1 & Hw & Hscan).
  destruct (total_run_nmcli_command scan_args "scan Wi-Fi networks" (with_os s o1))
    as (r & o2 & Hr).
  pose proof (Hscan r o2 Hr) as Hl. rewrite Hret in Hl.
  set (current := if connected w then option_map cn_ssid (current_network w) else None)
    in *.
  set (saved := map sv_ssid (saved_networks w)) in *.
  assert (Hperm : exists lines,
            Permutation l (collect_networks current saved [] lines) /\
            StronglySorted by_signal l /\
            (fst r = true -> lines = Py.splitlines (snd r))).
  { destruct (fst r); cbn [negb] in Hl.
    - exists (Py.splitlines (snd r)).
      destruct (sort_desc (collect_networks current saved [] (Py.splitlines (snd r))))
        as [e | sorted] eqn:Hsort; [discriminate Hl | ].
      injection Hl as -> _.
      split; [apply sort_desc_perm; exact Hsort | ].
      split; [apply (sort_desc_sorted _ _ Hsort) | reflexivity].
    - exists []. injection Hl as -> _.
      split; [reflexivity | ]. split; [constructor | discriminate]. }
  destruct Hperm as (lines & Hperm & Hsorted & Hlines).
  destruct (collect_networks_fresh current saved lines []) as [Hfresh Hnodup].
  split.
  { apply (Permutation_NoDup (Permutation_sym (Permutation_map ssid Hperm))).
    exact Hnodup. }
  split.
  { intros n Hn. apply (Hfresh n). apply (Permutation_in _ Hperm). exact Hn. }
  split; [exact Hsorted | ].
  intros c o3 Hrun Hrc feed.
  assert (Hs1 : after get_wifi_status s = with_os s o1)
    by (unfold after; rewrite Hw; reflexivity).
  rewrite Hs1 in Hrun. cbn [os with_os] in Hrun.
  rewrite (run_nmcli_exit_0 scan_args _ (with_os s o1) c o3 Hrun Hrc) in Hr.
  injection Hr as <- _. cbn [fst snd] in *.
  rewrite (Hlines eq_refl) in Hperm. fold feed in Hperm.
  split.
  - intros n Hn.
    apply (collect_networks_first current saved feed [] n).
    apply (Permutation_in _ Hperm). exact Hn.
  - intros line fields Hline Hfields Hname.
    destruct (collect_networks_complete current saved feed [] line fields
                Hline Hfields Hname) as (n & Hn & Hssid); [intros [] | ].
    exists n. split; [ | exact Hssid].
    apply (Permutation_in _ (Permutation_sym Hperm)). exact Hn.
Qed.

(** The scan raises when the feed brings an entry whose signal
    [isdigit] accepts and [int] refuses. *)
Lemma scan_wifi_raises (s : St) :
  exists w o1,
    get_wifi_status s = (Ok w, with_os s o1) /\
    forall c o2 n e,
      os_run (Some 15) ("nmcli" :: scan_args) o1 = (Exited c, o2) ->
      returncode c = 0 ->
      In n (collect_networks
              (if connected w then option_map cn_ssid (current_network w) else None)
              (map sv_ssid (saved_networks w)) []
              (Py.splitlines (Py.strip (stdout c)))) ->
      signal_key n = inl e ->
      exists e', scan_wifi s = (Raise e', with_os s o2).
Proof.
  destruct (scan_wifi_run s) as (w & o1 & Hw & Hscan).
  exists w, o1. split; [exact Hw | ].
  intros c o2 n e Hrun Hrc Hin Hkey.
  rewrite (Hscan _ o2 (run_nmcli_exit_0 scan_args _ (with_os s o1) c o2 Hrun Hrc)).
  cbn [fst snd negb].
  destruct (sort_desc_raises _ n e Hin Hkey) as (e' & ->).
  exists e'. reflexivity.
Qed.

End ScanList.

(** C7: the scan does not return a list for every feed.  A network named
    a:b:² is listed by nmcli as the line a\:b\:²:WPA2:55:2462 MHz, whose
    third field is the one character U+00B2.  [str.isdigit] accepts that
    character and [int] refuses it, so the key function of the sort
    raises [ValueError] instead of taking the signal for 0: [scan_wifi]
    raises, and the handler answers the scan request with an error
    response in place of the list. *)
Theorem scan_wifi_raises_on_superscript_signal :
  Py.isdigit "²" = true /\
  Py.int "²" = None /\
  map scan_fields (Py.splitlines feed_with_colons)
  = [Some ("Home", "WPA2", "70", "2437 MHz");
     Some ("a\", "b\", "²", "WPA2:55:2462 MHz")] /\
  fst (scan_wifi (Sample.agent script_scan_colons)) = Raise (IntError "²") /\
  outbox (snd (_handle_wifi_scan (Sample.agent script_scan_colons)))
  = [{| pub_topic := "rpi/wifi/scan_response";
        pub_body := wifi_error_response "2025-01-01T00:00:00" "wifi_scan"
                      "invalid literal for int() with base 10: '²'" |}].
Proof. vm_compute. repeat split; reflexivity. Qed.

Example scan_wifi_on_duplicate_feed :
  fst (scan_wifi
         (Sample.agent [Sample.exits 0 "wlan0:wifi:disconnected:" "";
                        Sample.exits 0 "Home:802-11-wireless" "";
                        Sample.exits 0 feed_with_duplicate ""]))
  = Ok [ {| ssid := "Cafe"; security := "--"; signal := "85";
            frequency := "5180 MHz"; is_current := false; is_saved := false |};
         {| ssid := "Home"; security := "WPA2"; signal := "70";
            frequency := "2437 MHz"; is_current := false; is_saved := true |};
         {| ssid := "Shed"; security := "WPA2"; signal := "weak";
            frequency := "2462 MHz"; is_current := false; is_saved := false |} ].
Proof. vm_compute. reflexivity. Qed.

(** ** Network set requests *)

(** One step of a computation: binds, handlers and the plain operations
    are unfolded up to the next call that has to be looked up. *)
Ltac agent_step :=
  cbv beta iota
    delta [try_except try_except_if bind ret raise lift_exc now get_state want_str
           negb fst snd].

Section SetRequests.
Context `{Host}.

(** *** Depth of a response *)

Lemma depth_fields (k : string) (v : Json) (d : dict) :
  depth (JObj ((k, v) :: d)) = Nat.max (S (depth v)) (depth (JObj d)).
Proof. cbn [depth fold_right snd]. lia. Qed.

Lemma depth_dict_set (k : string) (v : Json) (d : dict) :
  (depth (JObj (dict_set k v d)) <= Nat.max (S (depth v)) (depth (JObj d)))%nat.
Proof.
  induction d as [| [k' v'] r IH]; cbn [dict_set].
  - cbn [depth fold_right snd]. lia.
  - destruct (String.eqb k k').
    + rewrite !depth_fields. lia.
    + rewrite !depth_fields. lia.
Qed.

Lemma depth_dict_update (b : dict) : forall a,
  (depth (JObj (dict_update a b)) <= Nat.max (depth (JObj a)) (depth (JObj b)))%nat.
Proof.
  unfold dict_update.
  induction b as [| [k v] r IH]; intros a; cbn [fold_left fst snd].
  - lia.
  - specialize (IH (dict_set k v a)).
    pose proof (depth_dict_set k v a). rewrite depth_fields. lia.
Qed.

(** A response of at most eight levels is always published. *)
Lemma publish_run (topic : string) (response : dict) (s : St) :
  (depth (JObj response) <= 8)%nat ->
  publish topic response s
  = (Ok tt,
     with_outbox s
       (List.app (outbox s) [{| pub_topic := topic; pub_body := response |}])).
Proof.
  intros Hd. unfold publish, serialisable.
  replace (Nat.leb _ _) with true; [reflexivity | ].
  symmetry. apply Nat.leb_le. lia.
Qed.

Lemma publish_network_response_run (status : string) (data : dict) (s : St) :
  (depth (JObj data) <= 8)%nat ->
  _publish_network_response status data s
  = (Ok tt,
     with_outbox s
       (List.app (outbox s)
          [{| pub_topic := "rpi/network/response";
              pub_body := dict_update
                            [("status", JStr status);
                             ("timestamp", JStr (os_now (os s)));
                             ("device_id", JStr device_id)] data |}])).
Proof.
  intros Hd. unfold _publish_network_response, publish_on, now.
  cbv beta iota delta [try_except bind ret get_state topic_of topic_of_in topics
                       String.eqb Ascii.eqb Bool.eqb].
  rewrite publish_run; [reflexivity | ].
  pose proof (depth_dict_update data
                [("status", JStr status); ("timestamp", JStr (os_now (os s)));
                 ("device_id", JStr device_id)]) as Hu.
  cbn [depth fold_right snd Nat.max] in Hu. cbn [depth] in Hd. cbn [depth]. lia.
Qed.

Lemma handle_static_request (s : St) (payload_str : string) (fields : dict)
    (interface ip netmask dns gw : string) (gateway : Json) :
  json_loads payload_str = Some (JObj fields) ->
  py_get (JObj fields) "interface" (JStr "eth0") = inr (JStr interface) ->
  py_get (JObj fields) "method" JNull = inr (JStr "static") ->
  py_get (JObj fields) "static_ip" JNull = inr (JStr ip) ->
  ip <> "" ->
  py_get (JObj fields) "netmask" (JStr "255.255.255.0") = inr (JStr netmask) ->
  py_get (JObj fields) "gateway" JNull = inr gateway ->
  py_get (JObj fields) "dns" (JStr "8.8.8.8 8.8.4.4") = inr (JStr dns) ->
  choose_gateway (JStr ip) gateway = inr gw ->
  forall success message o1,
    set_static_ip interface ip netmask gw dns s = (Ok (success, message), with_os s o1) ->
    exists s2,
      _handle_set_network_config payload_str s = (Ok tt, s2) /\
      outbox s2
      = List.app (outbox s)
          [{| pub_topic := "rpi/network/response";
              pub_body := static_response success (os_now (os s)) (network_method s)
                            interface ip netmask gw dns message |}].
Proof.
  intros Hloads Hif Hm Hip Hne Hnm Hgw Hdns Hchoose success message o1 Hset.
  apply truthy_nonempty in Hne.
  unfold _handle_set_network_config, loads. rewrite Hloads.
  agent_step. rewrite Hif.
  agent_step. rewrite Hm.
  change (json_truthy (JStr "static")) with true.
  change (json_is (JStr "static") "static") with true.
  agent_step. rewrite Hip.
  agent_step. rewrite Hnm.
  agent_step. rewrite Hgw.
  agent_step. rewrite Hdns.
  cbn [json_truthy]. rewrite Hne.
  agent_step. rewrite Hchoose.
  agent_step. rewrite Hset.
  agent_step. rewrite publish_network_response_run by (cbn; lia).
  destruct success.
  - cbn [py_get]. destruct (json_truthy _).
    + unfold sleep, on_os. cbn [os with_os with_outbox].
      destruct (os_system "sudo reboot" _) as [rc o2].
      eexists. split; [reflexivity | ]. reflexivity.
    + eexists. split; [reflexivity | ]. reflexivity.
  - eexists. split; [reflexivity | ]. reflexivity.
Qed.

Lemma choose_gateway_derived (ip : string) (gateway : Json) (p0 p1 p2 p3 : string) :
  blank_gateway gateway ->
  Py.split "."%char ip = [p0; p1; p2; p3] ->
  choose_gateway (JStr ip) gateway = inr (p0 ++ "." ++ p1 ++ "." ++ p2 ++ ".1").
Proof.
  intros Hblank Hsplit. unfold choose_gateway. rewrite Hsplit.
  destruct Hblank as [-> | (t & -> & Ht)]; [reflexivity | ].
  rewrite Ht. cbn [String.eqb]. destruct (negb (json_truthy (JStr t))); reflexivity.
Qed.

Lemma networkmanager_static_refused (s : St) (interface ip netmask gw dns msg : string) :
  network_method s = "networkmanager" ->
  _validate_network_config ip netmask (Some gw) = (false, msg) ->
  set_static_ip interface ip netmask gw dns s = (Ok (false, msg), s).
Proof.
  intros Hnm Hv. unfold set_static_ip. agent_step. rewrite Hnm.
  cbn [String.eqb Ascii.eqb Bool.eqb].
  unfold _set_networkmanager_static. rewrite Hv. reflexivity.
Qed.

(** C6, amended: a static request whose gateway is absent, null or
    blank, for an address of four dotted parts, is handed to
    [set_static_ip] with the gateway made of the first three parts and 1.
    What the handler does is what that call does: it leaves the host as
    the call left it, publishes one response with the derived gateway and
    the outcome of the call, and reboots only after a success, when the
    request asks for it.  The write does not always follow: the writers
    validate the derived gateway, and on the NetworkManager backend a
    derived gateway that the validation refuses makes the request fail
    with nothing run and nothing written. *)
Theorem static_request_derived_gateway (s : St) (payload_str : string)
    (fields : dict) (interface ip netmask dns : string) (gateway : Json)
    (p0 p1 p2 p3 : string) :
  json_loads payload_str = Some (JObj fields) ->
  py_get (JObj fields) "interface" (JStr "eth0") = inr (JStr interface) ->
  py_get (JObj fields) "method" JNull = inr (JStr "static") ->
  py_get (JObj fields) "static_ip" JNull = inr (JStr ip) ->
  py_get (JObj fields) "netmask" (JStr "255.255.255.0") = inr (JStr netmask) ->
  py_get (JObj fields) "gateway" JNull = inr gateway ->
  py_get (JObj fields) "dns" (JStr "8.8.8.8 8.8.4.4") = inr (JStr dns) ->
  blank_gateway gateway ->
  Py.split "."%char ip = [p0; p1; p2; p3] ->
  let gw := p0 ++ "." ++ p1 ++ "." ++ p2 ++ ".1" in
  exists success message o1,
    set_static_ip interface ip netmask gw dns s = (Ok (success, message), with_os s o1) /\
    (let answered :=
       published (with_os s o1) "rpi/network/response"
         (static_response success (os_now (os s)) (network_method s)
            interface ip netmask gw dns message) in
     _handle_set_network_config payload_str s
     = (Ok tt,
        if success && json_truthy (field_or "reboot" (JBool false) fields)
        then with_os answered (snd (os_system "sudo reboot" (os_sleep 2 o1)))
        else answered)) /\
    (network_method s = "networkmanager" ->
     forall msg, _validate_network_config ip netmask (Some gw) = (false, msg) ->
     success = false /\ message = msg /\ o1 = os s).
Proof.
  intros Hloads Hif Hm Hip Hnm Hgw Hdns Hblank Hsplit gw.
  assert (Hne : Py.truthy ip = true).
  { apply truthy_nonempty. intros ->. discriminate Hsplit. }
  pose proof (choose_gateway_derived ip gateway p0 p1 p2 p3 Hblank Hsplit) as Hchoose.
  destruct (total_set_static_ip interface ip netmask gw dns s)
    as ([success message] & o1 & Hset).
  exists success, message, o1. split; [exact Hset | ]. split.
  - unfold _handle_set_network_config, loads. rewrite Hloads.
    agent_step. rewrite Hif.
    agent_step. rewrite Hm.
    change (json_truthy (JStr "static")) with true.
    change (json_is (JStr "static") "static") with true.
    agent_step. rewrite Hip.
    agent_step. rewrite Hnm.
    agent_step. rewrite Hgw.
    agent_step. rewrite Hdns.
    cbn [json_truthy]. rewrite Hne.
    agent_step. rewrite Hchoose.
    agent_step. fold gw. rewrite Hset.
    agent_step. rewrite publish_network_response_run by (cbn; lia).
    unfold field_or. cbn [py_get].
    destruct success; cbn [andb].
    + destruct (json_truthy _).
      * unfold sleep, on_os. cbn [os with_os with_outbox].
        destruct (os_system "sudo reboot" _) as [rc o2]. reflexivity.
      * reflexivity.
    + reflexivity.
  - intros Hmethod msg Hv.
    rewrite (networkmanager_static_refused s interface ip netmask gw dns msg Hmethod Hv)
      in Hset.
    injection Hset as <- <- Ho. repeat split. 
    destruct s as [o out cfg nm]. cbn in Ho. injection Ho as ->. reflexivity.
Qed.
Lemma reactivate_fails_run (s : St) (conn_name : string) (o : OS) :
  reactivation_fails conn_name o ->
  exists e o3,
    reactivate conn_name (with_os s o) = (Raise e, with_os s o3) /\
    is_CalledProcessError e = true.
Proof.
  unfold reactivation_fails, reactivate, run_checked, run, sleep.
  intros Hfail. agent_step. cbn [os with_os].
  destruct (os_run None ["nmcli"; "con"; "down"; conn_name] o) as [[down | e] o'];
    [ | contradiction].
  destruct (Z.eqb_spec (returncode down) 0) as [Hz | Hz].
  - destruct Hfail as [Hfail | Hfail]; [contradiction | ].
    cbn [os with_os].
    destruct (os_run None ["nmcli"; "con"; "up"; conn_name] (os_sleep 2 o'))
      as [[up | e] o'']; [ | contradiction].
    apply Z.eqb_neq in Hfail. rewrite Hfail.
    eexists. exists o''. split; reflexivity.
  - eexists. exists o'. split; reflexivity.
Qed.

Lemma networkmanager_static_configured (s : St)
    (interface ip netmask gw dns msg conn : string) (cidr : Z)
    (o1 o2 : OS) (done : Completed) :
  _validate_network_config ip netmask (Some gw) = (true, msg) ->
  _netmask_to_cidr netmask = inr cidr ->
  _get_ethernet_connection_name interface s = (Ok conn, with_os s o1) ->
  os_run None (modify_static_cmd conn ip cidr gw dns) o1 = (Exited done, o2) ->
  returncode done = 0 ->
  reactivation_fails conn o2 ->
  exists o3,
    _set_networkmanager_static interface ip netmask gw dns s
    = (Ok (true, static_configured ip interface), with_os s o3).
Proof.
  intros Hvalid Hcidr Hconn Hmodify Hdone Hfail.
  destruct (reactivate_fails_run s conn o2 Hfail) as (e & o3 & Hre & He).
  exists o3. unfold _set_networkmanager_static. rewrite Hvalid.
  agent_step. rewrite Hconn.
  agent_step. rewrite Hcidr.
  unfold run_checked, run. agent_step. cbn [os with_os].
  rewrite Hmodify, Hdone. cbn [Z.eqb].
  change (with_os (with_os s o1) o2) with (with_os s o2).
  rewrite Hre, He. reflexivity.
Qed.

Lemma set_static_ip_networkmanager (s : St) (interface ip netmask gw dns : string)
    (r : bool * string) (o : OS) :
  network_method s = "networkmanager" ->
  _set_networkmanager_static interface ip netmask gw dns s = (Ok r, with_os s o) ->
  set_static_ip interface ip netmask gw dns s = (Ok r, with_os s o).
Proof.
  intros Hnm Hrun. unfold set_static_ip. agent_step.
  rewrite Hnm. cbn [String.eqb Ascii.eqb Bool.eqb]. rewrite Hrun. reflexivity.
Qed.

Lemma append_inv_head (p a b : string) : p ++ a = p ++ b -> a = b.
Proof.
  induction p as [| c p IH]; cbn [append]; intros Heq; [exact Heq | ].
  injection Heq as Heq. apply IH. exact Heq.
Qed.

Lemma configured_is_not_activated (ip interface : string) :
  static_configured ip interface <> static_activated ip interface.
Proof.
  unfold static_configured, static_activated. intros Heq.
  apply (append_inv_head "Static IP ") in Heq.
  apply append_inv_head in Heq. discriminate Heq.
Qed.

(** C4, amended: when a static change on the NetworkManager backend is
    written (the request is valid and the modify command succeeds) and
    the down/up cycle then fails, the one response on the network response
    topic has status "success", the status of an activated change; only
    its message, which asks for the cable to be connected, tells the two
    apart. *)
Theorem activation_failure_reported_as_success (s : St) (payload_str : string)
    (fields : dict) (interface ip netmask dns gw msg conn : string)
    (gateway : Json) (cidr : Z) (o1 o2 : OS) (done : Completed) :
  network_method s = "networkmanager" ->
  json_loads payload_str = Some (JObj fields) ->
  py_get (JObj fields) "interface" (JStr "eth0") = inr (JStr interface) ->
  py_get (JObj fields) "method" JNull = inr (JStr "static") ->
  py_get (JObj fields) "static_ip" JNull = inr (JStr ip) ->
  ip <> "" ->
  py_get (JObj fields) "netmask" (JStr "255.255.255.0") = inr (JStr netmask) ->
  py_get (JObj fields) "gateway" JNull = inr gateway ->
  py_get (JObj fields) "dns" (JStr "8.8.8.8 8.8.4.4") = inr (JStr dns) ->
  choose_gateway (JStr ip) gateway = inr gw ->
  _validate_network_config ip netmask (Some gw) = (true, msg) ->
  _netmask_to_cidr netmask = inr cidr ->
  _get_ethernet_connection_name interface s = (Ok conn, with_os s o1) ->
  os_run None (modify_static_cmd conn ip cidr gw dns) o1 = (Exited done, o2) ->
  returncode done = 0 ->
  reactivation_fails conn o2 ->
  exists s2 body,
    _handle_set_network_config payload_str s = (Ok tt, s2) /\
    outbox s2
    = List.app (outbox s) [{| pub_topic := "rpi/network/response"; pub_body := body |}] /\
    dict_get "status" body = Some (JStr "success") /\
    dict_get "message" body = Some (JStr (static_configured ip interface)) /\
    static_configured ip interface <> static_activated ip interface.
Proof.
  intros Hmethod Hloads Hif Hm Hip Hne Hnm Hgw Hdns Hchoose Hvalid Hcidr Hconn
    Hmodify Hdone Hfail.
  destruct (networkmanager_static_configured s interface ip netmask gw dns msg conn
              cidr o1 o2 done Hvalid Hcidr Hconn Hmodify Hdone Hfail) as (o3 & Hwrite).
  pose proof (set_static_ip_networkmanager s interface ip netmask gw dns _ o3
                Hmethod Hwrite) as Hset.
  destruct (handle_static_request s payload_str fields interface ip netmask dns gw
              gateway Hloads Hif Hm Hip Hne Hnm Hgw Hdns Hchoose
              true (static_configured ip interface) o3 Hset) as (s2 & Hrun & Hout).
  exists s2. eexists. split; [exact Hrun | ]. split; [exact Hout | ].
  split; [reflexivity | ]. split; [reflexivity | ].
  apply configured_is_not_activated.
Qed.

End SetRequests.
(** ** Examples on the scripted host *)

Example request_text_value :
  request_text
  = "{" ++ Sample.DQ ++ "interface" ++ Sample.DQ ++ ": " ++ Sample.DQ ++ "eth0" ++ Sample.DQ
    ++ ", " ++ Sample.DQ ++ "method" ++ Sample.DQ ++ ": " ++ Sample.DQ ++ "static" ++ Sample.DQ
    ++ ", " ++ Sample.DQ ++ "static_ip" ++ Sample.DQ ++ ": " ++ Sample.DQ ++ "192.168.1.50" ++ Sample.DQ
    ++ ", " ++ Sample.DQ ++ "netmask" ++ Sample.DQ ++ ": " ++ Sample.DQ ++ "255.255.255.0" ++ Sample.DQ
    ++ ", " ++ Sample.DQ ++ "gateway" ++ Sample.DQ ++ ": " ++ Sample.DQ ++ Sample.DQ ++ "}".
Proof. reflexivity. Qed.

(** C4, as stated, fails: the configuration is written, the reactivation
    fails (the up command is never reached), and the response carries the
    status "success". *)
Lemma activation_failure_counterexample :
  map (fun p => (pub_topic p, dict_get "status" (pub_body p),
                 dict_get "message" (pub_body p)))
      (outbox (snd (_handle_set_network_config request_text
                      (Sample.agent script_no_cable))))
  = [("rpi/network/response", Some (JStr "success"),
      Some (JStr "Static IP 192.168.1.50 configured for eth0. Connect ethernet cable to activate."))]
  /\
  Sample.history (os (snd (_handle_set_network_config request_text
                             (Sample.agent script_no_cable))))
  = [["nmcli"; "-t"; "-f"; "NAME,TYPE,DEVICE"; "connection"; "show"];
     ["nmcli"; "con"; "modify"; "Wired connection 1"; "ipv4.method"; "manual";
      "ipv4.addresses"; "192.168.1.50/24"; "ipv4.gateway"; "192.168.1.1";
      "ipv4.dns"; "8.8.8.8,8.8.4.4"];
     ["nmcli"; "con"; "down"; "Wired connection 1"]].
Proof. split; vm_compute; reflexivity. Qed.

Lemma activation_failure_reported_as_success_witness :
  exists s2 body,
    _handle_set_network_config request_text (Sample.agent script_no_cable) = (Ok tt, s2) /\
    outbox s2
    = List.app (outbox (Sample.agent script_no_cable))
        [{| pub_topic := "rpi/network/response"; pub_body := body |}] /\
    dict_get "status" body = Some (JStr "success") /\
    dict_get "message" body = Some (JStr (static_configured "192.168.1.50" "eth0")) /\
    static_configured "192.168.1.50" "eth0" <> static_activated "192.168.1.50" "eth0".
Proof.
  eapply (activation_failure_reported_as_success (H := Sample.host)
            (Sample.agent script_no_cable) request_text _
            "eth0" "192.168.1.50" "255.255.255.0" "8.8.8.8 8.8.4.4" "192.168.1.1"
            _ "Wired connection 1" (JStr "") 24).
  - reflexivity.
  - reflexivity.
  - reflexivity.
  - reflexivity.
  - reflexivity.
  - discriminate.
  - reflexivity.
  - reflexivity.
  - reflexivity.
  - reflexivity.
  - reflexivity.
  - reflexivity.
  - reflexivity.
  - reflexivity.
  - reflexivity.
  - left. discriminate.
Defined.

Lemma static_request_derived_gateway_witness :
  fst (_handle_set_network_config request_text (Sample.agent script_activated)) = Ok tt.
Proof.
  destruct (static_request_derived_gateway (H := Sample.host)
              (Sample.agent script_activated) request_text
              [("interface", JStr "eth0"); ("method", JStr "static");
               ("static_ip", JStr "192.168.1.50"); ("netmask", JStr "255.255.255.0");
               ("gateway", JStr "")]
              "eth0" "192.168.1.50" "255.255.255.0" "8.8.8.8 8.8.4.4" (JStr "")
              "192" "168" "1" "50"
              eq_refl eq_refl eq_refl eq_refl eq_refl eq_refl eq_refl
              (or_intror (ex_intro _ "" (conj eq_refl eq_refl))) eq_refl)
    as (success & message & o1 & _ & Hrun & _).
  rewrite Hrun. reflexivity.
Defined.

(** C6, as stated, fails: for 192.168.1.50 with the netmask
    255.255.255.252 and no gateway, the derived gateway 192.168.1.1 is
    outside 192.168.1.48/30; the request is answered with an error and
    the host is left as it was, no command run and no file written. *)
Lemma derived_gateway_refused_counterexample :
  map (fun p => (pub_topic p, dict_get "status" (pub_body p),
                 dict_get "gateway" (pub_body p), dict_get "message" (pub_body p)))
      (outbox (snd (_handle_set_network_config (H := host_with [narrow_static_request] true)
                      (Sample.dumps narrow_static_request)
                      (agent_with [narrow_static_request] true))))
  = [("rpi/network/response", Some (JStr "error"), Some (JStr "192.168.1.1"),
      Some (JStr "Invalid network config: Gateway 192.168.1.1 not in network 192.168.1.48/30"))]
  /\
  os (snd (_handle_set_network_config (H := host_with [narrow_static_request] true)
             (Sample.dumps narrow_static_request)
             (agent_with [narrow_static_request] true)))
  = os (agent_with [narrow_static_request] true).
Proof. vm_compute. split; reflexivity. Qed.

Example static_request_without_gateway_written :
  map (fun p => (pub_topic p, dict_get "status" (pub_body p),
                 dict_get "gateway" (pub_body p), dict_get "message" (pub_body p)))
      (outbox (snd (_handle_set_network_config request_text
                      (Sample.agent script_activated))))
  = [("rpi/network/response", Some (JStr "success"), Some (JStr "192.168.1.1"),
      Some (JStr "Static IP 192.168.1.50 set and activated for eth0"))].
Proof. vm_compute. reflexivity. Qed.

Lemma validate_network_config_gateway_witness :
  _validate_network_config (H := Sample.host) "192.168.1.50" "255.255.255.0"
    (Some "192.168.1.1")
  = (true, "Valid network configuration: " ++ network_text 3232235826 24)
  /\
  fst (_validate_network_config (H := Sample.host) "192.168.1.50" "255.255.255.0"
         (Some "192.168.2.1")) = false.
Proof.
  destruct (validate_network_config_gateway (H := Sample.host)
              "192.168.1.50" "255.255.255.0" 3232235826 24 eq_refl eq_refl)
    as (_ & _ & Hgw).
  split.
  - apply (Hgw "192.168.1.1"); [discriminate | ].
    exists 3232235777. split; reflexivity.
  - apply (Hgw "192.168.2.1"); [discriminate | ].
    intros (g & Hg & Hsame). injection Hg as <-. vm_compute in Hsame. discriminate.
Defined.

Example network_text_sample : network_text 3232235826 24 = "192.168.1.0/24".
Proof. reflexivity. Qed.
(** ** Dispatcher *)

Section DispatcherFacts.
Context `{Host}.

(** A payload that is not UTF-8 is answered on the configuration topic,
    whatever the topic of the request. *)
Lemma on_message_undecodable (msg : Message) (s : St) :
  utf8_valid (msg_payload msg) = false ->
  _on_message msg s
  = (Ok tt,
     with_outbox s
       (List.app (outbox s)
          [{| pub_topic := "rpi/config/response";
              pub_body := [("status", JStr "error");
                           ("timestamp", JStr (os_now (os s)));
                           ("device_id", JStr device_id);
                           ("error", JStr (lib_text UnicodeDecodeError))] |}])).
Proof.
  intros Hbad. unfold _on_message, decode_utf8. rewrite Hbad. reflexivity.
Qed.

End DispatcherFacts.

(** C1 fails on this request: the one response goes out on
    rpi/config/response, not on rpi/wifi/scan_response. *)
Lemma undecodable_scan_request_answered_on_config_topic :
  topic_of "wifi_scan" = Some (msg_topic undecodable_scan_request) /\
  topic_of "wifi_scan_response" = Some "rpi/wifi/scan_response" /\
  _on_message undecodable_scan_request (Sample.agent [])
  = (Ok tt,
     with_outbox (Sample.agent [])
       [{| pub_topic := "rpi/config/response";
           pub_body :=
             [("status", JStr "error");
              ("timestamp", JStr "2025-01-01T00:00:00");
              ("device_id", JStr "rpi_config_manager");
              ("error",
               JStr "'utf-8' codec can't decode byte 0xff in position 0: invalid start byte")]
        |}]).
Proof. repeat split. Qed.

(** ** The interfaces file *)

(** C5 fails on this file: rewriting the stanza of eth0 drops the blank
    line, the comment and the [auto wlan0] line, none of which belongs to
    the stanza of eth0 or is one of its option lines. *)
Lemma rewrite_lines_drops_following_lines :
  rewrite_lines "eth0" "static" (Some "192.168.1.50") (Some "255.255.255.0")
    (Some "192.168.1.1") None false two_stanzas
  = Some ["auto eth0" ++ NL;
          "iface eth0 inet static" ++ NL;
          TAB ++ "address 192.168.1.50" ++ NL;
          TAB ++ "netmask 255.255.255.0" ++ NL;
          TAB ++ "gateway 192.168.1.1" ++ NL;
          "iface wlan0 inet dhcp" ++ NL].
Proof. reflexivity. Qed.

Example change_ip_configuration_two_stanzas :
  fst (change_ip_configuration "eth0" "dhcp" None None None None agent_two_stanzas)
  = Ok (true, "IP configuration updated successfully.")
  /\
  Sample.lookup_file interfaces_file
    (Sample.files
       (os (snd (change_ip_configuration "eth0" "dhcp" None None None None
                   agent_two_stanzas))))
  = Some (String.concat ""
            ["auto eth0" ++ NL; "iface eth0 inet dhcp" ++ NL; "iface wlan0 inet dhcp" ++ NL]).
Proof. split; vm_compute; reflexivity. Qed.

(** ** The fallback netmask *)

(** C8, amended: a prefix length in 0..32 gives the dotted quad of that
    many leading ones; any length above 32 gives the fallback
    255.255.255.0 and a negative one gives 0.0.0.0, whoever calls. *)
Theorem cidr_to_netmask_cases (cidr : Z) :
  (0 <= cidr <= 32 -> _cidr_to_netmask cidr = octets_text (prefix_mask cidr)) /\
  (32 < cidr -> _cidr_to_netmask cidr = fallback_netmask) /\
  (cidr < 0 -> _cidr_to_netmask cidr = "0.0.0.0").
Proof.
  split; [apply cidr_to_netmask_in_range | ].
  split; [apply cidr_to_netmask_above_32 | apply cidr_to_netmask_negative].
Qed.

Lemma cidr_to_netmask_cases_witness :
  _cidr_to_netmask 24 = octets_text (prefix_mask 24) /\
  _cidr_to_netmask 33 = fallback_netmask.
Proof.
  split.
  - apply (proj1 (cidr_to_netmask_cases 24)). lia.
  - apply (proj1 (proj2 (cidr_to_netmask_cases 33))). lia.
Defined.

(** C8, as stated, fails: the fallback is produced inside the
    NetworkManager reader, which reports it as the netmask of the
    interface without any error. *)
Lemma fallback_inside_reader_counterexample :
  fst (_read_networkmanager_config (Sample.agent script_prefix_33))
  = Ok (true,
        JObj [("eth0",
               JObj [("state", JStr "connected");
                     ("connection", JStr "Wired connection 1");
                     ("type", JStr "ethernet");
                     ("method", JStr "static");
                     ("address", JStr "10.0.0.5");
                     ("cidr", JStr "33");
                     ("netmask", JStr "255.255.255.0");
                     ("gateway", JStr "10.0.0.1");
                     ("current_address", JStr "10.0.0.5")])]).
Proof. vm_compute. reflexivity. Qed.
(** ** One response per request *)

Create HintDb mute discriminated.

Section MuteFacts.
Context `{Host}.

Lemma mute_of_quiet {A} (m : M A) : quiet m -> mute m.
Proof. intros Hq s. destruct (Hq s) as (r & o & -> & _). reflexivity. Qed.

Lemma mute_of_total {A} (m : M A) : total m -> mute m.
Proof. intros Ht. apply mute_of_quiet, total_quiet, Ht. Qed.

Lemma mute_ret {A} (a : A) : mute (ret a).
Proof. intros s. reflexivity. Qed.

Lemma mute_raise {A} (e : exn) : mute (@raise _ A e).
Proof. intros s. reflexivity. Qed.

Lemma mute_beyond {A} : mute (@beyond _ A).
Proof. intros s. reflexivity. Qed.

Lemma mute_bind {A B} (m : M A) (k : A -> M B) :
  mute m -> (forall a, mute (k a)) -> mute (bind m k).
Proof.
  intros Hm Hk s. unfold bind. specialize (Hm s).
  destruct (m s) as [[a | e |] s1]; cbn [snd] in *; [ | exact Hm | exact Hm].
  rewrite (Hk a s1). exact Hm.
Qed.

Lemma mute_try_except {A} (m : M A) (h : exn -> M A) :
  mute m -> (forall e, mute (h e)) -> mute (try_except m h).
Proof.
  intros Hm Hh s. unfold try_except. specialize (Hm s).
  destruct (m s) as [[a | e |] s1]; cbn [snd] in *; [exact Hm | | exact Hm].
  rewrite (Hh e s1). exact Hm.
Qed.

Lemma mute_want_str (v : Json) : mute (want_str v).
Proof. destruct v; intros ?; reflexivity. Qed.

Lemma mute_loads (text : string) : mute (loads text).
Proof. unfold loads. destruct (json_loads text); intros ?; reflexivity. Qed.

Lemma mute_set_config (v : Json) : mute (set_config v).
Proof. intros s. reflexivity. Qed.

Lemma mute_lift_exc {A} (r : Exc A) : mute (lift_exc r).
Proof. destruct r; intros ?; reflexivity. Qed.

End MuteFacts.

#[export] Hint Resolve mute_ret mute_raise mute_beyond mute_want_str mute_loads
  mute_set_config mute_lift_exc : mute.
#[export] Hint Extern 5 (mute _) => (apply mute_of_quiet; solve [auto with quiet]) : mute.

Ltac mute_tac :=
  repeat first
    [ solve [auto with mute]
    | match goal with
      | |- mute (bind _ _) => apply mute_bind; [ | intros ]
      | |- mute (try_except _ _) => apply mute_try_except; [ | intros ]
      | |- mute (if ?b then _ else _) => destruct b
      | |- mute (match ?x with _ => _ end) => destruct x
      | |- mute (let (_, _) := ?x in _) => destruct x
      end ].

Section AnswerFacts.
Context `{Host}.

Lemma answers_raise (topic : string) (e : exn) : answers_or_raises topic (raise e).
Proof. intros s. reflexivity. Qed.

Lemma answers_beyond (topic : string) : answers_or_raises topic beyond.
Proof. intros s. reflexivity. Qed.

Lemma answers_bind (topic : string) {A} (m : M A) (k : A -> M unit) :
  mute m -> (forall a, answers_or_raises topic (k a)) ->
  answers_or_raises topic (bind m k).
Proof.
  intros Hm Hk s. unfold bind. specialize (Hm s).
  destruct (m s) as [[a | e |] s1]; cbn [snd] in Hm; [ | exact Hm | exact Hm].
  specialize (Hk a s1). unfold at_most_one in *. rewrite Hm in Hk. exact Hk.
Qed.

(** The publishing methods swallow what [json.dumps] raises. *)
Lemma publish_on_publishes (topic_key topic : string) (head data : dict) :
  topic_of topic_key = Some topic ->
  publishes topic (publish_on topic_key head data).
Proof.
  intros Ht s. unfold publish_on, try_except, publish. rewrite Ht.
  destruct (serialisable _).
  - eexists. split; [reflexivity | ].
    split; [right; eexists; reflexivity | reflexivity].
  - exists s. split; [reflexivity | ]. split; [left; reflexivity | reflexivity].
Qed.

Lemma publishes_response (status : string) (data : dict) :
  publishes "rpi/config/response" (_publish_response status data).
Proof. intros s. exact (publish_on_publishes "response" _ _ data eq_refl s). Qed.

Lemma publishes_network (status : string) (data : dict) :
  publishes "rpi/network/response" (_publish_network_response status data).
Proof. intros s. exact (publish_on_publishes "network_response" _ _ data eq_refl s). Qed.

Lemma publishes_wifi (topic_key topic : string) (data : dict) :
  topic_of topic_key = Some topic ->
  publishes topic (_publish_wifi_response topic_key data).
Proof. intros Ht s. exact (publish_on_publishes topic_key _ _ data Ht s). Qed.

Lemma publishes_wifi_status (data : dict) :
  publishes "rpi/wifi/status/response" (_publish_wifi_status_response data).
Proof.
  intros s. exact (publish_on_publishes "wifi_status_response" _ _ data eq_refl s).
Qed.

(** A publishing step followed by steps that cannot fail. *)
Lemma answers_publish_then (topic : string) (p tail : M unit) :
  publishes topic p -> total tail ->
  answers_or_raises topic (bind p (fun _ => tail)).
Proof.
  intros Hp Ht s. unfold bind. destruct (Hp s) as (s1 & -> & Hone & _).
  destruct (Ht s1) as (a & o & ->). exact Hone.
Qed.

Lemma answers_publish (topic : string) (p : M unit) :
  publishes topic p -> answers_or_raises topic p.
Proof. intros Hp s. destruct (Hp s) as (s1 & -> & Hone & _). exact Hone. Qed.

(** The [try]/[except] of a handler: whatever the body raises is answered
    by the handler's error response. *)
Lemma answers_try (topic : string) (m : M unit) (h : exn -> M unit) :
  answers_or_raises topic m ->
  (forall e, publishes topic (h e)) ->
  answers_at_most_once topic (try_except m h).
Proof.
  intros Hm Hh s. unfold try_except. specialize (Hm s).
  destruct (m s) as [[a | e |] s1]; [exact Hm | | exact Hm].
  destruct (Hh e s1) as (s2 & -> & Hone & _).
  unfold at_most_one in *. rewrite <- Hm. exact Hone.
Qed.

End AnswerFacts.

Section TotalFacts.
Context `{Host}.

Lemma total_sleep (seconds : Z) : total (sleep seconds).
Proof. intros s. exists tt, (os_sleep seconds (os s)). reflexivity. Qed.

Lemma total_on_os {A} (f : OS -> A * OS) : total (on_os f).
Proof. intros s. unfold on_os. destruct (f (os s)) as [a o]. exists a, o. reflexivity. Qed.

Lemma total_lift_inr {A} (a : A) : total (lift_exc (inr a)).
Proof. apply total_ret. Qed.

Lemma total_now : total now.
Proof. intros s. exists (os_now (os s)), (os s). rewrite with_os_id. reflexivity. Qed.

Lemma total_get_state : total get_state.
Proof. intros s. exists s, (os s). rewrite with_os_id. reflexivity. Qed.

End TotalFacts.

Create HintDb total discriminated.

#[export] Hint Resolve total_ret total_sleep total_on_os total_lift_inr total_now
  total_get_state total_run_nmcli_command total_get_wifi_status
  total_set_static_ip total_set_dynamic_ip total_get_ethernet_connection_name
  : total.
#[export] Hint Resolve quiet_get_ethernet_connection_name quiet_reactivate
  quiet_query_current total_quiet : quiet.
#[export] Hint Extern 5 (quiet _) => (apply total_quiet; solve [auto with total]) : quiet.

Ltac total_tac :=
  repeat first
    [ solve [auto with total]
    | match goal with
      | |- total (bind _ _) => apply total_bind; [ | intros ]
      | |- total (if ?b then _ else _) => destruct b
      | |- total (match ?x with _ => _ end) => destruct x
      | |- total (let (_, _) := ?x in _) => destruct x
      end ].

Section MoreOperations.
Context `{Host}.

Lemma total_disconnect_current_wifi : total disconnect_current_wifi.
Proof. unfold disconnect_current_wifi. total_tac. Qed.

Lemma quiet_scan_wifi : quiet scan_wifi.
Proof. unfold scan_wifi. quiet_tac. Qed.

Hint Resolve total_disconnect_current_wifi : total.

Lemma total_connect_wifi (name : string) (password : option string) :
  total (connect_wifi name password).
Proof. unfold connect_wifi. total_tac. Qed.

Lemma total_delete_wifi (name : string) : total (delete_wifi name).
Proof. unfold delete_wifi. total_tac. Qed.

Lemma quiet_read_device (device type_name state connection : string)
    (interfaces : dict) :
  quiet (read_device device type_name state connection interfaces).
Proof. unfold read_device. quiet_tac. Qed.

Hint Resolve quiet_read_device : quiet.

Lemma quiet_read_devices (lines : list string) : forall interfaces,
  quiet (read_devices lines interfaces).
Proof.
  induction lines as [| line rest IH]; intros interfaces; cbn [read_devices].
  - apply quiet_ret.
  - apply quiet_bind; [quiet_tac | intros; apply IH].
Qed.

Hint Resolve quiet_read_devices : quiet.

Lemma total_read_networkmanager_config : total _read_networkmanager_config.
Proof. unfold _read_networkmanager_config. total_handler. quiet_tac. Qed.

Lemma total_read_dhcpcd_config : total _read_dhcpcd_config.
Proof. unfold _read_dhcpcd_config. total_handler. quiet_tac. Qed.

Lemma total_read_interfaces_config : total _read_interfaces_config.
Proof. unfold _read_interfaces_config. total_handler. quiet_tac. Qed.

Hint Resolve total_read_networkmanager_config total_read_dhcpcd_config
  total_read_interfaces_config : total.

Lemma total_read_current_ip_config : total read_current_ip_config.
Proof. unfold read_current_ip_config. total_handler. quiet_tac. Qed.

Lemma quiet_save_config : quiet save_config.
Proof. unfold save_config. quiet_tac. Qed.

Lemma mute_load_config : mute load_config.
Proof. unfold load_config. mute_tac. Qed.

Lemma quiet_restart_thermal_service : quiet _restart_thermal_service.
Proof. unfold _restart_thermal_service. quiet_tac. Qed.

End MoreOperations.

#[export] Hint Resolve total_disconnect_current_wifi total_connect_wifi
  total_delete_wifi total_read_current_ip_config : total.
#[export] Hint Resolve quiet_save_config quiet_restart_thermal_service quiet_scan_wifi
  : quiet.
#[export] Hint Resolve mute_load_config : mute.

Section HandlerFacts.
Context `{Host}.

Lemma total_py_get_obj (fields : dict) (key : string) (default : Json) :
  total (lift_exc (py_get (JObj fields) key default)).
Proof. apply total_ret. Qed.

End HandlerFacts.

#[export] Hint Resolve total_py_get_obj : total.

Ltac answers_tac :=
  repeat first
    [ match goal with
      | |- answers_or_raises _ (raise _) => apply answers_raise
      | |- answers_or_raises _ beyond => apply answers_beyond
      | |- answers_or_raises _ (bind (_publish_network_response _ _) _) =>
          apply answers_publish_then;
          [ apply publishes_network | solve [total_tac] ]
      | |- answers_or_raises _ (bind _ _) =>
          apply answers_bind; [ solve [mute_tac] | intros ]
      | |- answers_or_raises _ (_publish_response _ _) =>
          apply answers_publish, publishes_response
      | |- answers_or_raises _ (_publish_network_response _ _) =>
          apply answers_publish, publishes_network
      | |- answers_or_raises _ (_publish_wifi_response _ _) =>
          apply answers_publish, publishes_wifi; reflexivity
      | |- answers_or_raises _ (_publish_wifi_status_response _) =>
          apply answers_publish, publishes_wifi_status
      | |- answers_or_raises _ (if ?b then _ else _) => destruct b
      | |- answers_or_raises _ (match ?x with _ => _ end) => destruct x
      end ].

Section Handlers.
Context `{Host}.

Lemma answers_handle_get_config :
  answers_at_most_once "rpi/config/response" _handle_get_config.
Proof.
  unfold _handle_get_config.
  apply answers_try; [ | intros; apply publishes_response ].
  answers_tac.
Qed.

Lemma answers_handle_set_config (payload_str : string) :
  answers_at_most_once "rpi/config/response" (_handle_set_config payload_str).
Proof.
  unfold _handle_set_config.
  apply answers_try; [ | intros; apply publishes_response ].
  answers_tac.
Qed.

Lemma answers_handle_get_network_config :
  answers_at_most_once "rpi/network/response" _handle_get_network_config.
Proof.
  unfold _handle_get_network_config.
  apply answers_try; [ | intros; apply publishes_network ].
  answers_tac.
Qed.

Lemma answers_handle_set_network_config (payload_str : string) :
  answers_at_most_once "rpi/network/response" (_handle_set_network_config payload_str).
Proof.
  unfold _handle_set_network_config.
  apply answers_try; [ | intros; apply publishes_network ].
  apply answers_bind; [ solve [mute_tac] | intros payload ].
  destruct payload; try solve [intros ?; reflexivity].
  answers_tac.
Qed.

Lemma answers_handle_wifi_scan :
  answers_at_most_once "rpi/wifi/scan_response" _handle_wifi_scan.
Proof.
  unfold _handle_wifi_scan.
  apply answers_try; [ | intros; apply publishes_wifi; reflexivity ].
  answers_tac.
Qed.

Lemma answers_handle_wifi_connect (payload_str : string) :
  answers_at_most_once "rpi/wifi/connect_response" (_handle_wifi_connect payload_str).
Proof.
  unfold _handle_wifi_connect.
  apply answers_try; [ | intros; apply publishes_wifi; reflexivity ].
  answers_tac.
Qed.

Lemma answers_handle_wifi_disconnect :
  answers_at_most_once "rpi/wifi/disconnect_response" _handle_wifi_disconnect.
Proof.
  unfold _handle_wifi_disconnect.
  apply answers_try; [ | intros; apply publishes_wifi; reflexivity ].
  answers_tac.
Qed.

Lemma answers_handle_wifi_delete (payload_str : string) :
  answers_at_most_once "rpi/wifi/delete_response" (_handle_wifi_delete payload_str).
Proof.
  unfold _handle_wifi_delete.
  apply answers_try; [ | intros; apply publishes_wifi; reflexivity ].
  answers_tac.
Qed.

Lemma answers_handle_wifi_status_get :
  answers_at_most_once "rpi/wifi/status/response" _handle_wifi_status_get.
Proof.
  unfold _handle_wifi_status_get.
  apply answers_try; [ | intros e s; exact (publishes_wifi_status _ s) ].
  answers_tac.
Qed.

End Handlers.

Create HintDb typed discriminated.

Section TypedFacts.
Context `{Host}.

Lemma typed_of_quiet {A} (m : M A) : quiet m -> typed m.
Proof. intros Hq s. destruct (Hq s) as (r & o & -> & Hr). exact Hr. Qed.

Lemma typed_ret {A} (a : A) : typed (ret a).
Proof. intros s. discriminate. Qed.

Lemma typed_raise {A} (e : exn) : typed (@raise _ A e).
Proof. intros s. discriminate. Qed.

Lemma typed_bind {A B} (m : M A) (k : A -> M B) :
  typed m -> (forall a, typed (k a)) -> typed (bind m k).
Proof.
  intros Hm Hk s. unfold bind. specialize (Hm s).
  destruct (m s) as [[a | e |] s1]; cbn [fst] in *;
    [apply Hk | discriminate | congruence].
Qed.

Lemma typed_try_except {A} (m : M A) (h : exn -> M A) :
  typed m -> (forall e, typed (h e)) -> typed (try_except m h).
Proof.
  intros Hm Hh s. unfold try_except. specialize (Hm s).
  destruct (m s) as [[a | e |] s1]; cbn [fst] in *;
    [discriminate | apply Hh | exact Hm].
Qed.

Lemma typed_lift_exc {A} (r : Exc A) : typed (lift_exc r).
Proof. destruct r; intros ?; discriminate. Qed.

Lemma typed_loads (text : string) : typed (loads text).
Proof. unfold loads. destruct (json_loads text); intros ?; discriminate. Qed.

Lemma typed_set_config (v : Json) : typed (set_config v).
Proof. intros s. discriminate. Qed.

Lemma typed_get_state : typed get_state.
Proof. intros s. discriminate. Qed.

Lemma typed_want_str (t : string) : typed (want_str (JStr t)).
Proof. intros s. discriminate. Qed.

Lemma typed_of_publishes (topic : string) (p : M unit) : publishes topic p -> typed p.
Proof. intros Hp s. destruct (Hp s) as (s1 & -> & _). discriminate. Qed.

Lemma typed_publish_response (status : string) (data : dict) :
  typed (_publish_response status data).
Proof. eapply typed_of_publishes, publishes_response. Qed.

Lemma typed_publish_network (status : string) (data : dict) :
  typed (_publish_network_response status data).
Proof. eapply typed_of_publishes, publishes_network. Qed.

Lemma typed_publish_on (topic_key : string) (head data : dict) :
  typed (publish_on topic_key head data).
Proof.
  unfold publish_on. apply typed_try_except; [ | intros; apply typed_ret ].
  destruct (topic_of topic_key) as [topic | ]; intros st; [ | discriminate ].
  unfold publish. destruct (serialisable _); discriminate.
Qed.

Lemma typed_publish_wifi (topic_key : string) (data : dict) :
  typed (_publish_wifi_response topic_key data).
Proof.
  unfold _publish_wifi_response. apply typed_bind; [ | intros; apply typed_publish_on ].
  apply typed_of_quiet, quiet_now.
Qed.

Lemma typed_publish_wifi_status (data : dict) :
  typed (_publish_wifi_status_response data).
Proof. eapply typed_of_publishes, publishes_wifi_status. Qed.

End TypedFacts.

#[export] Hint Resolve typed_ret typed_raise typed_lift_exc typed_loads typed_set_config
  typed_get_state typed_want_str typed_publish_response typed_publish_network
  typed_publish_wifi typed_publish_wifi_status : typed.
#[export] Hint Extern 5 (typed _) => (apply typed_of_quiet; solve [auto with quiet]) : typed.

Ltac typed_tac :=
  repeat first
    [ solve [auto with typed]
    | match goal with
      | |- typed (bind _ _) => apply typed_bind; [ | intros ]
      | |- typed (try_except _ _) => apply typed_try_except; [ | intros ]
      | |- typed (if ?b then _ else _) => destruct b
      | |- typed (match ?x with _ => _ end) => destruct x
      | |- typed (let (_, _) := ?x in _) => destruct x
      end ].

Section TypedHandlers.
Context `{Host}.

Lemma typed_handle_get_config : typed _handle_get_config.
Proof. unfold _handle_get_config, load_config. typed_tac. Qed.

Lemma typed_handle_set_config (payload_str : string) :
  typed (_handle_set_config payload_str).
Proof. unfold _handle_set_config. typed_tac. Qed.

Lemma typed_handle_get_network_config : typed _handle_get_network_config.
Proof. unfold _handle_get_network_config. typed_tac. Qed.

Lemma typed_handle_wifi_scan : typed _handle_wifi_scan.
Proof. unfold _handle_wifi_scan. typed_tac. Qed.

Lemma typed_handle_wifi_disconnect : typed _handle_wifi_disconnect.
Proof. unfold _handle_wifi_disconnect. typed_tac. Qed.

Lemma typed_handle_wifi_status_get : typed _handle_wifi_status_get.
Proof. unfold _handle_wifi_status_get. typed_tac. Qed.

End TypedHandlers.

Section TypedRequests.
Context `{Host}.

Lemma typed_bind_ret {A B} (a : A) (k : A -> M B) :
  typed (k a) -> typed (bind (ret a) k).
Proof. intros Hk s. exact (Hk s). Qed.

Lemma typed_bind_raise {A B} (e : exn) (k : A -> M B) :
  typed (bind (raise e) k).
Proof. intros s. discriminate. Qed.

Lemma typed_bind_loads {B} (text : string) (k : Json -> M B) :
  (forall payload, json_loads text = Some payload -> typed (k payload)) ->
  typed (bind (loads text) k).
Proof.
  intros Hk s. unfold bind, loads.
  destruct (json_loads text) as [v |] eqn:Hv; [ | discriminate ].
  exact (Hk v eq_refl s).
Qed.

End TypedRequests.

Ltac typed_request :=
  repeat (cbn [py_get lift_exc want_str json_truthy negb];
          first
            [ solve [auto with typed]
            | match goal with
              | |- typed (bind (ret _) _) => apply typed_bind_ret; cbn beta iota
              | |- typed (bind (raise _) _) => apply typed_bind_raise
              | |- typed (bind _ _) => apply typed_bind; [ | intros ]
              | |- typed (try_except _ _) => apply typed_try_except; [ | intros ]
              | |- typed (if ?b then _ else _) => destruct b
              | |- typed (match ?x with _ => _ end) => destruct x
              | |- typed (let (_, _) := ?x in _) => destruct x
              end ]).

Ltac text_field key :=
  match goal with
  | |- context [dict_get key ?f] =>
      destruct (dict_get key f) as [[] |]; try discriminate
  end.

Section TypedRequestHandlers.
Context `{Host}.

Lemma typed_handle_set_network_config (payload_str : string) :
  well_typed_request payload_str ->
  typed (_handle_set_network_config payload_str).
Proof.
  intros Hwt. unfold _handle_set_network_config.
  apply typed_try_except; [ | intros; auto with typed ].
  apply typed_bind_loads. intros payload Hp. specialize (Hwt payload Hp).
  destruct payload as [ | | | | | f]; try solve [intros ?; discriminate].
  cbn [text_fields text_keys forallb] in Hwt.
  repeat (apply andb_prop in Hwt; destruct Hwt as [? Hwt]).
  cbn [py_get].
  text_field "interface"; text_field "static_ip"; text_field "netmask";
    text_field "dns"; typed_request.
Qed.

Lemma typed_handle_wifi_connect (payload_str : string) :
  well_typed_request payload_str ->
  typed (_handle_wifi_connect payload_str).
Proof.
  intros Hwt. unfold _handle_wifi_connect.
  apply typed_try_except; [ | intros; auto with typed ].
  apply typed_bind_loads. intros payload Hp. specialize (Hwt payload Hp).
  destruct payload as [ | | | | | f]; try solve [intros ?; discriminate].
  cbn [text_fields text_keys forallb] in Hwt.
  repeat (apply andb_prop in Hwt; destruct Hwt as [? Hwt]).
  cbn [py_get].
  text_field "ssid"; text_field "password"; typed_request.
Qed.

Lemma typed_handle_wifi_delete (payload_str : string) :
  well_typed_request payload_str ->
  typed (_handle_wifi_delete payload_str).
Proof.
  intros Hwt. unfold _handle_wifi_delete.
  apply typed_try_except; [ | intros; auto with typed ].
  apply typed_bind_loads. intros payload Hp. specialize (Hwt payload Hp).
  destruct payload as [ | | | | | f]; try solve [intros ?; discriminate].
  cbn [text_fields text_keys forallb] in Hwt.
  repeat (apply andb_prop in Hwt; destruct Hwt as [? Hwt]).
  cbn [py_get].
  text_field "ssid"; typed_request.
Qed.

(** The handler's own [except] never fires for what a handler that
    never raises does. *)
Lemma answers_guarded (topic : string) (m : M unit) (h : exn -> M unit) :
  answers_at_most_once topic m -> answers_at_most_once topic (try_except m h).
Proof.
  intros Hm s. unfold try_except. specialize (Hm s).
  destruct (m s) as [[a | e |] s1]; [exact Hm | contradiction | exact Hm].
Qed.

Lemma is_topic_table (topic : string) :
  is_topic topic "get" = String.eqb topic "rpi/config/get" /\
  is_topic topic "set" = String.eqb topic "rpi/config/set" /\
  is_topic topic "network_get" = String.eqb topic "rpi/network/get" /\
  is_topic topic "network_set" = String.eqb topic "rpi/network/set" /\
  is_topic topic "wifi_scan" = String.eqb topic "rpi/wifi/scan" /\
  is_topic topic "wifi_connect" = String.eqb topic "rpi/wifi/connect" /\
  is_topic topic "wifi_disconnect" = String.eqb topic "rpi/wifi/disconnect" /\
  is_topic topic "wifi_delete" = String.eqb topic "rpi/wifi/delete" /\
  is_topic topic "wifi_status_get" = String.eqb topic "rpi/wifi/status/get".
Proof. repeat split; reflexivity. Qed.

Lemma on_message_decoded (msg : Message) (text : string) :
  decode_utf8 (msg_payload msg) = inr text ->
  _on_message msg
  = try_except (route (msg_topic msg) text)
      (fun e => _publish_response "error" [("error", JStr (str_exn e))]).
Proof.
  intros Hd. unfold _on_message, route. rewrite Hd.
  destruct (is_topic_table (msg_topic msg))
    as (-> & -> & -> & -> & -> & -> & -> & -> & ->).
  reflexivity.
Qed.

Lemma route_answers (topic response text : string) :
  In (topic, response) routes -> answers_at_most_once response (route topic text).
Proof.
  intros Hin. unfold routes in Hin. cbn [In] in Hin.
  repeat (destruct Hin as [Hin | Hin];
          [ injection Hin as <- <-; unfold route; cbn [String.eqb Ascii.eqb Bool.eqb];
            auto using answers_handle_get_config, answers_handle_set_config,
              answers_handle_get_network_config, answers_handle_set_network_config,
              answers_handle_wifi_scan, answers_handle_wifi_connect,
              answers_handle_wifi_disconnect, answers_handle_wifi_delete,
              answers_handle_wifi_status_get
          | ]).
  contradiction.
Qed.

Lemma route_typed (topic response text : string) :
  In (topic, response) routes ->
  (In topic requests_with_text -> well_typed_request text) ->
  typed (route topic text).
Proof.
  intros Hin Hwt. unfold routes in Hin. cbn [In] in Hin.
  unfold requests_with_text in Hwt. cbn [In] in Hwt.
  repeat (destruct Hin as [Hin | Hin];
          [ injection Hin as <- <-; unfold route; cbn [String.eqb Ascii.eqb Bool.eqb];
            auto 6 using typed_handle_get_config, typed_handle_set_config,
              typed_handle_get_network_config, typed_handle_set_network_config,
              typed_handle_wifi_scan, typed_handle_wifi_connect,
              typed_handle_wifi_disconnect, typed_handle_wifi_delete,
              typed_handle_wifi_status_get
          | ]).
  contradiction.
Qed.

Lemma route_unrouted (topic text : string) :
  ~ In topic (map fst routes) -> route topic text = ret tt.
Proof.
  intros Hout. unfold routes in Hout. cbn [map fst In] in Hout. unfold route.
  repeat match goal with
         | |- context [String.eqb topic ?t] =>
             destruct (String.eqb_spec topic t) as [-> | _]; [ exfalso; tauto | ]
         end.
  reflexivity.
Qed.

End TypedRequestHandlers.

(** X1. For a message on one of the nine request topics whose payload is
    well-formed UTF-8, [_on_message] never lets an exception escape, and
    when it returns it has published at most one message, on the
    response topic of the request (none when the response could not be
    serialised, which the publishing methods only log); in the one
    remaining case (a request field of another JSON type reaches code
    that reads it as text) nothing has been published. *)
Theorem on_message_never_raises `{Host} (msg : Message) (response : string) :
  utf8_valid (msg_payload msg) = true ->
  In (msg_topic msg, response) routes ->
  answers_at_most_once response (_on_message msg).
Proof.
  intros Hv Hin.
  rewrite (on_message_decoded msg
             (string_of_list_ascii (map ascii_of_byte (msg_payload msg)))).
  - apply answers_guarded, route_answers, Hin.
  - unfold decode_utf8. rewrite Hv. reflexivity.
Qed.

Lemma on_message_never_raises_witness :
  answers_at_most_once (H := Sample.host) "rpi/network/response"
    (_on_message static_request_message).
Proof.
  apply (on_message_never_raises (H := Sample.host) static_request_message);
    [ reflexivity | simpl; tauto ].
Defined.

(** X3. A message on any other topic, with a payload that decodes, is
    ignored: nothing is published and the agent's state is unchanged. *)
Theorem on_message_other_topic `{Host} (msg : Message) (s : St) :
  utf8_valid (msg_payload msg) = true ->
  ~ In (msg_topic msg) (map fst routes) ->
  _on_message msg s = (Ok tt, s).
Proof.
  intros Hv Hout.
  rewrite (on_message_decoded msg
             (string_of_list_ascii (map ascii_of_byte (msg_payload msg)))).
  - rewrite route_unrouted by exact Hout. reflexivity.
  - unfold decode_utf8. rewrite Hv. reflexivity.
Qed.

Lemma on_message_other_topic_witness :
  _on_message (H := Sample.host)
    {| msg_topic := "rpi/wifi/status"; msg_payload := [] |}
    (Sample.agent [])
  = (Ok tt, Sample.agent []).
Proof.
  apply (on_message_other_topic (H := Sample.host)); [ reflexivity | ].
  simpl. intros Hin.
  repeat (destruct Hin as [Hin | Hin]; [ discriminate Hin | ]). exact Hin.
Defined.
(** ** Network system detection *)

Section DetectionFacts.
Context `{Host}.

Ltac probe :=
  repeat first
    [ progress cbn [fst snd os with_os]
    | match goal with
      | |- context [os_run ?t ?a ?o] => destruct (os_run t a o) as [[? | ?] ?]
      | |- context [os_read ?p ?o] => destruct (os_read p o)
      | |- context [if ?b then _ else _] => destruct b
      end ].

(** X4. Called before the object has a logger, as [__init__] calls it,
    [_detect_network_method] returns one of the four method names or
    raises [AttributeError]: no other exception leaves it and no other
    name is returned. *)
Theorem detect_outcomes (s : St) :
  match _detect_network_method false s with
  | (Ok name, _) =>
      In name ["networkmanager"; "dhcpcd"; "systemd-networkd"; "interfaces"]
  | (Raise e, _) => e = AttributeError "logger"
  | (Beyond, _) => False
  end.
Proof.
  unfold _detect_network_method, detect_probes, try_except, bind, run, path_exists,
    read_file, ret, raise.
  probe; cbn [In]; tauto.
Qed.

(** X5. When the first probe cannot be run at all (no [systemctl] on the
    host), the fallback of the handler is not reached: the handler itself
    fails on the missing logger, and the method (hence [__init__]) raises
    [AttributeError] instead of settling for NetworkManager. *)
Theorem detect_without_systemctl (s : St) (e : exn) (o' : OS) :
  os_run None ["systemctl"; "is-active"; "NetworkManager"] (os s) = (NotRun e, o') ->
  _detect_network_method false s = (Raise (AttributeError "logger"), with_os s o').
Proof.
  intros Hrun.
  unfold _detect_network_method, detect_probes, try_except, bind, run.
  rewrite Hrun. reflexivity.
Qed.

Lemma unsupported_method_refused (a : St) :
  ~ In (network_method a) supported_methods ->
  read_current_ip_config a
  = (Ok (false, JStr ("Unsupported network method: " ++ network_method a)), a) /\
  (forall interface ip netmask gateway dns,
     set_static_ip interface ip netmask gateway dns a
     = (Ok (false, "Unsupported network method: " ++ network_method a), a)) /\
  (forall interface,
     set_dynamic_ip interface a
     = (Ok (false, "Unsupported network method: " ++ network_method a), a)).
Proof.
  intros Hout. cbn [supported_methods In] in Hout.
  assert (Hnm : String.eqb (network_method a) "networkmanager" = false)
    by (apply String.eqb_neq; intros Hx; apply Hout; auto).
  assert (Hdh : String.eqb (network_method a) "dhcpcd" = false)
    by (apply String.eqb_neq; intros Hx; apply Hout; auto).
  assert (Hif : String.eqb (network_method a) "interfaces" = false)
    by (apply String.eqb_neq; intros Hx; apply Hout; auto).
  repeat split; intros;
    unfold read_current_ip_config, set_static_ip, set_dynamic_ip, try_except, bind,
      get_state;
    rewrite Hnm, Hdh, Hif; reflexivity.
Qed.

(** X6. On a host where NetworkManager is not active, dhcpcd is absent
    and systemd-networkd is active, the detected method is
    [systemd-networkd]; with that method every reading and every change
    of the network configuration is refused with "Unsupported network
    method: systemd-networkd", the host untouched. *)
Theorem networkd_host_refused (s : St) (nm nd : Completed) (o1 o2 : OS) :
  os_run None ["systemctl"; "is-active"; "NetworkManager"] (os s) = (Exited nm, o1) ->
  is_active nm = false ->
  os_exists "/etc/dhcpcd.conf" o1 = false ->
  os_run None ["systemctl"; "is-active"; "systemd-networkd"] o1 = (Exited nd, o2) ->
  is_active nd = true ->
  _detect_network_method false s = (Ok "systemd-networkd", with_os s o2) /\
  forall a : St,
    network_method a = "systemd-networkd" ->
    read_current_ip_config a
    = (Ok (false, JStr "Unsupported network method: systemd-networkd"), a) /\
    (forall interface ip netmask gateway dns,
       set_static_ip interface ip netmask gateway dns a
       = (Ok (false, "Unsupported network method: systemd-networkd"), a)) /\
    (forall interface,
       set_dynamic_ip interface a
       = (Ok (false, "Unsupported network method: systemd-networkd"), a)).
Proof.
  intros Hnm Hnm_off Hfile Hnd Hnd_on. split.
  - unfold _detect_network_method, detect_probes, try_except, bind, run, path_exists.
    rewrite Hnm. cbn [ret os with_os]. rewrite Hnm_off. cbn [os with_os].
    rewrite Hfile. cbn [ret os with_os]. rewrite Hnd. cbn [ret]. rewrite Hnd_on.
    reflexivity.
  - intros a Ha.
    assert (Hout : ~ In (network_method a) supported_methods).
    { rewrite Ha. cbn [supported_methods In].
      intros [Hx | [Hx | [Hx | []]]]; discriminate Hx. }
    destruct (unsupported_method_refused a Hout) as (Hr & Hs & Hd).
    rewrite Ha in Hr, Hs, Hd. auto.
Qed.

End DetectionFacts.

Lemma detect_without_systemctl_witness :
  _detect_network_method (H := Sample.host) false
    (Sample.agent [NotRun (FileNotFoundError "systemctl")])
  = (Raise (AttributeError "logger"),
     with_os (Sample.agent [NotRun (FileNotFoundError "systemctl")])
       (snd (Sample.run_script None ["systemctl"; "is-active"; "NetworkManager"]
               (os (Sample.agent [NotRun (FileNotFoundError "systemctl")]))))).
Proof.
  apply (detect_without_systemctl (H := Sample.host)
           (Sample.agent [NotRun (FileNotFoundError "systemctl")])
           (FileNotFoundError "systemctl")).
  reflexivity.
Defined.


Lemma networkd_host_refused_witness :
  _detect_network_method (H := Sample.host) false (Sample.agent networkd_script)
  = (Ok "systemd-networkd",
     with_os (Sample.agent networkd_script)
       (snd (Sample.run_script None ["systemctl"; "is-active"; "systemd-networkd"]
               (snd (Sample.run_script None ["systemctl"; "is-active"; "NetworkManager"]
                       (os (Sample.agent networkd_script))))))).
Proof.
  refine (proj1 (networkd_host_refused (H := Sample.host)
                   (Sample.agent networkd_script)
                   {| returncode := 3; stdout := "inactive"; stderr := "" |}
                   {| returncode := 0; stdout := "active"; stderr := "" |}
                   _ _ _ _ _ _ _)); reflexivity.
Defined.

(** ** Requests that are refused before anything is changed *)

Section Refusals.
Context `{Host}.

(** X7. A static configuration that [_validate_network_config] rejects
    is refused by [set_static_ip] on every backend before anything is
    changed: no command is run, no file is written, the agent's state is
    what it was. *)
Theorem invalid_static_changes_nothing
    (interface ip netmask gateway dns msg : string) (s : St) :
  _validate_network_config ip netmask (Some gateway) = (false, msg) ->
  exists text,
    set_static_ip interface ip netmask gateway dns s = (Ok (false, text), s).
Proof.
  intros Hv.
  unfold set_static_ip, try_except, bind, get_state.
  destruct (String.eqb (network_method s) "networkmanager").
  { unfold _set_networkmanager_static, try_except. rewrite Hv.
    eexists. reflexivity. }
  destruct (String.eqb (network_method s) "dhcpcd").
  { unfold _set_dhcpcd_static, try_except, bind, path_exists.
    destruct (os_exists dhcpcd_file (os s)); cbn [negb].
    - rewrite Hv. eexists. reflexivity.
    - eexists. reflexivity. }
  destruct (String.eqb (network_method s) "interfaces").
  { unfold _set_interfaces_static, try_except, bind, path_exists.
    destruct (os_exists interfaces_file (os s)); cbn [negb].
    - rewrite Hv. eexists. reflexivity.
    - eexists. reflexivity. }
  eexists. reflexivity.
Qed.

End Refusals.

Lemma invalid_static_changes_nothing_witness :
  exists text,
    set_static_ip (H := Sample.host) "eth0" "192.168.1.50" "255.255.255.0"
      "10.0.0.1" "8.8.8.8" (Sample.agent [])
    = (Ok (false, text), Sample.agent []).
Proof.
  apply (invalid_static_changes_nothing (H := Sample.host) "eth0" "192.168.1.50"
           "255.255.255.0" "10.0.0.1" "8.8.8.8"
           (snd (_validate_network_config (H := Sample.host) "192.168.1.50"
                   "255.255.255.0" (Some "10.0.0.1")))).
  vm_compute. reflexivity.
Defined.

Section RefusedRequests.
Context `{Host}.

Lemma lacks_default (key : string) (fields : dict) :
  lacks key fields ->
  json_truthy match dict_get key fields with
              | Some v => v
              | None => JNull
              end = false.
Proof. unfold lacks. destruct (dict_get key fields); [auto | reflexivity]. Qed.

(** X8. A network request without a method, a static request without an
    address, and a request whose method is neither [static] nor [dhcp]
    are answered with one error response that names the fault, on
    rpi/network/response; no command is run and no file is written. *)
Theorem network_request_refused (payload_str : string) (fields : dict) (s : St) :
  json_loads payload_str = Some (JObj fields) ->
  (lacks "method" fields ->
   _handle_set_network_config payload_str s
   = (Ok tt, published s "rpi/network/response"
               (error_response (os_now (os s)) "Missing 'method' field"))) /\
  (dict_get "method" fields = Some (JStr "static") -> lacks "static_ip" fields ->
   _handle_set_network_config payload_str s
   = (Ok tt, published s "rpi/network/response"
               (error_response (os_now (os s))
                  "Missing required static IP parameter: static_ip"))) /\
  (forall method,
     dict_get "method" fields = Some (JStr method) ->
     method <> "" -> method <> "static" -> method <> "dhcp" ->
     _handle_set_network_config payload_str s
     = (Ok tt, published s "rpi/network/response"
                 (error_response (os_now (os s))
                    ("Invalid method: " ++ method ++ ". Must be 'static' or 'dhcp'")))).
Proof.
  intros Hp.
  assert (Hloads : loads payload_str s = (Ok (JObj fields), s))
    by (unfold loads; rewrite Hp; reflexivity).
  repeat split.
  - intros Hm. apply lacks_default in Hm.
    unfold _handle_set_network_config, try_except, bind. rewrite Hloads.
    cbn [py_get lift_exc ret]. rewrite Hm. reflexivity.
  - intros Hm Hip. apply lacks_default in Hip.
    unfold _handle_set_network_config, try_except, bind. rewrite Hloads.
    cbn [py_get lift_exc ret]. rewrite Hm. cbn [json_truthy Py.truthy negb now get_state].
    cbn [json_is String.eqb Ascii.eqb Bool.eqb ret]. rewrite Hip. reflexivity.
  - intros method Hm Hne Hst Hdh.
    unfold _handle_set_network_config, try_except, bind. rewrite Hloads.
    cbn [py_get lift_exc ret]. rewrite Hm.
    assert (Ht : json_truthy (JStr method) = true)
      by (destruct method; [contradiction | reflexivity]).
    rewrite Ht. cbn [negb now get_state json_is].
    apply String.eqb_neq in Hst, Hdh. rewrite Hst, Hdh. reflexivity.
Qed.

End RefusedRequests.

Lemma network_request_refused_witness :
  _handle_set_network_config (H := host_with [request_without_method] true)
    (Sample.dumps request_without_method)
    (agent_with [request_without_method] true)
  = (Ok tt,
     published (agent_with [request_without_method] true) "rpi/network/response"
       (error_response "2025-01-01T00:00:00" "Missing 'method' field")).
Proof.
  refine (proj1 (network_request_refused (H := host_with [request_without_method] true)
                   (Sample.dumps request_without_method)
                   [("interface", JStr "eth0")]
                   (agent_with [request_without_method] true) _) _).
  - reflexivity.
  - exact I.
Defined.

Section RefusedWifiRequests.
Context `{Host}.

(** X9. A WiFi connect or delete request that names no network is
    answered with the error "Missing 'ssid' field" on the response topic
    of the request, and nmcli is not run. *)
Theorem wifi_request_without_ssid (payload_str : string) (fields : dict) (s : St) :
  json_loads payload_str = Some (JObj fields) ->
  lacks "ssid" fields ->
  _handle_wifi_connect payload_str s
  = (Ok tt, published s "rpi/wifi/connect_response"
              (wifi_error_response (os_now (os s)) "wifi_connect"
                 "Missing 'ssid' field")) /\
  _handle_wifi_delete payload_str s
  = (Ok tt, published s "rpi/wifi/delete_response"
              (wifi_error_response (os_now (os s)) "wifi_delete"
                 "Missing 'ssid' field")).
Proof.
  intros Hp Hm. apply lacks_default in Hm.
  assert (Hloads : loads payload_str s = (Ok (JObj fields), s))
    by (unfold loads; rewrite Hp; reflexivity).
  split.
  - unfold _handle_wifi_connect, try_except, bind. rewrite Hloads.
    cbn [py_get lift_exc ret]. rewrite Hm. reflexivity.
  - unfold _handle_wifi_delete, try_except, bind. rewrite Hloads.
    cbn [py_get lift_exc ret]. rewrite Hm. reflexivity.
Qed.

End RefusedWifiRequests.

Lemma wifi_request_without_ssid_witness :
  _handle_wifi_connect (H := host_with [request_without_ssid] true)
    (Sample.dumps request_without_ssid) (agent_with [request_without_ssid] true)
  = (Ok tt,
     published (agent_with [request_without_ssid] true) "rpi/wifi/connect_response"
       (wifi_error_response "2025-01-01T00:00:00" "wifi_connect"
          "Missing 'ssid' field")).
Proof.
  refine (proj1 (wifi_request_without_ssid (H := host_with [request_without_ssid] true)
                   (Sample.dumps request_without_ssid)
                   [("password", JStr "secret")]
                   (agent_with [request_without_ssid] true) _ _)).
  - reflexivity.
  - exact I.
Defined.

(** ** The configuration store *)

Section ConfigStore.
Context `{Host}.

Lemma loads_run (text : string) (v : Json) (s : St) :
  json_loads text = Some v -> loads text s = (Ok v, s).
Proof. intros Hp. unfold loads. rewrite Hp. reflexivity. Qed.

(** X10. A set-config request without a [config] field is answered with
    the error "Missing 'config' field"; the configuration in memory and
    the file are left alone. *)
Theorem set_config_without_config (payload_str : string) (fields : dict) (s : St) :
  json_loads payload_str = Some (JObj fields) ->
  dict_get "config" fields = None ->
  _handle_set_config payload_str s
  = (Ok tt, published s "rpi/config/response"
              (error_response (os_now (os s)) "Missing 'config' field")).
Proof.
  intros Hp Hc.
  unfold _handle_set_config, try_except, bind. rewrite (loads_run _ _ _ Hp).
  cbn [config_field]. rewrite Hc. reflexivity.
Qed.

(** X11. The handler replaces the configuration in memory before it
    saves it: when saving fails, the request is answered with the error
    "Failed to save config", and the agent nevertheless goes on with the
    new configuration in memory. *)
Theorem set_config_save_failure (payload_str : string) (fields old : dict)
    (new_config : Json) (s s1 : St) :
  json_loads payload_str = Some (JObj fields) ->
  dict_get "config" fields = Some new_config ->
  config s = JObj old ->
  save_config (with_config s new_config) = (Ok false, s1) ->
  _handle_set_config payload_str s
  = (Ok tt, published s1 "rpi/config/response"
              (error_response (os_now (os s1)) "Failed to save config")) /\
  config s1 = new_config.
Proof.
  intros Hp Hc Hold Hsave. split.
  - unfold _handle_set_config, try_except, bind. rewrite (loads_run _ _ _ Hp).
    cbn [config_field]. rewrite Hc. cbn [lift_exc ret get_state]. rewrite Hold.
    cbn [py_copy lift_exc ret set_config]. rewrite Hsave. reflexivity.
  - destruct (quiet_save_config (with_config s new_config)) as (r & o & Hq & _).
    rewrite Hsave in Hq. injection Hq as _ ->. reflexivity.
Qed.

(** X12. A configuration that is not an object is accepted and saved,
    and the request is then answered with an error; from then on the
    configuration in memory is that value, and every later set-config
    request fails on it before anything is changed. *)
Theorem scalar_config_sticks (payload_str : string) (fields old : dict)
    (new_config : Json) (s s1 : St) :
  json_loads payload_str = Some (JObj fields) ->
  dict_get "config" fields = Some new_config ->
  scalar new_config = true ->
  config s = JObj old ->
  save_config (with_config s new_config) = (Ok true, s1) ->
  _handle_set_config payload_str s
  = (Ok tt, published s1 "rpi/config/response"
              (error_response (os_now (os s1)) (lib_text (AttributeError "get")))) /\
  config s1 = new_config /\
  forall later_str later_fields later_config (a : St),
    config a = new_config ->
    json_loads later_str = Some (JObj later_fields) ->
    dict_get "config" later_fields = Some later_config ->
    _handle_set_config later_str a
    = (Ok tt, published a "rpi/config/response"
                (error_response (os_now (os a)) (lib_text (AttributeError "copy")))).
Proof.
  intros Hp Hc Hsc Hold Hsave. repeat split.
  - unfold _handle_set_config, try_except, bind. rewrite (loads_run _ _ _ Hp).
    cbn [config_field]. rewrite Hc. cbn [lift_exc ret get_state]. rewrite Hold.
    cbn [py_copy lift_exc ret set_config]. rewrite Hsave.
    cbn [now py_get lift_exc ret].
    destruct new_config; try discriminate Hsc; reflexivity.
  - destruct (quiet_save_config (with_config s new_config)) as (r & o & Hq & _).
    rewrite Hsave in Hq. injection Hq as _ ->. reflexivity.
  - intros later_str later_fields later_config a Ha Hlp Hlc.
    unfold _handle_set_config, try_except, bind. rewrite (loads_run _ _ _ Hlp).
    cbn [config_field]. rewrite Hlc. cbn [lift_exc ret get_state]. rewrite Ha.
    destruct new_config; try discriminate Hsc; reflexivity.
Qed.

(** X13. A configuration file that is missing, unreadable or not JSON is
    not reported as such: [_handle_get_config] answers with status
    [success] and an empty configuration, and the configuration in
    memory is replaced by the empty one. *)
Theorem get_config_unavailable (s : St) :
  config_unavailable (os s) ->
  _handle_get_config s
  = (Ok tt, published (with_config s (JObj [])) "rpi/config/response"
              (config_response (os_now (os s)) (JObj []))).
Proof.
  intros [Hmiss | [(e & Hread) | (text & Hread & Hjson)]];
    unfold _handle_get_config, load_config, try_except, bind, path_exists, read_file.
  - rewrite Hmiss. reflexivity.
  - destruct (os_exists config_path (os s)); [rewrite Hread | ]; reflexivity.
  - destruct (os_exists config_path (os s)); [ | reflexivity ].
    rewrite Hread. unfold loads. rewrite Hjson. reflexivity.
Qed.

End ConfigStore.

Lemma set_config_without_config_witness :
  _handle_set_config (H := host_with [request_without_method] true)
    (Sample.dumps request_without_method) (agent_with [request_without_method] true)
  = (Ok tt,
     published (agent_with [request_without_method] true) "rpi/config/response"
       (error_response "2025-01-01T00:00:00" "Missing 'config' field")).
Proof.
  apply (set_config_without_config (H := host_with [request_without_method] true)
           (Sample.dumps request_without_method) [("interface", JStr "eth0")]);
    reflexivity.
Defined.

Lemma set_config_save_failure_witness :
  config (snd (save_config (H := host_with [config_request] false)
                 (with_config (agent_with [config_request] false)
                    (JObj [("mqtt", JObj [("broker", JStr "localhost")])]))))
  = JObj [("mqtt", JObj [("broker", JStr "localhost")])].
Proof.
  refine (proj2 (set_config_save_failure (H := host_with [config_request] false)
                   (Sample.dumps config_request)
                   [("config", JObj [("mqtt", JObj [("broker", JStr "localhost")])])]
                   []
                   (JObj [("mqtt", JObj [("broker", JStr "localhost")])])
                   (agent_with [config_request] false) _ _ _ _ _));
    reflexivity.
Defined.

Lemma scalar_config_sticks_witness :
  config (snd (save_config (H := host_with [scalar_config_request] true)
                 (with_config (agent_with [scalar_config_request] true) (JInt 5))))
  = JInt 5.
Proof.
  refine (proj1 (proj2 (scalar_config_sticks
                          (H := host_with [scalar_config_request] true)
                          (Sample.dumps scalar_config_request)
                          [("config", JInt 5)] [] (JInt 5)
                          (agent_with [scalar_config_request] true) _ _ _ _ _ _)));
    reflexivity.
Defined.

(** ** Configuration files *)



Lemma drop_stanza_kept (interface : string) (config_lines : list string) :
  forall skip_interface line,
    In line (drop_stanza interface skip_interface config_lines) ->
    In line config_lines /\
    Py.startswith (Py.strip line) ("interface " ++ interface) = false.
Proof.
  induction config_lines as [| l rest IH]; intros skip line Hin;
    cbn [drop_stanza] in Hin; [contradiction | ].
  destruct (Py.startswith (Py.strip l) ("interface " ++ interface)) eqn:Ht.
  - destruct (IH _ _ Hin) as [Hr Hs]. split; [right; exact Hr | exact Hs].
  - destruct (Py.startswith (Py.strip l) "interface " && skip)%bool.
    + destruct Hin as [<- | Hin]; [split; [left; reflexivity | exact Ht] | ].
      destruct (IH _ _ Hin) as [Hr Hs]. split; [right; exact Hr | exact Hs].
    + destruct (negb skip).
      * destruct Hin as [<- | Hin]; [split; [left; reflexivity | exact Ht] | ].
        destruct (IH _ _ Hin) as [Hr Hs]. split; [right; exact Hr | exact Hs].
      * destruct (IH _ _ Hin) as [Hr Hs]. split; [right; exact Hr | exact Hs].
Qed.

(** X14. The filter of the dhcpcd writers keeps lines of the file only,
    and none of those it keeps opens a stanza of the interface. *)
Theorem drop_stanza_keeps (interface : string) (config_lines : list string)
    (skip_interface : bool) (line : string) :
  In line (drop_stanza interface skip_interface config_lines) ->
  In line config_lines /\
  Py.startswith (Py.strip line) ("interface " ++ interface) = false.
Proof. apply drop_stanza_kept. Qed.

Lemma drop_stanza_untouched (interface : string) (config_lines : list string) :
  (forall line, In line config_lines ->
                Py.startswith (Py.strip line) ("interface " ++ interface) = false) ->
  drop_stanza interface false config_lines = config_lines.
Proof.
  induction config_lines as [| l rest IH]; intros Hno; [reflexivity | ].
  cbn [drop_stanza]. rewrite (Hno l (or_introl eq_refl)).
  rewrite andb_false_r. cbn [negb]. rewrite IH; [reflexivity | ].
  intros line Hin. apply Hno. right. exact Hin.
Qed.

(** X15. The filter is idempotent: what it returns has no stanza of the
    interface left, and filtering it again changes nothing. *)
Theorem drop_stanza_idempotent (interface : string) (config_lines : list string) :
  drop_stanza interface false (drop_stanza interface false config_lines)
  = drop_stanza interface false config_lines.
Proof.
  apply drop_stanza_untouched. intros line Hin.
  apply (drop_stanza_kept interface config_lines false line Hin).
Qed.


Section FileWriters.
Context `{Host}.



End FileWriters.



(** ** WiFi operations *)

Section WifiOperations.
Context `{Host}.

(** X18. [connect_wifi] disconnects the device before it tries the new
    network: when the disconnect succeeds and the connect command then
    fails, the call reports nmcli's error and stops there, the device
    left as the failed command left it (nothing is run to bring the
    former connection back). *)
Theorem connect_failure_after_disconnect
    (name : string) (password : option string) (s : St)
    (off joined : Completed) (o1 o2 : OS) :
  os_run (Some 15) ["nmcli"; "device"; "disconnect"; "wlan0"] (os s)
  = (Exited off, o1) ->
  returncode off = 0 ->
  os_run (Some 15) ("nmcli" :: connect_args name password) (os_sleep 2 o1)
  = (Exited joined, o2) ->
  returncode joined <> 0 ->
  exists description,
    connect_wifi name password s
    = (Ok (false, "Failed to " ++ description ++ ": " ++ Py.strip (stderr joined)),
       with_os s o2).
Proof.
  intros Hoff Hoff0 Hjoin Hjoin0.
  unfold connect_wifi, disconnect_current_wifi, bind at 1 2.
  rewrite (run_nmcli_exit_0 _ _ s off o1 Hoff Hoff0). cbn [fst snd negb andb ret].
  unfold bind at 1. unfold sleep at 1. cbn [os with_os].
  unfold connect_args in Hjoin.
  destruct password as [p |]; cbn [opt_truthy].
  - destruct (Py.truthy p); unfold bind at 1;
      erewrite run_nmcli_exit_error by (cbn [os with_os]; eassumption);
      cbn [fst snd negb]; eexists; reflexivity.
  - unfold bind at 1.
    erewrite run_nmcli_exit_error by (cbn [os with_os]; eassumption).
    cbn [fst snd negb]. eexists. reflexivity.
Qed.

(** X19. When the device status cannot be read, [_handle_wifi_status_get]
    still answers, once, on rpi/wifi/status/response: the status is
    [partial_error], the device is reported as not connected with no
    saved network, and the error text is repeated in [error_details]. *)
Theorem wifi_status_unavailable (s : St) (out : Outcome) (o : OS) :
  os_run (Some 15)
    ["nmcli"; "-t"; "-f"; "DEVICE,TYPE,STATE,CONNECTION"; "device"; "status"] (os s)
  = (out, o) ->
  scan_failed out ->
  exists message,
    _handle_wifi_status_get s
    = (Ok tt, published (with_os s o) "rpi/wifi/status/response"
                (status_unavailable (os_now o) message)).
Proof.
  intros Hrun Hfail.
  assert (Hnm : exists message,
             run_nmcli_command
               ["-t"; "-f"; "DEVICE,TYPE,STATE,CONNECTION"; "device"; "status"]
               "get device status" s
             = (Ok (false, message), with_os s o)).
  { destruct out as [c | e].
    - eexists. apply run_nmcli_exit_error; [exact Hrun | exact Hfail].
    - apply (run_nmcli_not_run _ _ _ e). exact Hrun. }
  destruct Hnm as (message & Hnm). exists message.
  unfold _handle_wifi_status_get, get_wifi_status, try_except, bind.
  rewrite Hnm. reflexivity.
Qed.


End WifiOperations.

Lemma connect_failure_after_disconnect_witness :
  exists description,
    fst (connect_wifi (H := Sample.host) "Home" (Some "secret")
           (Sample.agent script_wrong_key))
    = Ok (false,
          "Failed to " ++ description
          ++ ": Error: Connection activation failed: Secrets were required.").
Proof.
  destruct (connect_failure_after_disconnect (H := Sample.host) "Home" (Some "secret")
              (Sample.agent script_wrong_key)
              {| returncode := 0; stdout := ""; stderr := "" |}
              {| returncode := 4; stdout := "";
                 stderr := "Error: Connection activation failed: Secrets were required." |}
              _ _ eq_refl eq_refl eq_refl) as (description & Hrun).
  - discriminate.
  - exists description. rewrite Hrun. reflexivity.
Defined.

Lemma wifi_status_unavailable_witness :
  fst (_handle_wifi_status_get (H := Sample.host) (Sample.agent [radio_off])) = Ok tt.
Proof.
  destruct (wifi_status_unavailable (H := Sample.host) (Sample.agent [radio_off])
              radio_off _ eq_refl) as (message & Hrun).
  - discriminate.
  - rewrite Hrun. reflexivity.
Defined.


Lemma get_config_unavailable_witness :
  _handle_get_config (H := Sample.host) (Sample.agent [])
  = (Ok tt,
     published (with_config (Sample.agent []) (JObj [])) "rpi/config/response"
       (config_response "2025-01-01T00:00:00" (JObj []))).
Proof.
  apply (get_config_unavailable (H := Sample.host) (Sample.agent [])).
  left. reflexivity.
Defined.

Section ServiceRestart.
Context `{Host}.

(** X21. On a legacy system, when [systemctl restart networking] fails,
    [restart_networking_service] falls back to [ifdown eth0] and
    [ifup eth0] and reports success whatever these two commands return:
    their exit status is not looked at, and the interface is eth0
    whichever interface was changed. *)
Theorem restart_fallback_reports_success (s : St)
    (unit_restart down up : Completed) (o1 o2 o3 : OS) :
  network_method s = "interfaces" ->
  os_run None ["sudo"; "systemctl"; "restart"; "networking"] (os s)
  = (Exited unit_restart, o1) ->
  returncode unit_restart <> 0 ->
  os_run None ["sudo"; "ifdown"; "eth0"] o1 = (Exited down, o2) ->
  os_run None ["sudo"; "ifup"; "eth0"] (os_sleep 2 o2) = (Exited up, o3) ->
  restart_networking_service s
  = (Ok (true, "Network interface restarted with ifdown/ifup."), with_os s o3).
Proof.
  intros Hm Hunit Hrc Hdown Hup. apply Z.eqb_neq in Hrc.
  unfold restart_networking_service, try_except, bind at 1, get_state.
  rewrite Hm. cbn [String.eqb Ascii.eqb Bool.eqb].
  unfold try_except_if, run_checked, bind, run, sleep.
  rewrite Hunit, Hrc. cbn [raise is_CalledProcessError os with_os].
  rewrite Hdown. cbn [os with_os]. rewrite Hup. reflexivity.
Qed.

End ServiceRestart.

Lemma restart_fallback_reports_success_witness :
  fst (restart_networking_service (H := Sample.host) agent_no_networking_unit)
  = Ok (true, "Network interface restarted with ifdown/ifup.").
Proof.
  refine (f_equal fst
            (restart_fallback_reports_success (H := Sample.host)
               agent_no_networking_unit
               {| returncode := 5; stdout := "";
                  stderr := "Failed to restart networking.service: Unit not found." |}
               {| returncode := 1; stdout := "";
                  stderr := "ifdown: interface eth0 not configured" |}
               {| returncode := 1; stdout := "";
                  stderr := "ifup: unknown interface eth0" |}
               _ _ _ eq_refl eq_refl _ eq_refl eq_refl)).
  discriminate.
Defined.

(** ** Order of the scan *)





Section ScanOrder.
Context `{Host}.


End ScanOrder.


(** ** The parsers of the readers *)

Lemma lstrip_head (x : string) (c : ascii) (r : string) :
  Py.lstrip x = String c r -> Py.is_space c = false.
Proof.
  induction x as [| d x IH]; cbn [Py.lstrip]; [discriminate | ].
  destruct (Py.is_space d) eqn:Hd; [exact IH | ].
  intros [= <- _]. exact Hd.
Qed.

Lemma rev_onto_app (a b : string) : forall acc,
  Py.rev_onto (a ++ b) acc = Py.rev_onto b (Py.rev_onto a acc).
Proof.
  induction a as [| c a IH]; intros acc; cbn [append Py.rev_onto];
    [reflexivity | apply IH].
Qed.

Lemma rev_onto_blank_head (r : string) : forall acc,
  all_space r = true -> r <> "" ->
  exists d rest, Py.rev_onto r acc = String d rest /\ Py.is_space d = true.
Proof.
  induction r as [| c r IH]; intros acc Hall Hne; [contradiction | ].
  cbn [all_space] in Hall. apply andb_prop in Hall. destruct Hall as [Hc Hr].
  cbn [Py.rev_onto]. destruct r as [| c' r'].
  - exists c, acc. split; [reflexivity | exact Hc].
  - apply IH; [exact Hr | discriminate].
Qed.

(** A stripped text does not end with blanks. *)
Lemma strip_no_blank_tail (s p r : string) :
  Py.strip s = p ++ r -> all_space r = true -> r = "".
Proof.
  unfold Py.strip, Py.rstrip. intros Hs Hall.
  destruct r as [| c r']; [reflexivity | exfalso].
  assert (Hu : Py.lstrip (Py.rev (Py.lstrip s)) = Py.rev (p ++ String c r'))
    by (rewrite <- Hs; symmetry; apply rev_involutive).
  unfold Py.rev in Hu at 2. rewrite rev_onto_app in Hu.
  destruct (rev_onto_blank_head (String c r') (Py.rev_onto p "") Hall)
    as (d & rest & Hd & Hsp); [discriminate | ].
  rewrite Hd in Hu. apply lstrip_head in Hu. congruence.
Qed.

Lemma prefix_app (p s : string) :
  String.prefix p s = true -> exists rest, s = p ++ rest.
Proof.
  revert s. induction p as [| c p IH]; intros s Hp.
  - exists s. reflexivity.
  - destruct s as [| d s]; cbn [String.prefix] in Hp; [discriminate | ].
    destruct (Ascii.ascii_dec c d) as [<- | Hne]; [ | discriminate ].
    destruct (IH s Hp) as (rest & ->). exists rest. reflexivity.
Qed.

Lemma split_ws_blank (r : string) : Py.split_ws r = [] -> all_space r = true.
Proof.
  induction r as [| c r IH]; [reflexivity | ].
  cbn [Py.split_ws all_space]. destruct (Py.is_space c); [exact IH | ].
  destruct r as [| d r']; [discriminate | ].
  destruct (Py.is_space d); [discriminate | ].
  destruct (Py.split_ws (String d r')); discriminate.
Qed.

Lemma split_nonempty (sep : ascii) (s : string) : Py.split sep s <> [].
Proof.
  destruct s as [| c r]; cbn [Py.split]; [discriminate | ].
  destruct (Ascii.eqb c sep); [discriminate | ].
  destruct (Py.split sep r); discriminate.
Qed.

(** The second word of a stripped line that starts with a word and a
    blank. *)
Lemma second_word (raw word rest : string) :
  Py.strip raw = word ++ " " ++ rest ->
  Py.split_ws (Py.strip raw) = word :: Py.split_ws rest ->
  exists name, item (Py.split_ws (Py.strip raw)) 1 = inr name.
Proof.
  intros Hs Hw. rewrite Hw. unfold item. cbn [nth_error].
  destruct (Py.split_ws rest) as [| name tail] eqn:Hrest; [exfalso | eauto].
  apply split_ws_blank in Hrest.
  assert (Hblank : all_space (" " ++ rest) = true) by exact Hrest.
  pose proof (strip_no_blank_tail raw word (" " ++ rest) Hs Hblank) as Hnil.
  discriminate Hnil.
Qed.

Lemma dhcpcd_line_accepts (raw : string) (st : option string * dict) :
  exists st', dhcpcd_line raw st = inr st'.
Proof.
  unfold dhcpcd_line. destruct st as [current interfaces].
  destruct (Py.startswith (Py.strip raw) "interface ") eqn:Hi.
  - destruct (prefix_app _ _ Hi) as (rest & Hrest).
    assert (Hw : Py.split_ws (Py.strip raw) = "interface" :: Py.split_ws rest)
      by (rewrite Hrest; reflexivity).
    destruct (second_word raw "interface" rest Hrest Hw) as (name & ->). eauto.
  - destruct current as [cur |]; [ | eauto ].
    destruct (negb (Py.truthy cur)); [eauto | ].
    destruct (Py.startswith (Py.strip raw) "static ip_address=") eqn:Ha.
    { destruct (prefix_app _ _ Ha) as (rest & ->).
      change (Py.split "="%char ("static ip_address=" ++ rest))
        with ("static ip_address" :: Py.split "="%char rest).
      pose proof (split_nonempty "="%char rest) as Hne.
      unfold item. cbn [nth_error].
      destruct (Py.split "="%char rest); [contradiction | eauto]. }
    destruct (Py.startswith (Py.strip raw) "static routers=") eqn:Hr.
    { destruct (prefix_app _ _ Hr) as (rest & ->).
      change (Py.split "="%char ("static routers=" ++ rest))
        with ("static routers" :: Py.split "="%char rest).
      pose proof (split_nonempty "="%char rest) as Hne.
      unfold item. cbn [nth_error].
      destruct (Py.split "="%char rest); [contradiction | eauto]. }
    destruct (Py.startswith (Py.strip raw) "static domain_name_servers=") eqn:Hd.
    { destruct (prefix_app _ _ Hd) as (rest & ->).
      change (Py.split "="%char ("static domain_name_servers=" ++ rest))
        with ("static domain_name_servers" :: Py.split "="%char rest).
      pose proof (split_nonempty "="%char rest) as Hne.
      unfold item. cbn [nth_error].
      destruct (Py.split "="%char rest); [contradiction | eauto]. }
    eauto.
Qed.

Lemma interfaces_line_accepts (raw : string) (st : option string * dict) :
  exists st', interfaces_line raw st = inr st'.
Proof.
  unfold interfaces_line. destruct st as [current interfaces].
  destruct (Py.startswith (Py.strip raw) "auto ") eqn:Ha.
  - destruct (prefix_app _ _ Ha) as (rest & Hrest).
    assert (Hw : Py.split_ws (Py.strip raw) = "auto" :: Py.split_ws rest)
      by (rewrite Hrest; reflexivity).
    destruct (second_word raw "auto" rest Hrest Hw) as (name & ->). eauto.
  - destruct (Py.startswith (Py.strip raw) "iface ").
    + destruct (Py.split_ws (Py.strip raw)) as [| ? [| ? [| ? [| ? ?]]]]; eauto.
    + destruct current as [cur |]; [ | eauto ].
      destruct (Py.truthy cur && Py.truthy (Py.strip raw))%bool; [ | eauto ].
      destruct (Py.split_ws_1 (Py.strip raw)) as [| ? [| ? [| ? ?]]]; eauto.
      destruct (existsb _ _); eauto.
Qed.

Lemma dict_get_set_same (k : string) (v : Json) (d : dict) :
  dict_get k (dict_set k v d) = Some v.
Proof.
  induction d as [| [k' v'] r IH]; cbn [dict_set dict_get].
  - rewrite String.eqb_refl. reflexivity.
  - destruct (String.eqb k k') eqn:Hk; cbn [dict_get].
    + rewrite String.eqb_refl. reflexivity.
    + rewrite Hk. exact IH.
Qed.

Lemma dict_get_set_other (k k' : string) (v : Json) (d : dict) :
  k' <> k -> dict_get k' (dict_set k v d) = dict_get k' d.
Proof.
  intros Hne. apply String.eqb_neq in Hne.
  induction d as [| [k0 v0] r IH]; cbn [dict_set dict_get].
  - rewrite Hne. reflexivity.
  - destruct (String.eqb_spec k k0) as [<- | Hk]; cbn [dict_get].
    + rewrite Hne. reflexivity.
    + destruct (String.eqb k' k0); [reflexivity | exact IH].
Qed.

Lemma dict_get_set (k k' : string) (v : Json) (d : dict) :
  dict_get k' (dict_set k v d) = if String.eqb k' k then Some v else dict_get k' d.
Proof.
  destruct (String.eqb_spec k' k) as [-> | Hne].
  - apply dict_get_set_same.
  - apply dict_get_set_other. exact Hne.
Qed.

(** An assignment of an object leaves the entries as they have to be,
    with the assigned interface as the current one or with the current
    one kept. *)
Lemma entries_present_set (current : option string) (name : string) (fields : dict)
    (next : option string) (interfaces : dict) :
  entries_present (current, interfaces) ->
  next = Some name \/ next = current ->
  entries_present (next, dict_set name (JObj fields) interfaces).
Proof.
  intros [Hobj Hcur] Hnext. cbn [fst snd] in *. split; cbn [fst snd].
  - intros k v. rewrite dict_get_set.
    destruct (String.eqb k name); [intros [= <-]; eauto | apply Hobj].
  - destruct Hnext as [-> | ->].
    + rewrite dict_get_set_same. discriminate.
    + destruct current as [c |]; [ | exact I ].
      rewrite dict_get_set. destruct (String.eqb c name); [discriminate | exact Hcur].
Qed.

Lemma entries_present_set_field (current : option string) (name key value : string)
    (interfaces : dict) :
  entries_present (current, interfaces) ->
  entries_present (current, set_field name key value interfaces).
Proof.
  intros Hp. unfold set_field.
  destruct (dict_get name interfaces) as [[] |]; try exact Hp.
  apply (entries_present_set current); [exact Hp | right; reflexivity].
Qed.

Lemma entries_present_ensure (current : option string) (name : string)
    (interfaces : dict) :
  entries_present (current, interfaces) ->
  entries_present (Some name, ensure_entry name interfaces).
Proof.
  intros Hp. unfold ensure_entry, dict_has.
  destruct (dict_get name interfaces) eqn:Hn.
  - destruct Hp as [Hobj _]. split; [exact Hobj | ]. cbn [fst snd]. rewrite Hn.
    discriminate.
  - apply (entries_present_set current); [exact Hp | left; reflexivity].
Qed.

Lemma entries_present_start : entries_present (None, []).
Proof. split; [intros k v; discriminate | exact I]. Qed.

Lemma dhcpcd_line_keeps (raw : string) (st st' : option string * dict) :
  entries_present st -> dhcpcd_line raw st = inr st' -> entries_present st'.
Proof.
  unfold dhcpcd_line. destruct st as [current interfaces]. intros Hp.
  destruct (Py.startswith (Py.strip raw) "interface ").
  { destruct (item (Py.split_ws (Py.strip raw)) 1); intros [= <-].
    apply (entries_present_set current); [exact Hp | left; reflexivity]. }
  destruct current as [cur |]; [ | intros [= <-]; exact Hp ].
  destruct (negb (Py.truthy cur)); [intros [= <-]; exact Hp | ].
  repeat match goal with
         | |- context [if ?b then _ else _] => destruct b
         | |- context [match item ?l ?i with _ => _ end] => destruct (item l i)
         end;
    intros [= <-]; first [exact Hp | apply entries_present_set_field; exact Hp].
Qed.

Lemma interfaces_line_keeps (raw : string) (st st' : option string * dict) :
  entries_present st -> interfaces_line raw st = inr st' -> entries_present st'.
Proof.
  unfold interfaces_line. destruct st as [current interfaces]. intros Hp.
  destruct (Py.startswith (Py.strip raw) "auto ").
  { destruct (item (Py.split_ws (Py.strip raw)) 1); intros [= <-].
    apply (entries_present_ensure current). exact Hp. }
  destruct (Py.startswith (Py.strip raw) "iface ").
  { destruct (Py.split_ws (Py.strip raw)) as [| ? [| name [| ? [| method ?]]]];
      intros [= <-]; try exact Hp.
    apply entries_present_set_field, (entries_present_ensure current). exact Hp. }
  destruct current as [cur |]; [ | intros [= <-]; exact Hp ].
  destruct (Py.truthy cur && Py.truthy (Py.strip raw))%bool; [ | intros [= <-]; exact Hp ].
  destruct (Py.split_ws_1 (Py.strip raw)) as [| key [| value [| ? ?]]];
    try (intros [= <-]; exact Hp).
  destruct (existsb _ _); intros [= <-];
    [apply entries_present_set_field; exact Hp | exact Hp].
Qed.

(** A loop whose steps never fail and keep an invariant goes through and
    ends in a state that has it. *)
Lemma fold_exc_accepts {A B} (f : A -> B -> Exc B) (P : B -> Prop) (l : list A) :
  (forall x acc, exists acc', f x acc = inr acc') ->
  (forall x acc acc', P acc -> f x acc = inr acc' -> P acc') ->
  forall acc, P acc -> exists acc', fold_exc f l acc = inr acc' /\ P acc'.
Proof.
  intros Hf Hkeep. induction l as [| x r IH]; intros acc Hacc; cbn [fold_exc]; [eauto | ].
  destruct (Hf x acc) as (acc' & Hx). rewrite Hx. apply IH.
  exact (Hkeep x acc acc' Hacc Hx).
Qed.

Lemma dhcpcd_loop (lines : list string) :
  exists st, fold_exc dhcpcd_line lines (None, []) = inr st /\ entries_present st.
Proof.
  apply (fold_exc_accepts dhcpcd_line entries_present);
    [apply dhcpcd_line_accepts | apply dhcpcd_line_keeps | apply entries_present_start].
Qed.

Lemma interfaces_loop (lines : list string) :
  exists st, fold_exc interfaces_line lines (None, []) = inr st /\ entries_present st.
Proof.
  apply (fold_exc_accepts interfaces_line entries_present);
    [apply interfaces_line_accepts | apply interfaces_line_keeps
    | apply entries_present_start].
Qed.

Section Parsers.
Context `{Host}.

(** X23. The dhcpcd reader accepts every text: no indexing of a line
    can fail and, after any number of lines, the current interface has
    its entry, so no assignment to it can fail either. Hence
    [_read_dhcpcd_config] reports an error only when the file exists and
    cannot be read; in every other case it succeeds, with an object, and
    leaves the agent as it was. *)
Theorem read_dhcpcd_config_accepts (s : St) :
  (forall lines,
     exists st, fold_exc dhcpcd_line lines (None, []) = inr st /\ entries_present st) /\
  ((os_exists dhcpcd_file (os s) = true ->
    exists content, os_read dhcpcd_file (os s) = inr content) ->
   exists interfaces, _read_dhcpcd_config s = (Ok (true, JObj interfaces), s)).
Proof.
  split; [exact dhcpcd_loop | ].
  intros Hread.
  unfold _read_dhcpcd_config, try_except, bind, path_exists, read_file.
  destruct (os_exists dhcpcd_file (os s)); [ | eexists; reflexivity ].
  destruct (Hread eq_refl) as (content & ->).
  destruct (dhcpcd_loop (Py.splitlines content)) as (st & -> & _).
  eexists. reflexivity.
Qed.

(** X24. [parse_interfaces_file] never takes its [except] branch: for
    every text the loop over the lines goes through (after any number of
    lines the current interface has its entry, and no indexing of a line
    can fail), and the result is what the loop has collected. *)
Theorem parse_interfaces_file_accepts (content : string) :
  (forall lines,
     exists st, fold_exc interfaces_line lines (None, []) = inr st /\
                entries_present st) /\
  exists st,
    fold_exc interfaces_line (Py.splitlines content) (None, []) = inr st /\
    parse_interfaces_file content = snd st.
Proof.
  split; [exact interfaces_loop | ].
  destruct (interfaces_loop (Py.splitlines content)) as (st & Hst & _).
  exists st. split; [exact Hst | ]. unfold parse_interfaces_file. rewrite Hst.
  reflexivity.
Qed.

End Parsers.

Lemma read_dhcpcd_config_accepts_witness :
  exists interfaces,
    _read_dhcpcd_config (H := Sample.host) agent_dhcpcd_plain
    = (Ok (true, JObj interfaces), agent_dhcpcd_plain).
Proof.
  apply (proj2 (read_dhcpcd_config_accepts (H := Sample.host) agent_dhcpcd_plain)).
  intros _. eexists. reflexivity.
Defined.

(** ** What the dhcpcd reader reports *)

Lemma entries_lack_set (key name : string) (fields interfaces : dict) :
  entries_lack key interfaces ->
  dict_get key fields = None ->
  entries_lack key (dict_set name (JObj fields) interfaces).
Proof.
  intros Hl Hf k v. rewrite dict_get_set.
  destruct (String.eqb k name); [intros [= <-]; eauto | apply Hl].
Qed.

Lemma entries_lack_set_field (key name field value : string) (interfaces : dict) :
  entries_lack key interfaces ->
  key <> field ->
  entries_lack key (set_field name field value interfaces).
Proof.
  intros Hl Hne. unfold set_field.
  destruct (dict_get name interfaces) as [[] |] eqn:Hn; try exact Hl.
  apply entries_lack_set; [exact Hl | ].
  destruct (Hl _ _ Hn) as (f & [= <-] & Hk).
  rewrite dict_get_set_other by exact Hne. exact Hk.
Qed.

Lemma dhcpcd_line_lacks_netmask (raw : string) (st st' : option string * dict) :
  entries_lack "netmask" (snd st) -> dhcpcd_line raw st = inr st' ->
  entries_lack "netmask" (snd st').
Proof.
  unfold dhcpcd_line. destruct st as [current interfaces]. cbn [snd]. intros Hp.
  destruct (Py.startswith (Py.strip raw) "interface ").
  { destruct (item (Py.split_ws (Py.strip raw)) 1); intros [= <-]. cbn [snd].
    apply entries_lack_set; [exact Hp | reflexivity]. }
  destruct current as [cur |]; [ | intros [= <-]; exact Hp ].
  destruct (negb (Py.truthy cur)); [intros [= <-]; exact Hp | ].
  repeat match goal with
         | |- context [if ?b then _ else _] => destruct b
         | |- context [match item ?l ?i with _ => _ end] => destruct (item l i)
         end;
    intros [= <-]; cbn [snd];
    first [exact Hp | apply entries_lack_set_field; [exact Hp | discriminate]].
Qed.

Lemma fold_exc_keeps {A B} (f : A -> B -> Exc B) (P : B -> Prop) (l : list A) :
  (forall x acc acc', P acc -> f x acc = inr acc' -> P acc') ->
  forall acc acc', P acc -> fold_exc f l acc = inr acc' -> P acc'.
Proof.
  intros Hkeep. induction l as [| x r IH]; intros acc acc' Hacc; cbn [fold_exc].
  - intros [= <-]. exact Hacc.
  - destruct (f x acc) as [e | mid] eqn:Hx; [discriminate | ].
    apply IH. exact (Hkeep x acc mid Hacc Hx).
Qed.

Lemma entries_lack_default (key iface : string) (interfaces : dict) :
  entries_lack key interfaces -> key <> "method" ->
  entries_lack key (default_dhcp iface interfaces).
Proof.
  intros Hl Hne. unfold default_dhcp. destruct (dict_has iface interfaces); [exact Hl | ].
  apply entries_lack_set; [exact Hl | ].
  cbn [dict_get]. apply String.eqb_neq in Hne. rewrite Hne. reflexivity.
Qed.

Section DhcpcdReport.
Context `{Host}.

(** X25. On a dhcpcd system the reader never reports a netmask: whatever
    the file holds, no interface of a successful answer has a [netmask]
    field (the prefix length of [static ip_address=] is dropped), so the
    netmask of a static request cannot be read back. *)
Theorem read_dhcpcd_config_without_netmask (s s' : St) (interfaces : dict) :
  _read_dhcpcd_config s = (Ok (true, JObj interfaces), s') ->
  entries_lack "netmask" interfaces.
Proof.
  unfold _read_dhcpcd_config, try_except, bind, path_exists, read_file.
  assert (Hstart : entries_lack "netmask" []) by (intros k v; discriminate).
  destruct (os_exists dhcpcd_file (os s)).
  - destruct (os_read dhcpcd_file (os s)) as [e | content]; [discriminate | ].
    cbn [lift_exc].
    destruct (fold_exc dhcpcd_line (Py.splitlines content) (None, [])) as [e | st] eqn:Hst;
      [discriminate | ].
    intros [= <- _].
    apply entries_lack_default; [ | discriminate ].
    apply entries_lack_default; [ | discriminate ].
    apply (fold_exc_keeps dhcpcd_line (fun st => entries_lack "netmask" (snd st))
             (Py.splitlines content) (fun x acc acc' => dhcpcd_line_lacks_netmask x acc acc')
             (None, []) st Hstart Hst).
  - intros [= <- _].
    apply entries_lack_default; [ | discriminate ].
    apply entries_lack_default; [ | discriminate ]. exact Hstart.
Qed.

End DhcpcdReport.

Lemma read_dhcpcd_config_without_netmask_witness :
  entries_lack "netmask"
    [("eth0", JObj [("method", JStr "static"); ("address", JStr "192.168.1.50");
                    ("gateway", JStr "192.168.1.1")]);
     ("wlan0", JObj [("method", JStr "dhcp")])].
Proof.
  apply (read_dhcpcd_config_without_netmask (H := Sample.host) agent_dhcpcd_static
           agent_dhcpcd_static).
  reflexivity.
Defined.

Lemma drop_stanza_keeps_witness :
  In ("interface wlan0" ++ NL) dhcpcd_two_stanzas /\
  Py.startswith (Py.strip ("interface wlan0" ++ NL)) ("interface " ++ "eth0") = false.
Proof.
  apply (drop_stanza_keeps "eth0" dhcpcd_two_stanzas false ("interface wlan0" ++ NL)).
  vm_compute. right. left. reflexivity.
Defined.

(** ** Reboot after a change *)

Section Reboot.
Context `{Host}.

(** X26. A DHCP request is answered with the outcome of
    [set_dynamic_ip]: the state the handler leaves holds one more
    message, the response, whose timestamp is the one taken before the
    change.  The host is left as [set_dynamic_ip] left it, unless the
    change succeeded and the request asks for a reboot: then it is the
    host after the two seconds of sleep and the reboot command. *)
Theorem dhcp_request_outcome (payload_str : string) (fields : dict)
    (interface message : string) (success : bool) (s s1 : St) :
  json_loads payload_str = Some (JObj fields) ->
  dict_get "method" fields = Some (JStr "dhcp") ->
  field_or "interface" (JStr "eth0") fields = JStr interface ->
  set_dynamic_ip interface s = (Ok (success, message), s1) ->
  let answered :=
    published s1 "rpi/network/response"
      (dhcp_response success (os_now (os s)) interface (network_method s) message) in
  _handle_set_network_config payload_str s
  = (Ok tt,
     if success && json_truthy (field_or "reboot" (JBool false) fields)
     then with_os answered (snd (os_system "sudo reboot" (os_sleep 2 (os s1))))
     else answered).
Proof.
  intros Hp Hm Hi Hset answered. subst answered.
  unfold field_or in *.
  unfold _handle_set_network_config, try_except, bind at 1.
  rewrite (loads_run _ _ _ Hp). cbn [py_get lift_exc].
  unfold bind at 1. cbn [ret]. unfold bind at 1. cbn [ret].
  rewrite Hm, Hi. cbn [json_truthy Py.truthy String.eqb Ascii.eqb Bool.eqb negb].
  unfold bind at 1. cbn [now]. unfold bind at 1. cbn [get_state].
  cbn [json_is String.eqb Ascii.eqb Bool.eqb].
  unfold bind at 1. unfold bind at 1. cbn [want_str ret]. unfold bind at 1.
  rewrite Hset. cbn [ret fst snd].
  destruct s1 as [o1 out1 cfg1 nm1].
  destruct success; [ | reflexivity ].
  destruct (json_truthy match dict_get "reboot" fields with
                        | Some v => v
                        | None => JBool false
                        end) eqn:Hr.
  - unfold bind, _publish_network_response, publish_on, try_except, now, sleep, on_os.
    cbn. rewrite Hr. cbn. destruct (os_system _ _). reflexivity.
  - unfold bind, _publish_network_response, publish_on, try_except, now.
    cbn. rewrite Hr. reflexivity.
Qed.

End Reboot.

Lemma dhcp_request_outcome_witness :
  fst (_handle_set_network_config (H := host_with [dhcp_reboot_request] true)
         (Sample.dumps dhcp_reboot_request) (agent_with [dhcp_reboot_request] true))
  = Ok tt.
Proof.
  refine (f_equal fst
            (dhcp_request_outcome (H := host_with [dhcp_reboot_request] true)
               (Sample.dumps dhcp_reboot_request)
               [("interface", JStr "eth0"); ("method", JStr "dhcp");
                ("reboot", JBool true)]
               "eth0" "DHCP configured and activated for eth0" true
               (agent_with [dhcp_reboot_request] true)
               (snd (set_dynamic_ip (H := host_with [dhcp_reboot_request] true) "eth0"
                       (agent_with [dhcp_reboot_request] true)))
               _ _ _ _)); reflexivity.
Defined.

(** ** Exactly one response *)

Section YieldFacts.
Context `{Host}.

Lemma yields_ret {A} (P : A -> Prop) (a : A) : P a -> yields P (ret a).
Proof. intros Ha s a' s' [= <- _]. exact Ha. Qed.

Lemma yields_raise {A} (P : A -> Prop) (e : exn) : yields P (raise e).
Proof. intros s a s'. discriminate. Qed.

Lemma yields_beyond {A} (P : A -> Prop) : yields P beyond.
Proof. intros s a s'. discriminate. Qed.

Lemma yields_bind {A B} (Q : A -> Prop) (P : B -> Prop) (m : M A) (k : A -> M B) :
  yields Q m -> (forall a, Q a -> yields P (k a)) -> yields P (bind m k).
Proof.
  intros Hm Hk s b s'. unfold bind.
  destruct (m s) as [[a | e |] s1] eqn:Hms; [ | discriminate | discriminate].
  apply (Hk a (Hm s a s1 Hms)).
Qed.

Lemma yields_any {A} (m : M A) : yields (fun _ => True) m.
Proof. intros s a s' _. exact I. Qed.

Lemma yields_bind_any {A B} (P : B -> Prop) (m : M A) (k : A -> M B) :
  (forall a, yields P (k a)) -> yields P (bind m k).
Proof. intros Hk. apply (yields_bind (fun _ => True)); [apply yields_any | auto]. Qed.

Lemma yields_try_except {A} (P : A -> Prop) (m : M A) (h : exn -> M A) :
  yields P m -> (forall e, yields P (h e)) -> yields P (try_except m h).
Proof.
  intros Hm Hh s a s'. unfold try_except.
  destruct (m s) as [[a1 | e |] s1] eqn:Hms; [ | | discriminate].
  - intros [= <- _]. exact (Hm s a1 s1 Hms).
  - apply Hh.
Qed.

Lemma yields_try_except_if {A} (P : A -> Prop) (kind : exn -> bool) (m : M A)
    (h : exn -> M A) :
  yields P m -> (forall e, yields P (h e)) -> yields P (try_except_if kind m h).
Proof.
  intros Hm Hh s a s'. unfold try_except_if.
  destruct (m s) as [[a1 | e |] s1] eqn:Hms; [ | | discriminate].
  - intros [= <- _]. exact (Hm s a1 s1 Hms).
  - destruct (kind e); [apply Hh | discriminate].
Qed.

Lemma yields_lift_exc {A} (P : A -> Prop) (r : Exc A) :
  (forall a, r = inr a -> P a) -> yields P (lift_exc r).
Proof.
  intros Hr s a s'. destruct r as [e | a1]; cbn [lift_exc]; [discriminate | ].
  intros [= <- _]. apply Hr. reflexivity.
Qed.

End YieldFacts.

Ltac yields_tac :=
  repeat first
    [ match goal with
      | |- yields _ (ret _) => apply yields_ret
      | |- yields _ (raise _) => apply yields_raise
      | |- yields _ beyond => apply yields_beyond
      | |- yields _ (try_except _ _) => apply yields_try_except; [ | intros ]
      | |- yields _ (try_except_if _ _ _) => apply yields_try_except_if; [ | intros ]
      | |- yields _ (if ?b then _ else _) => destruct b
      | |- yields _ (match ?x with _ => _ end) => destruct x
      | |- yields _ (let (_, _) := ?x in _) => destruct x
      end ].

(** *** Depth of what the readers report *)

Lemma depth_set_text (k v : string) (d : dict) :
  (depth (JObj d) <= 1)%nat -> (depth (JObj (dict_set k (JStr v) d)) <= 1)%nat.
Proof. intros Hd. pose proof (depth_dict_set k (JStr v) d) as Hs. cbn [depth] in *. lia. Qed.

Lemma depth_set_entry (k : string) (entry d : dict) :
  (depth (JObj entry) <= 1)%nat -> (depth (JObj d) <= 2)%nat ->
  (depth (JObj (dict_set k (JObj entry) d)) <= 2)%nat.
Proof.
  intros He Hd. pose proof (depth_dict_set k (JObj entry) d) as Hs. lia.
Qed.

Lemma depth_dict_get (k : string) (d : dict) (v : Json) :
  dict_get k d = Some v -> (S (depth v) <= depth (JObj d))%nat.
Proof.
  induction d as [| [k' v'] r IH]; cbn [dict_get]; [discriminate | ].
  rewrite depth_fields. destruct (String.eqb k k').
  - intros [= <-]. lia.
  - intros Hg. specialize (IH Hg). lia.
Qed.

Lemma depth_set_field (name key value : string) (interfaces : dict) :
  (depth (JObj interfaces) <= 2)%nat ->
  (depth (JObj (set_field name key value interfaces)) <= 2)%nat.
Proof.
  intros Hd. unfold set_field.
  destruct (dict_get name interfaces) as [[ | | | | | entry] | ] eqn:Hg; try exact Hd.
  apply depth_dict_get in Hg.
  apply depth_set_entry; [ | exact Hd].
  apply depth_set_text. lia.
Qed.

Lemma depth_default_dhcp (iface : string) (interfaces : dict) :
  (depth (JObj interfaces) <= 2)%nat ->
  (depth (JObj (default_dhcp iface interfaces)) <= 2)%nat.
Proof.
  intros Hd. unfold default_dhcp. destruct (dict_has iface interfaces); [exact Hd | ].
  apply depth_set_entry; [cbn; lia | exact Hd].
Qed.

Lemma depth_ensure_entry (name : string) (interfaces : dict) :
  (depth (JObj interfaces) <= 2)%nat ->
  (depth (JObj (ensure_entry name interfaces)) <= 2)%nat.
Proof.
  intros Hd. unfold ensure_entry. destruct (dict_has name interfaces); [exact Hd | ].
  apply depth_set_entry; [cbn; lia | exact Hd].
Qed.

Lemma depth_dhcpcd_line (raw : string) (st st' : option string * dict) :
  (depth (JObj (snd st)) <= 2)%nat -> dhcpcd_line raw st = inr st' ->
  (depth (JObj (snd st')) <= 2)%nat.
Proof.
  destruct st as [cur interfaces]. cbn [snd]. intros Hd. unfold dhcpcd_line.
  repeat match goal with
         | |- context [if ?b then _ else _] => destruct b
         | |- context [match item ?l ?n with _ => _ end] => destruct (item l n)
         | |- context [match ?c with Some _ => _ | None => _ end] => destruct c
         end;
    try discriminate; intros [= <-]; cbn [snd];
    auto using depth_set_field.
  apply depth_set_entry; [cbn; lia | exact Hd].
Qed.

Lemma depth_interfaces_line (raw : string) (st st' : option string * dict) :
  (depth (JObj (snd st)) <= 2)%nat -> interfaces_line raw st = inr st' ->
  (depth (JObj (snd st')) <= 2)%nat.
Proof.
  destruct st as [cur interfaces]. cbn [snd]. intros Hd. unfold interfaces_line.
  repeat match goal with
         | |- context [if ?b then _ else _] => destruct b
         | |- context [match item ?l ?n with _ => _ end] => destruct (item l n)
         | |- context [match Py.split_ws ?l with _ => _ end] => destruct (Py.split_ws l)
         | |- context [match Py.split_ws_1 ?l with _ => _ end] => destruct (Py.split_ws_1 l)
         | |- context [match ?c with Some _ => _ | None => _ end] => destruct c
         | |- context [match ?c with [] => _ | _ :: _ => _ end] => destruct c
         end;
    try discriminate; intros [= <-]; cbn [snd];
    auto using depth_set_field, depth_ensure_entry.
Qed.

Lemma depth_apply_con_line (con_line : string) (entry entry' : dict) :
  (depth (JObj entry) <= 1)%nat -> apply_con_line con_line entry = inr entry' ->
  (depth (JObj entry') <= 1)%nat.
Proof.
  intros Hd. unfold apply_con_line.
  repeat match goal with
         | |- context [if ?b then _ else _] => destruct b
         | |- context [match Py.int ?t with _ => _ end] => destruct (Py.int t)
         | |- context [match Py.split_max ?c ?n ?l with _ => _ end] =>
             destruct (Py.split_max c n l) as [| ? [| ? [| ? ?]]]
         end;
    try discriminate; intros [= <-]; auto using depth_set_text.
Qed.

Lemma depth_apply_current_address (out : string) (entry entry' : dict) :
  (depth (JObj entry) <= 1)%nat -> apply_current_address out entry = inr entry' ->
  (depth (JObj entry') <= 1)%nat.
Proof.
  intros Hd. unfold apply_current_address.
  repeat match goal with
         | |- context [if ?b then _ else _] => destruct b
         | |- context [match item ?l ?n with _ => _ end] => destruct (item l n)
         | |- context [match find ?f ?l with _ => _ end] => destruct (find f l)
         end;
    try discriminate; intros [= <-]; auto using depth_set_text.
Qed.

Section ReaderDepth.
Context `{Host}.

Lemma yields_read_device (device type_name state connection : string)
    (interfaces : dict) :
  (depth (JObj interfaces) <= 2)%nat ->
  yields (fun i => (depth (JObj i) <= 2)%nat)
    (read_device device type_name state connection interfaces).
Proof.
  intros Hd. unfold read_device.
  apply (yields_bind (fun f : string * dict => (depth (JObj (snd f)) <= 1)%nat)).
  { yields_tac; try (apply yields_bind_any; intros; yields_tac);
      cbn [snd]; try (apply depth_set_text); cbn; lia. }
  intros found Hfound.
  apply (yields_bind (fun e : dict => (depth (JObj e) <= 1)%nat)).
  { yields_tac; try exact Hfound.
    apply yields_bind_any; intros con_result.
    apply yields_lift_exc. intros e2 He2.
    exact (fold_exc_keeps apply_con_line (fun e => (depth (JObj e) <= 1)%nat) _
             depth_apply_con_line _ _ Hfound He2). }
  intros entry2 H2.
  apply (yields_bind (fun e : dict => (depth (JObj e) <= 1)%nat)).
  { yields_tac; try exact H2.
    apply yields_bind_any; intros ip_result.
    apply yields_lift_exc. intros e3 He3.
    exact (depth_apply_current_address _ _ _ H2 He3). }
  intros entry3 H3. apply yields_ret. apply depth_set_entry; assumption.
Qed.

Lemma yields_read_devices (lines : list string) : forall interfaces,
  (depth (JObj interfaces) <= 2)%nat ->
  yields (fun i => (depth (JObj i) <= 2)%nat) (read_devices lines interfaces).
Proof.
  induction lines as [| line rest IH]; intros interfaces Hd; cbn [read_devices].
  - apply yields_ret. exact Hd.
  - apply (yields_bind (fun i => (depth (JObj i) <= 2)%nat)); [ | exact IH].
    destruct (Py.truthy line); [ | apply yields_ret; exact Hd].
    destruct (Py.split ":"%char line) as [| device [| type_name [| state [| connection r]]]];
      try (apply yields_ret; exact Hd).
    destruct (_ || _); [ | apply yields_ret; exact Hd].
    apply yields_read_device. exact Hd.
Qed.

Lemma yields_read_current_ip_config :
  yields (fun r : bool * Json => (depth (snd r) <= 2)%nat) read_current_ip_config.
Proof.
  unfold read_current_ip_config.
  apply yields_try_except; [ | intros; apply yields_ret; cbn; lia].
  apply yields_bind_any; intros s.
  destruct (String.eqb _ "networkmanager").
  { unfold _read_networkmanager_config.
    apply yields_try_except; [ | intros; yields_tac; cbn; lia].
    apply yields_bind_any; intros result.
    apply (yields_bind (fun i => (depth (JObj i) <= 2)%nat)).
    - apply yields_read_devices. cbn; lia.
    - intros i Hi. apply yields_ret. exact Hi. }
  destruct (String.eqb _ "dhcpcd").
  { unfold _read_dhcpcd_config.
    apply yields_try_except; [ | intros; yields_tac; cbn; lia].
    apply yields_bind_any; intros present.
    apply (yields_bind (fun i => (depth (JObj i) <= 2)%nat)).
    - destruct present; [ | apply yields_ret; cbn; lia].
      apply yields_bind_any; intros content.
      apply (yields_bind (fun st : option string * dict =>
                            (depth (JObj (snd st)) <= 2)%nat)).
      + apply yields_lift_exc. intros st Hst.
        refine (fold_exc_keeps dhcpcd_line
                  (fun st => (depth (JObj (snd st)) <= 2)%nat) _
                  (fun x acc acc' Ha Hx => depth_dhcpcd_line x acc acc' Ha Hx)
                  _ _ _ Hst).
        cbn; lia.
      + intros st Hst. apply yields_ret. exact Hst.
    - intros i Hi. apply yields_ret. cbn [snd].
      apply depth_default_dhcp, depth_default_dhcp. exact Hi. }
  destruct (String.eqb _ "interfaces").
  { unfold _read_interfaces_config.
    apply yields_try_except; [ | intros; yields_tac; cbn; lia].
    apply yields_bind_any; intros present.
    destruct (negb present); [apply yields_ret; cbn; lia | ].
    apply yields_bind_any; intros content. apply yields_ret. cbn [snd].
    unfold parse_interfaces_file.
    destruct (fold_exc interfaces_line _ _) as [e | st] eqn:Hst; [cbn; lia | ].
    refine (fold_exc_keeps interfaces_line
              (fun st => (depth (JObj (snd st)) <= 2)%nat) _
              (fun x acc acc' Ha Hx => depth_interfaces_line x acc acc' Ha Hx)
              _ _ _ Hst).
    cbn; lia. }
  apply yields_ret. cbn; lia.
Qed.

End ReaderDepth.

(** *** Depth of what the WiFi operations report *)

Lemma depth_networks (l : list WifiNetwork) :
  (depth (JArr (map json_of_network l)) <= 2)%nat.
Proof.
  induction l as [| n r IH]; [cbn; lia | ].
  cbn [map]. cbn [depth fold_right] in *.
  change (depth (json_of_network n)) with 1%nat. lia.
Qed.

Lemma filter_map_all {A B} (P : B -> Prop) (f : A -> option B) (l : list A) :
  (forall x y, f x = Some y -> P y) -> Forall P (filter_map f l).
Proof.
  intros Hf. induction l as [| x r IH]; cbn [filter_map]; [constructor | ].
  destruct (f x) as [y | ] eqn:Hx; [ | exact IH].
  constructor; [exact (Hf x y Hx) | exact IH].
Qed.

Lemma depth_saved_line (is_connected : bool) (current : option CurrentNetwork)
    (line : string) (n : SavedNetwork) :
  saved_line is_connected current line = Some n -> depth (sv_is_current n) = O.
Proof.
  unfold saved_line.
  destruct (Py.split ":"%char line) as [| p0 [| p1 r]]; try discriminate.
  destruct (String.eqb p1 "802-11-wireless"); [ | discriminate].
  intros [= <-]. cbn [sv_is_current].
  destruct (negb is_connected); [reflexivity | ]. destruct current; reflexivity.
Qed.

Lemma depth_saved (l : list SavedNetwork) :
  Forall (fun n => depth (sv_is_current n) = O) l ->
  (depth (JArr (map json_of_saved l)) <= 2)%nat.
Proof.
  induction 1 as [| n r Hn _ IH]; [cbn; lia | ].
  cbn [map]. cbn [depth fold_right json_of_saved snd] in *. rewrite Hn. lia.
Qed.

Lemma depth_app (a b : dict) :
  depth (JObj (List.app a b)) = Nat.max (depth (JObj a)) (depth (JObj b)).
Proof.
  induction a as [| [k v] r IH]; [reflexivity | ].
  cbn [List.app]. rewrite !depth_fields, IH. lia.
Qed.

Lemma depth_status (w : WifiStatus) :
  Forall (fun n => depth (sv_is_current n) = O) (saved_networks w) ->
  (depth (json_of_status w) <= 3)%nat.
Proof.
  intros Hs. pose proof (depth_saved _ Hs) as Hd.
  unfold json_of_status. rewrite !depth_app, !depth_fields.
  assert (Hc : (depth match current_network w with
                      | Some c => json_of_current c
                      | None => JNull
                      end <= 1)%nat).
  { destruct (current_network w) as [c | ]; [ | cbn; lia].
    unfold json_of_current. rewrite !depth_fields.
    destruct (cn_ip_address c), (cn_signal_strength c); cbn; lia. }
  assert (Hstate : (depth (JObj match device_state w with
                                | Some d => [("device_state", JStr d)]
                                | None => []
                                end) <= 1)%nat)
    by (destruct (device_state w); cbn; lia).
  assert (Herr : (depth (JObj match status_error w with
                              | Some e => [("error", JStr e)]
                              | None => []
                              end) <= 1)%nat)
    by (destruct (status_error w); cbn; lia).
  change (depth (JBool (connected w))) with O.
  change (depth (JObj [])) with 1%nat.
  lia.
Qed.

Section StatusDepth.
Context `{Host}.

Lemma yields_get_wifi_status :
  yields (fun w => (depth (json_of_status w) <= 3)%nat) get_wifi_status.
Proof.
  unfold get_wifi_status.
  apply yields_try_except;
    [ | intros; apply yields_ret; apply depth_status; constructor].
  apply yields_bind_any; intros status_r.
  destruct (negb (fst status_r));
    [apply yields_ret; apply depth_status; constructor | ].
  apply yields_bind_any; intros found.
  apply yields_bind_any; intros saved_r.
  apply yields_ret. apply depth_status. cbn [saved_networks].
  destruct (fst saved_r); [ | constructor].
  apply filter_map_all. intros x y. apply depth_saved_line.
Qed.

End StatusDepth.

(** *** Handlers whose responses can be serialised *)

Section ExactFacts.
Context `{Host}.

Lemma publish_on_run (topic_key topic : string) (head data : dict) (s : St) :
  topic_of topic_key = Some topic ->
  (depth (JObj head) <= 8)%nat ->
  (depth (JObj data) <= 8 + dumps_room)%nat ->
  publish_on topic_key head data s = (Ok tt, published s topic (dict_update head data)).
Proof.
  intros Ht Hh Hd. unfold publish_on, try_except, publish, serialisable. rewrite Ht.
  replace (Nat.leb _ _) with true; [reflexivity | ].
  symmetry. apply Nat.leb_le. pose proof (depth_dict_update data head). lia.
Qed.

Lemma sends_response (status : string) (data : dict) :
  (depth (JObj data) <= 8 + dumps_room)%nat ->
  sends "rpi/config/response" (_publish_response status data).
Proof.
  intros Hd s. eexists.
  refine (publish_on_run "response" _ _ data s eq_refl _ Hd). cbn. lia.
Qed.

Lemma sends_network (status : string) (data : dict) :
  (depth (JObj data) <= 8 + dumps_room)%nat ->
  sends "rpi/network/response" (_publish_network_response status data).
Proof.
  intros Hd s. eexists.
  refine (publish_on_run "network_response" _ _ data s eq_refl _ Hd). cbn. lia.
Qed.

Lemma sends_wifi (topic_key topic : string) (data : dict) :
  topic_of topic_key = Some topic ->
  (depth (JObj data) <= 8 + dumps_room)%nat ->
  sends topic (_publish_wifi_response topic_key data).
Proof.
  intros Ht Hd s. eexists.
  refine (publish_on_run topic_key _ _ data s Ht _ Hd). cbn. lia.
Qed.

Lemma sends_wifi_status (data : dict) :
  (depth (JObj data) <= 8 + dumps_room)%nat ->
  sends "rpi/wifi/status/response" (_publish_wifi_status_response data).
Proof.
  intros Hd s. eexists.
  refine (publish_on_run "wifi_status_response" _ _ data s eq_refl _ Hd). cbn. lia.
Qed.

Lemma fails_raise (topic : string) (e : exn) : answers_or_fails topic (raise e).
Proof. intros s. reflexivity. Qed.

Lemma fails_beyond (topic : string) : answers_or_fails topic beyond.
Proof. intros s. reflexivity. Qed.

Lemma fails_bind_yields (topic : string) {A} (P : A -> Prop) (m : M A)
    (k : A -> M unit) :
  mute m -> yields P m -> (forall a, P a -> answers_or_fails topic (k a)) ->
  answers_or_fails topic (bind m k).
Proof.
  intros Hm Hy Hk s. unfold bind. specialize (Hm s).
  destruct (m s) as [[a | e |] s1] eqn:Hms; cbn [snd] in Hm; [ | exact Hm | exact Hm].
  specialize (Hk a (Hy s a s1 Hms) s1). unfold exactly_one in *.
  rewrite Hm in Hk. exact Hk.
Qed.

Lemma fails_bind (topic : string) {A} (m : M A) (k : A -> M unit) :
  mute m -> (forall a, answers_or_fails topic (k a)) ->
  answers_or_fails topic (bind m k).
Proof.
  intros Hm Hk.
  apply (fails_bind_yields topic (fun _ => True)); [exact Hm | apply yields_any | auto].
Qed.

Lemma fails_bind_want_str (topic : string) (v : Json) (k : string -> M unit) :
  (forall t, v = JStr t -> answers_or_fails topic (k t)) ->
  answers_or_fails topic (bind (want_str v) k).
Proof.
  intros Hk. destruct v as [ | b | n | t | l | f]; try (intros st; reflexivity).
  intros st. exact (Hk t eq_refl st).
Qed.

Lemma fails_publish (topic : string) (p : M unit) :
  sends topic p -> answers_or_fails topic p.
Proof. intros Hp s. destruct (Hp s) as (body & ->). exists body. reflexivity. Qed.

Lemma fails_publish_then (topic : string) (p tail : M unit) :
  sends topic p -> total tail -> answers_or_fails topic (bind p (fun _ => tail)).
Proof.
  intros Hp Ht s. unfold bind. destruct (Hp s) as (body & ->).
  destruct (Ht (published s topic body)) as (a & o & ->).
  exists body. reflexivity.
Qed.

(** A handler whose body answers or fails, and whose error response is
    serialised, answers from every state it does not leave the embedding
    from. *)
Lemma answers_of_fails (topic : string) (m : M unit) (h : exn -> M unit) (s : St) :
  answers_or_fails topic m -> (forall e, sends topic (h e)) ->
  fst (try_except m h s) <> Beyond ->
  answers_from topic (try_except m h) s.
Proof.
  intros Hm Hh. unfold answers_from, try_except. specialize (Hm s).
  destruct (m s) as [[[] | e |] s1]; cbn [fst].
  - intros _. destruct Hm as (body & Hb). exists s1, body. split; [reflexivity | exact Hb].
  - intros _. destruct (Hh e s1) as (body & ->). exists (published s1 topic body), body.
    split; [reflexivity | ]. cbn [published outbox with_outbox]. rewrite Hm. reflexivity.
  - intros Hb. congruence.
Qed.

End ExactFacts.

Ltac depth_tac :=
  cbn [depth fold_right snd fst dict_set dict_update fold_left
       String.eqb Ascii.eqb Bool.eqb] in *;
  lia.

Ltac fails_tac :=
  repeat first
    [ match goal with
      | |- answers_or_fails _ (raise _) => apply fails_raise
      | |- answers_or_fails _ beyond => apply fails_beyond
      | |- answers_or_fails _ (bind (want_str _) _) =>
          apply fails_bind_want_str; intros ? ?; subst
      | |- answers_or_fails _ (bind (_publish_network_response _ _) _) =>
          apply fails_publish_then;
          [ apply sends_network; depth_tac | solve [total_tac] ]
      | |- answers_or_fails _ (bind _ _) =>
          apply fails_bind; [ solve [mute_tac] | intros ]
      | |- answers_or_fails _ (_publish_wifi_response _ (if ?b then _ else _)) =>
          destruct b
      | |- answers_or_fails _ (_publish_wifi_status_response (match ?x with _ => _ end)) =>
          destruct x
      | |- answers_or_fails _ (_publish_response _ _) =>
          apply fails_publish, sends_response; depth_tac
      | |- answers_or_fails _ (_publish_network_response _ _) =>
          apply fails_publish, sends_network; depth_tac
      | |- answers_or_fails _ (_publish_wifi_response _ _) =>
          apply fails_publish; eapply sends_wifi; [ reflexivity | depth_tac ]
      | |- answers_or_fails _ (_publish_wifi_status_response _) =>
          apply fails_publish, sends_wifi_status; depth_tac
      | |- answers_or_fails _ (if ?b then _ else _) => destruct b
      | |- answers_or_fails _ (match ?x with _ => _ end) => destruct x
      end
    | progress cbv beta zeta ].

Section ExactHandlers.
Context `{Host}.

Lemma handle_set_config_answers (payload_str : string) (s : St) :
  fst (_handle_set_config payload_str s) <> Beyond ->
  answers_from "rpi/config/response" (_handle_set_config payload_str) s.
Proof.
  unfold _handle_set_config.
  apply answers_of_fails; [ | intros; apply sends_response; depth_tac ].
  fails_tac.
Qed.

Lemma handle_get_network_config_answers (s : St) :
  fst (_handle_get_network_config s) <> Beyond ->
  answers_from "rpi/network/response" _handle_get_network_config s.
Proof.
  unfold _handle_get_network_config.
  apply answers_of_fails; [ | intros; apply sends_network; depth_tac ].
  apply (fails_bind_yields _ (fun r : bool * Json => (depth (snd r) <= 2)%nat));
    [ solve [mute_tac] | apply yields_read_current_ip_config | ].
  intros r Hr. fails_tac.
Qed.

Lemma handle_wifi_scan_answers (s : St) :
  fst (_handle_wifi_scan s) <> Beyond ->
  answers_from "rpi/wifi/scan_response" _handle_wifi_scan s.
Proof.
  unfold _handle_wifi_scan.
  apply answers_of_fails;
    [ | intros; eapply sends_wifi; [ reflexivity | depth_tac ] ].
  apply fails_bind; [ solve [mute_tac] | intros l ].
  pose proof (depth_networks l). fails_tac.
Qed.

Lemma handle_wifi_connect_answers (payload_str : string) (s : St) :
  fst (_handle_wifi_connect payload_str s) <> Beyond ->
  answers_from "rpi/wifi/connect_response" (_handle_wifi_connect payload_str) s.
Proof.
  unfold _handle_wifi_connect.
  apply answers_of_fails;
    [ | intros; eapply sends_wifi; [ reflexivity | depth_tac ] ].
  fails_tac.
Qed.

Lemma handle_wifi_disconnect_answers (s : St) :
  fst (_handle_wifi_disconnect s) <> Beyond ->
  answers_from "rpi/wifi/disconnect_response" _handle_wifi_disconnect s.
Proof.
  unfold _handle_wifi_disconnect.
  apply answers_of_fails;
    [ | intros; eapply sends_wifi; [ reflexivity | depth_tac ] ].
  fails_tac.
Qed.

Lemma handle_wifi_delete_answers (payload_str : string) (s : St) :
  fst (_handle_wifi_delete payload_str s) <> Beyond ->
  answers_from "rpi/wifi/delete_response" (_handle_wifi_delete payload_str) s.
Proof.
  unfold _handle_wifi_delete.
  apply answers_of_fails;
    [ | intros; eapply sends_wifi; [ reflexivity | depth_tac ] ].
  fails_tac.
Qed.

Lemma handle_wifi_status_get_answers (s : St) :
  fst (_handle_wifi_status_get s) <> Beyond ->
  answers_from "rpi/wifi/status/response" _handle_wifi_status_get s.
Proof.
  unfold _handle_wifi_status_get.
  apply answers_of_fails.
  - apply (fails_bind_yields _ (fun w => (depth (json_of_status w) <= 3)%nat));
      [ solve [mute_tac] | apply yields_get_wifi_status | ].
    intros w Hw. fails_tac.
  - intros e st. eexists.
    refine (publish_on_run "wifi_status_response" _ _ _ st eq_refl _ _); cbn; lia.
Qed.

Lemma yields_bind_want_str {B} (P : B -> Prop) (v : Json) (k : string -> M B) :
  (forall t, v = JStr t -> yields P (k t)) -> yields P (bind (want_str v) k).
Proof.
  intros Hk. destruct v as [ | b | n | t | l | f];
    try (intros st x st'; discriminate).
  intros st. exact (Hk t eq_refl st).
Qed.

Lemma handle_set_network_config_answers (payload_str : string) (s : St) :
  fst (_handle_set_network_config payload_str s) <> Beyond ->
  answers_from "rpi/network/response" (_handle_set_network_config payload_str) s.
Proof.
  unfold _handle_set_network_config.
  apply answers_of_fails; [ | intros; apply sends_network; depth_tac ].
  apply fails_bind; [ solve [mute_tac] | intros payload ].
  destruct payload as [ | | | | | f]; try solve [intros ?; reflexivity].
  cbn [py_get lift_exc].
  apply fails_bind; [ solve [mute_tac] | intros interface ].
  apply fails_bind; [ solve [mute_tac] | intros method ].
  destruct (negb (json_truthy method)); [apply fails_raise | ].
  apply fails_bind; [ solve [mute_tac] | intros ts ].
  apply fails_bind; [ solve [mute_tac] | intros st ].
  cbv zeta.
  apply (fails_bind_yields _
           (fun outcome : bool * string * dict =>
              (depth (JObj (snd outcome)) <= 1)%nat)).
  - mute_tac.
  - destruct method as [ | b | n | m | l | g]; cbn [json_is]; try apply yields_raise.
    destruct (String.eqb m "static").
    + apply yields_bind_any; intros static_ip.
      apply yields_bind_any; intros netmask.
      apply yields_bind_any; intros gateway.
      apply yields_bind_any; intros dns.
      destruct (negb (json_truthy static_ip)); [apply yields_raise | ].
      apply yields_bind_any; intros gw.
      apply yields_bind_want_str; intros interface_s ->.
      apply yields_bind_want_str; intros static_ip_s ->.
      apply yields_bind_want_str; intros netmask_s ->.
      apply yields_bind_want_str; intros dns_s ->.
      apply yields_bind_any; intros r. apply yields_ret. depth_tac.
    + destruct (String.eqb m "dhcp"); [ | apply yields_raise].
      apply yields_bind_want_str; intros interface_s ->.
      apply yields_bind_any; intros r. apply yields_ret. depth_tac.
  - intros outcome Ho.
    apply fails_publish_then; [ | solve [total_tac] ].
    apply sends_network.
    pose proof (depth_set_text "message" (snd (fst outcome)) _
                  (depth_set_text "status" (status_word (fst (fst outcome))) _ Ho)).
    lia.
Qed.

Lemma load_config_run (s : St) :
  exists v,
    load_config s = (Ok tt, with_config s v) /\
    (config_fits (os s) -> (depth v < 8 + dumps_room)%nat).
Proof.
  unfold load_config, try_except, bind, path_exists, read_file, loads, set_config.
  destruct (os_exists config_path (os s)).
  - destruct (os_read config_path (os s)) as [e | text] eqn:Hr.
    + exists (JObj []). split; [reflexivity | intros _; cbn; lia].
    + destruct (json_loads text) as [v | ] eqn:Hv.
      * exists v. split; [reflexivity | ]. intros Hfit. exact (Hfit text v Hr Hv).
      * exists (JObj []). split; [reflexivity | intros _; cbn; lia].
  - exists (JObj []). split; [reflexivity | intros _; cbn; lia].
Qed.

Lemma handle_get_config_answers (s : St) :
  config_fits (os s) ->
  answers_from "rpi/config/response" _handle_get_config s.
Proof.
  intros Hfit. destruct (load_config_run s) as (v & Hload & Hv).
  specialize (Hv Hfit).
  unfold answers_from, _handle_get_config, try_except.
  unfold bind at 1. rewrite Hload.
  unfold bind, now, get_state. cbn [config with_config].
  destruct (sends_response "success"
              [("action", JStr "get_config"); ("status", JStr "success");
               ("timestamp", JStr (os_now (os (with_config s v)))); ("config", v)]
              ltac:(depth_tac) (with_config s v)) as (body & ->).
  eexists. exists body. split; [reflexivity | reflexivity].
Qed.

End ExactHandlers.

Section ExactRequests.
Context `{Host}.

Lemma answers_from_guarded (topic : string) (m : M unit) (h : exn -> M unit) (s : St) :
  answers_from topic m s -> answers_from topic (try_except m h) s.
Proof.
  intros (s' & body & Hm & Hb). exists s', body. split; [ | exact Hb].
  unfold try_except. rewrite Hm. reflexivity.
Qed.

Lemma route_answers_from (topic response text : string) (s : St) :
  In (topic, response) routes ->
  (In topic requests_with_text -> well_typed_request text) ->
  (topic = "rpi/config/get" -> config_fits (os s)) ->
  answers_from response (route topic text) s.
Proof.
  intros Hin Hwt Hfit. unfold routes in Hin. cbn [In] in Hin.
  unfold requests_with_text in Hwt. cbn [In] in Hwt.
  repeat (destruct Hin as [Hin | Hin];
          [ injection Hin as <- <-; unfold route; cbn [String.eqb Ascii.eqb Bool.eqb]
          | ]); [ .. | contradiction ].
  - apply handle_get_config_answers, Hfit. reflexivity.
  - apply handle_set_config_answers, typed_handle_set_config.
  - apply handle_get_network_config_answers, typed_handle_get_network_config.
  - apply handle_set_network_config_answers, typed_handle_set_network_config. tauto.
  - apply handle_wifi_scan_answers, typed_handle_wifi_scan.
  - apply handle_wifi_connect_answers, typed_handle_wifi_connect. tauto.
  - apply handle_wifi_disconnect_answers, typed_handle_wifi_disconnect.
  - apply handle_wifi_delete_answers, typed_handle_wifi_delete. tauto.
  - apply handle_wifi_status_get_answers, typed_handle_wifi_status_get.
Qed.

End ExactRequests.

(** X2. For a message on one of the nine request topics whose payload
    decodes, and whose text fields, where the handler reads any, are JSON
    strings, [_on_message] returns after publishing exactly one message,
    on the response topic of the request, provided that, for a request
    of the configuration, the configuration file is not nested deeper
    than [json.dumps] can follow: whatever else the host does (a command
    that fails, times out or is missing, a file that cannot be read or
    written, a payload that is not JSON or lacks a field), the requester
    gets one answer. *)
Theorem on_message_answers `{Host} (msg : Message) (text response : string) (s : St) :
  decode_utf8 (msg_payload msg) = inr text ->
  (In (msg_topic msg) requests_with_text -> well_typed_request text) ->
  (msg_topic msg = "rpi/config/get" -> config_fits (os s)) ->
  In (msg_topic msg, response) routes ->
  answers_from response (_on_message msg) s.
Proof.
  intros Hd Hwt Hfit Hin. rewrite (on_message_decoded msg text Hd).
  apply answers_from_guarded, route_answers_from; assumption.
Qed.

Lemma on_message_answers_witness :
  answers_from (H := host_with [config_request] true) "rpi/config/response"
    (_on_message get_config_message)
    (agent_with_file [config_request] config_request).
Proof.
  apply (on_message_answers (H := host_with [config_request] true)
           get_config_message "" "rpi/config/response").
  - reflexivity.
  - simpl. intros Hin. exfalso.
    repeat (destruct Hin as [Hin | Hin]; [ discriminate Hin | ]). exact Hin.
  - intros _ text v Hr Hl. vm_compute in Hr. injection Hr as <-.
    vm_compute in Hl. injection Hl as <-. vm_compute. lia.
  - simpl. tauto.
Defined.

(** A configuration file of 989 arrays inside one another, on a host
    where [json.dumps] follows 980: the request for the configuration
    is not answered at all. *)
Example get_config_deep_unanswered :
  _on_message (H := host_with [deep_config] true) get_config_message
    (agent_with_file [deep_config] deep_config)
  = (Ok tt, with_config (agent_with_file [deep_config] deep_config) deep_config).
Proof. vm_compute. reflexivity. Qed.
